(** * The A2A task protocol engine of the AI Agency System

    A shallow embedding of [agency/communication/a2a_server.py] (class
    [A2AServer]) and of the discovery-card builder of
    [agency/agent_factory.py], with the properties of the protocol
    specification stated and settled over it; then of the registry
    [agency/agent_registry.py] and of the operations of the factory on
    agents, with further properties of the code.

    Conventions of the embedding.
    - A Python [str] is a [string]; each character stands for the code
      point of the same number, so the model covers the code points
      0..255.
    - A value decoded from JSON is a [json]; numbers are integers (the
      floats of JSON are outside the model).  A dict is the list of its
      items in insertion order.
    - A Python exception is the outcome [Raise].  A function of type
      [result] has no effect when it raises: the handlers of that type
      write to the store only after their last operation that can raise.
      The handlers of [tasks/sendSubscribe] raise after they have stored
      their task: they, and the two POST handlers that call them, give the
      server they leave together with what they return or raise.
    - [uuid.uuid4()] is an argument of the handler that calls it.
    - The handlers are coroutines of one event loop: a handler runs from
      its start to its end without another one running in between.  The
      generator [stream_response] is embedded as it would run, from one
      [yield] to the next; no handler runs it. *)

From Stdlib Require Import ZArith NArith Ascii String DecimalString Lia.
From stdpp Require Import base option list strings relations.

Local Open Scope Z_scope.

(** ** JSON values and exceptions *)

#[local] Set Warnings "-register-all".

Inductive json : Type :=
| JNull
| JBool (b : bool)
| JNum (z : Z)
| JStr (s : string)
| JArr (l : list json)
| JObj (items : list (string * json)).

Inductive exn : Type :=
| AttributeError | TypeError | KeyError | IndexError.

Inductive result (A : Type) : Type :=
| Ok (a : A)
| Raise (e : exn).
Arguments Ok {A} a.
Arguments Raise {A} e.

Global Instance result_ret : MRet result := λ A a, Ok a.
Global Instance result_bind : MBind result := λ A B f m,
  match m with
  | Ok a => f a
  | Raise e => Raise e
  end.

(** A [for] loop whose body may raise, threading the loop state. *)
Fixpoint for_each {A S : Type} (body : S → A → result S) (l : list A)
    (st : S) : result S :=
  match l with
  | [] => Ok st
  | x :: l' => st' ← body st x; for_each body l' st'
  end.

(** A comprehension whose element expression may raise. *)
Fixpoint comprehension {A B : Type} (f : A → result B) (l : list A)
    : result (list B) :=
  match l with
  | [] => Ok []
  | x :: l' => y ← f x; ys ← comprehension f l'; mret (y :: ys)
  end.

(** ** The operations of Python the handlers use *)

Module Py.

(** [c.isspace()] on the code points 0..255: the characters that
    [str.split()] treats as separators. *)
Definition isspace (c : ascii) : bool :=
  let n := N_of_ascii c in
  (((9 <=? n) && (n <=? 13)) || ((28 <=? n) && (n <=? 32))
   || (n =? 133) || (n =? 160))%N.

(** [c.lower()] on the code points 0..255. *)
Definition lower_char (c : ascii) : ascii :=
  let n := N_of_ascii c in
  if (((65 <=? n) && (n <=? 90))
      || ((192 <=? n) && (n <=? 222) && negb (n =? 215)))%N
  then ascii_of_N (n + 32) else c.

(** [s.lower()] *)
Fixpoint lower (s : string) : string :=
  match s with
  | EmptyString => EmptyString
  | String c s' => String (lower_char c) (lower s')
  end.

(** [needle in hay] on strings. *)
Fixpoint contains (needle hay : string) : bool :=
  String.prefix needle hay ||
  match hay with
  | EmptyString => false
  | String _ hay' => contains needle hay'
  end.

(** [sep.join(l)] *)
Fixpoint join (sep : string) (l : list string) : string :=
  match l with
  | [] => ""
  | [x] => x
  | x :: l' => x +:+ sep +:+ join sep l'
  end.

(** [s.split()]: the maximal runs of non-whitespace characters, in order.
    [cur] is the run being read. *)
Fixpoint split_go (cur : string) (s : string) : list string :=
  match s with
  | EmptyString => if decide (cur = "") then [] else [cur]
  | String c s' =>
      if isspace c
      then (if decide (cur = "") then [] else [cur]) ++ split_go "" s'
      else split_go (cur +:+ String c "") s'
  end.

Definition split (s : string) : list string := split_go "" s.

(** [str(n)] for a length. *)
Definition str_of_nat (n : nat) : string :=
  NilEmpty.string_of_uint (Nat.to_uint n).

(** [str(z)] for an integer. *)
Definition str_of_Z (z : Z) : string :=
  NilEmpty.string_of_int (Z.to_int z).

(** The entry of key [k] in the items of a dict. *)
Fixpoint lookup {V : Type} (k : string) (items : list (string * V))
    : option V :=
  match items with
  | [] => None
  | (k', v) :: items' => if String.eqb k' k then Some v else lookup k items'
  end.

(** [d[k] = v] on the items of a dict: an existing key keeps its place. *)
Fixpoint store {V : Type} (k : string) (v : V) (items : list (string * V))
    : list (string * V) :=
  match items with
  | [] => [(k, v)]
  | (k', v') :: items' =>
      if String.eqb k' k then (k', v) :: items'
      else (k', v') :: store k v items'
  end.

(** [bool(v)] *)
Definition truthy (v : json) : bool :=
  match v with
  | JNull => false
  | JBool b => b
  | JNum z => negb (z =? 0)
  | JStr s => negb (String.eqb s "")
  | JArr l => match l with [] => false | _ => true end
  | JObj items => match items with [] => false | _ => true end
  end.

(** [v == s] for a string [s]. *)
Definition eq_str (v : json) (s : string) : bool :=
  match v with
  | JStr t => String.eqb t s
  | _ => false
  end.

(** [d.get(k, dflt)] *)
Definition get_default (d : json) (k : string) (dflt : json) : result json :=
  match d with
  | JObj items => Ok (default dflt (lookup k items))
  | _ => Raise AttributeError
  end.

(** [d.get(k)] *)
Definition get (d : json) (k : string) : result json :=
  get_default d k JNull.

(** [k in d] for a string [k]. *)
Definition has_key (d : json) (k : string) : result bool :=
  match d with
  | JObj items => Ok (bool_decide (is_Some (lookup k items)))
  | JArr l => Ok (existsb (λ x, eq_str x k) l)
  | JStr s => Ok (contains k s)
  | _ => Raise TypeError
  end.

(** [d[k]] for a string [k]. *)
Definition getitem (d : json) (k : string) : result json :=
  match d with
  | JObj items =>
      match lookup k items with
      | Some v => Ok v
      | None => Raise KeyError
      end
  | _ => Raise TypeError
  end.

(** [d[k] = v] for a string [k]. *)
Definition setitem (d : json) (k : string) (v : json) : result json :=
  match d with
  | JObj items => Ok (JObj (store k v items))
  | _ => Raise TypeError
  end.

(** The characters of a string, each as a string. *)
Fixpoint chars (s : string) : list string :=
  match s with
  | EmptyString => []
  | String c s' => String c "" :: chars s'
  end.

(** The values a [for] loop over [v] visits. *)
Definition iter (v : json) : result (list json) :=
  match v with
  | JArr l => Ok l
  | JStr s => Ok (JStr <$> chars s)
  | JObj items => Ok ((λ kv, JStr kv.1) <$> items)
  | _ => Raise TypeError
  end.

(** [len(v)] *)
Definition len (v : json) : result Z :=
  match v with
  | JArr l => Ok (Z.of_nat (length l))
  | JStr s => Ok (Z.of_nat (String.length s))
  | JObj items => Ok (Z.of_nat (length items))
  | _ => Raise TypeError
  end.

(** [v[i]] for an index [0 <= i]. *)
Definition index (v : json) (i : nat) : result json :=
  match v with
  | JArr l => match l !! i with Some x => Ok x | None => Raise IndexError end
  | JStr s =>
      match chars s !! i with
      | Some x => Ok (JStr x)
      | None => Raise IndexError
      end
  | JObj _ => Raise KeyError
  | _ => Raise TypeError
  end.

(** [s + v] for a string [s]. *)
Definition str_add (s : string) (v : json) : result string :=
  match v with
  | JStr t => Ok (s +:+ t)
  | _ => Raise TypeError
  end.

(** [sep.join(v)] *)
Definition join_json (sep : string) (v : json) : result string :=
  items ← iter v;
  strs ← comprehension
            (λ x, match x with JStr s => Ok s | _ => Raise TypeError end)
            items;
  mret (join sep strs).

(** Two hexadecimal digits, as [repr] writes them. *)
Definition hex_digit (n : N) : ascii :=
  if (n <? 10)%N then ascii_of_N (48 + n) else ascii_of_N (87 + n).

Definition hex2 (c : ascii) : string :=
  let n := N_of_ascii c in
  String (hex_digit (n / 16)) (String (hex_digit (n mod 16)) "").

(** [c.isprintable()] on the code points 128..255. *)
Definition isprintable_high (n : N) : bool :=
  ((160 <? n) && negb (n =? 173))%N.

Fixpoint repr_chars (quote : ascii) (s : string) : string :=
  match s with
  | EmptyString => ""
  | String c s' =>
      let n := N_of_ascii c in
      (if Ascii.eqb c quote || (n =? 92)%N then String "\" (String c "")
       else if (n =? 9)%N then "\t"
       else if (n =? 10)%N then "\n"
       else if (n =? 13)%N then "\r"
       else if (n <? 32)%N || (n =? 127)%N then "\x" +:+ hex2 c
       else if (n <? 127)%N then String c ""
       else if isprintable_high n then String c ""
       else "\x" +:+ hex2 c)
      +:+ repr_chars quote s'
  end.

(** [repr(s)] for a string. *)
Definition repr_str (s : string) : string :=
  let quote :=
    if contains "'" s && negb (contains (String (ascii_of_N 34) "") s)
    then ascii_of_N 34 else "'"%char in
  String quote (repr_chars quote s) +:+ String quote "".

(** [repr(v)] *)
Fixpoint repr (v : json) : string :=
  match v with
  | JNull => "None"
  | JBool true => "True"
  | JBool false => "False"
  | JNum z => str_of_Z z
  | JStr s => repr_str s
  | JArr l => "[" +:+ join ", " (map repr l) +:+ "]"
  | JObj items =>
      "{" +:+ join ", "
                (map (λ kv, repr_str (fst kv) +:+ ": " +:+ repr (snd kv))
                   items) +:+ "}"
  end.

(** [str(v)], the text an f-string puts for [{v}]. *)
Definition str (v : json) : string :=
  match v with
  | JStr s => s
  | _ => repr v
  end.

(** In-place updates of a nested value: the value at a place is replaced
    by what [f] makes of it, and the place keeps its position. *)

(** [d[k]] updated in place. *)
Definition at_key (k : string) (f : json → result json) (d : json)
    : result json :=
  v ← getitem d k; v' ← f v; setitem d k v'.

(** [l[-1]] updated in place. *)
Definition at_last (f : json → result json) (l : json) : result json :=
  match l with
  | JArr xs =>
      match last xs with
      | Some x => x' ← f x; mret (JArr (take (length xs - 1) xs ++ [x']))
      | None => Raise IndexError
      end
  | JObj _ => Raise KeyError
  | JStr "" => Raise IndexError
  | _ => Raise TypeError
  end.

(** [l[0]] updated in place. *)
Definition at_first (f : json → result json) (l : json) : result json :=
  match l with
  | JArr (x :: xs) => x' ← f x; mret (JArr (x' :: xs))
  | JArr [] => Raise IndexError
  | JObj _ => Raise KeyError
  | JStr "" => Raise IndexError
  | _ => Raise TypeError
  end.

(** [l.append(x)] *)
Definition append (x : json) (l : json) : result json :=
  match l with
  | JArr xs => Ok (JArr (xs ++ [x]))
  | _ => Raise AttributeError
  end.

(** [v += chunk] for a string [chunk]. *)
Definition iadd_str (chunk : string) (v : json) : result json :=
  match v with
  | JStr s => Ok (JStr (s +:+ chunk))
  | _ => Raise TypeError
  end.

(** Keys of [self.tasks]: the values Python can hash. *)
Definition hashable (v : json) : bool :=
  match v with
  | JArr _ | JObj _ => false
  | _ => true
  end.

Definition as_int (v : json) : Z :=
  match v with
  | JBool true => 1
  | JNum z => z
  | _ => 0
  end.

(** [a == b] on hashable values: numbers and booleans compare by value. *)
Definition key_eqb (a b : json) : bool :=
  match a, b with
  | JNull, JNull => true
  | JStr s, JStr t => String.eqb s t
  | (JBool _ | JNum _), (JBool _ | JNum _) => as_int a =? as_int b
  | _, _ => false
  end.

End Py.

(** ** [A2AServer._chunk_text] *)

(** One iteration of [for word in words]; the state is
    [(chunks, current_chunk)]. *)
Definition chunk_step (chunk_size : Z) (st : list string * list string)
    (word : string) : list string * list string :=
  let '(chunks, current_chunk) := st in
  let current_chunk := current_chunk ++ [word] in
  if (chunk_size <=? Z.of_nat (String.length (Py.join " " current_chunk)))
  then (chunks ++ [Py.join " " current_chunk], [])
  else (chunks, current_chunk).

Definition _chunk_text (text : string) (chunk_size : Z) : list string :=
  let words := Py.split text in
  let '(chunks, current_chunk) :=
    foldl (chunk_step chunk_size) ([], []) words in
  match current_chunk with
  | [] => chunks
  | _ :: _ => chunks ++ [Py.join " " current_chunk]
  end.

(** ** The server: [A2AServer] *)

(** The state the handlers read and write.  A task is a Python dict that
    [self.tasks] and the closure of a [stream_response] generator refer
    to, so the task dicts live in [objects], are referred to by their
    index there, and [tasks] maps a task id to such a reference, in
    insertion order. *)
Record A2AServer : Type := {
  API_KEY : string;                   (* Config.API_KEY *)
  registry : list (string * list (string * json));
                                      (* self.registry.agents, a dict of dicts *)
  objects : list json;                (* the task dicts created so far *)
  tasks : list (json * nat)           (* self.tasks *)
}.

Definition set_objects (self : A2AServer) (o : list json) : A2AServer :=
  {| API_KEY := API_KEY self; registry := registry self;
     objects := o; tasks := tasks self |}.

Definition set_tasks (self : A2AServer) (t : list (json * nat)) : A2AServer :=
  {| API_KEY := API_KEY self; registry := registry self;
     objects := objects self; tasks := t |}.

(** [self.registry.get_agent(agent_id)] *)
Definition get_agent (self : A2AServer) (agent_id : string) : json :=
  match Py.lookup agent_id (registry self) with
  | Some agent => JObj agent
  | None => JNull
  end.

(** [self.registry.list_agents()] *)
Definition list_agents (self : A2AServer) : list json :=
  (λ entry, JObj (snd entry)) <$> registry self.

(** The reference [self.tasks] holds for the key [k]. *)
Fixpoint tasks_find (k : json) (d : list (json * nat)) : option nat :=
  match d with
  | [] => None
  | (k', r) :: d' => if Py.key_eqb k' k then Some r else tasks_find k d'
  end.

Fixpoint tasks_store (k : json) (r : nat) (d : list (json * nat))
    : list (json * nat) :=
  match d with
  | [] => [(k, r)]
  | (k', r') :: d' =>
      if Py.key_eqb k' k then (k', r) :: d'
      else (k', r') :: tasks_store k r d'
  end.

(** [task_id in self.tasks] *)
Definition tasks_contains (self : A2AServer) (task_id : json) : result bool :=
  if Py.hashable task_id
  then Ok (bool_decide (is_Some (tasks_find task_id (tasks self))))
  else Raise TypeError.

(** The dict a reference denotes. *)
Definition deref (self : A2AServer) (r : nat) : result json :=
  match objects self !! r with
  | Some task => Ok task
  | None => Raise KeyError
  end.

(** [self.tasks[task_id]] *)
Definition tasks_get (self : A2AServer) (task_id : json) : result nat :=
  if Py.hashable task_id
  then match tasks_find task_id (tasks self) with
       | Some r => Ok r
       | None => Raise KeyError
       end
  else Raise TypeError.

(** [task = {...}], a new dict. *)
Definition new_object (self : A2AServer) (task : json) : nat * A2AServer :=
  (length (objects self), set_objects self (objects self ++ [task])).

(** [self.tasks[task_id] = task] *)
Definition tasks_set (self : A2AServer) (task_id : json) (r : nat)
    : result A2AServer :=
  if Py.hashable task_id
  then Ok (set_tasks self (tasks_store task_id r (tasks self)))
  else Raise TypeError.

(** A mutation of the dict a reference denotes. *)
Definition mutate (self : A2AServer) (r : nat) (task : json) : A2AServer :=
  set_objects self (<[r := task]> (objects self)).

(** *** The message parts *)

(** The body of [for part in message.get("parts", [])]. *)
Definition part_step (st : string * list json * list json) (part : json)
    : result (string * list json * list json) :=
  let '(message_text, file_parts, data_parts) := st in
  ty ← Py.get part "type";
  if Py.eq_str ty "text" then
    t ← Py.get_default part "text" (JStr "");
    message_text ← Py.str_add message_text t;
    mret (message_text, file_parts, data_parts)
  else
    ty ← Py.get part "type";
    if Py.eq_str ty "file" then
      f ← Py.get_default part "file" (JObj []);
      mret (message_text, file_parts ++ [f], data_parts)
    else
      ty ← Py.get part "type";
      if Py.eq_str ty "data" then
        d ← Py.get_default part "data" (JObj []);
        mret (message_text, file_parts, data_parts ++ [d])
      else mret (message_text, file_parts, data_parts).

(** "Extract message content": the loop the four send handlers share. *)
Definition extract_parts (message : json)
    : result (string * list json * list json) :=
  parts ← Py.get_default message "parts" (JArr []);
  parts ← Py.iter parts;
  for_each part_step parts ("", [], []).

(** *** The response producers *)

(** [' ' + file_parts[0].get('file_name', '')
     if file_parts[0].get('file_name') else ''] *)
Definition file_name_suffix (file_parts : list json) : result string :=
  match file_parts with
  | [] => Raise IndexError
  | f :: _ =>
      name ← Py.get f "file_name";
      if Py.truthy name then
        name ← Py.get_default f "file_name" (JStr "");
        Py.str_add " " name
      else mret ""
  end.

Definition _generate_agent_response (self : A2AServer) (agent : json)
    (message_text : string) (file_parts data_parts : list json)
    : result string :=
  agent_name ← Py.get_default agent "name" (JStr "Agent");
  agent_description ← Py.get_default agent "description" (JStr "");
  agent_skills ← Py.get_default agent "skills" (JArr []);
  if Py.contains "create" (Py.lower message_text)
     && Py.contains "agent" (Py.lower message_text) then
    mret ("I'm " +:+ Py.str agent_name +:+ ". I'd be happy to help with creating a new agent. Please provide details like the name, description, and skills for the new agent.")
  else if Py.contains "list" (Py.lower message_text)
     && Py.contains "agent" (Py.lower message_text) then
    mret ("I'm " +:+ Py.str agent_name +:+ ". I can list all available agents. Currently, there are " +:+ Py.str_of_nat (length (list_agents self)) +:+ " agents registered in the system.")
  else if Py.contains "file" (Py.lower message_text)
     && bool_decide (file_parts ≠ []) then
    suffix ← file_name_suffix file_parts;
    skills ← Py.join_json ", " agent_skills;
    mret ("I'm " +:+ Py.str agent_name +:+ ". I received your file" +:+ suffix +:+ ". I'll process it according to my capabilities: " +:+ skills +:+ ".")
  else if Py.contains "data" (Py.lower message_text)
     && bool_decide (data_parts ≠ []) then
    skills ← Py.join_json ", " agent_skills;
    mret ("I'm " +:+ Py.str agent_name +:+ ". I received your structured data. I'll analyze it based on my expertise in: " +:+ skills +:+ ".")
  else
    skills ← Py.join_json ", " agent_skills;
    mret ("I'm " +:+ Py.str agent_name +:+ ", specialized in " +:+ skills +:+ ". " +:+ Py.str agent_description +:+ " How can I assist you today?").

(** The line feed of the string literals of the source. *)
Definition LF : string := String (ascii_of_N 10) "".

(** [f"- {agent['name']}: {agent['description']}"] *)
Definition agent_line (agent : json) : result string :=
  name ← Py.getitem agent "name";
  description ← Py.getitem agent "description";
  mret ("- " +:+ Py.str name +:+ ": " +:+ Py.str description).

Definition _generate_agency_response (self : A2AServer)
    (message_text : string) (file_parts data_parts : list json)
    : result string :=
  if Py.contains "create" (Py.lower message_text)
     && Py.contains "agent" (Py.lower message_text) then
    mret ("I am the AI Agency. I can help you create a new agent. "
          +:+ "To create an agent, I need the following information:" +:+ LF
          +:+ "- Name for the agent" +:+ LF
          +:+ "- Description of its purpose" +:+ LF
          +:+ "- List of skills it should have" +:+ LF
          +:+ "- (Optional) Specific model to use")
  else if Py.contains "list" (Py.lower message_text)
     && Py.contains "agent" (Py.lower message_text) then
    let agents := list_agents self in
    match agents with
    | _ :: _ =>
        lines ← comprehension agent_line (take 5 agents);
        let agent_list := Py.join LF lines in
        mret ("Here are the available agents:" +:+ LF +:+ agent_list
              +:+ LF +:+ LF +:+ "There are "
              +:+ Py.str_of_nat (length agents) +:+ " agents in total.")
    | [] => mret "There are no agents currently registered in the system."
    end
  else if Py.contains "file" (Py.lower message_text)
     && bool_decide (file_parts ≠ []) then
    suffix ← file_name_suffix file_parts;
    mret ("I received your file" +:+ suffix +:+ ". How would you like me to process it? I can create specialized agents for handling this type of data.")
  else if Py.contains "data" (Py.lower message_text)
     && bool_decide (data_parts ≠ []) then
    mret "I received your structured data. I can create specialized agents for analyzing this kind of information or forward it to an existing agent. What would you like to do?"
  else
    mret ("I am the AI Agency. I can help you create and manage AI agents. "
          +:+ "My capabilities include:" +:+ LF
          +:+ "- Creating specialized agents for specific tasks" +:+ LF
          +:+ "- Managing existing agents (listing, updating, deleting)" +:+ LF
          +:+ "- Facilitating communication between agents" +:+ LF +:+ LF
          +:+ "How can I assist you today?").

(** *** Envelopes and responses *)

(** [{"jsonrpc": "2.0", "result": result, "id": request_id}] *)
Definition success (result request_id : json) : json :=
  JObj [("jsonrpc", JStr "2.0"); ("result", result); ("id", request_id)].

(** [{"jsonrpc": "2.0", "error": {"code": code, "message": message},
      "id": request_id}] *)
Definition failure (code : Z) (message : string) (request_id : json) : json :=
  JObj [("jsonrpc", JStr "2.0");
        ("error", JObj [("code", JNum code); ("message", JStr message)]);
        ("id", request_id)].

(** [{"role": "agent", "parts": [{"type": "text", "text": text}]}] *)
Definition agent_message (text : string) : json :=
  JObj [("role", JStr "agent");
        ("parts", JArr [JObj [("type", JStr "text"); ("text", JStr text)]])].

(** [{"id": task_id, "state": state, "messages": messages,
      "artifacts": []}] *)
Definition new_task (task_id : json) (state : string) (messages : list json)
    : json :=
  JObj [("id", task_id); ("state", JStr state); ("messages", JArr messages);
        ("artifacts", JArr [])].

(** Who produces the response text of a stream: [_generate_agent_response]
    for the agent the closure holds, or [_generate_agency_response]. *)
Inductive producer : Type :=
| AgentProducer (agent : json)
| AgencyProducer.

(** Where a [stream_response] generator is suspended. *)
Inductive position : Type :=
| AtStart                                     (* not yet run *)
| AfterSnapshot                               (* at the first [yield] *)
| InLoop (i : nat) (chunks : list string)     (* at the [yield] of chunk [i - 1] *)
| Exhausted.

(** The generator [stream_response()]: the variables its closure captures
    and the place where it is suspended. *)
Record stream : Type := {
  s_task : nat;
  s_request_id : json;
  s_producer : producer;
  s_message_text : string;
  s_file_parts : list json;
  s_data_parts : list json;
  s_at : position
}.

Definition move (g : stream) (p : position) : stream :=
  {| s_task := s_task g; s_request_id := s_request_id g;
     s_producer := s_producer g; s_message_text := s_message_text g;
     s_file_parts := s_file_parts g; s_data_parts := s_data_parts g;
     s_at := p |}.

(** A response of starlette: a [JSONResponse], or a response that streams
    the events of a generator, which starlette makes with
    [StreamingResponse]. *)
Inductive Response : Type :=
| JSONResponse (content : json) (status_code : Z)
| EventStream (g : stream).

(** [Response(stream_response(), media_type="text/event-stream")].  The
    module imports [JSONResponse] and [Response] from [starlette.responses].
    [Response.__init__] renders its content at once: [render] returns
    [content.encode(self.charset)] for a content that is neither [None]
    nor [bytes], and a generator has no [encode].  So no response is made
    of the generator, which is dropped before it has run. *)
Definition Response_of_generator (stream_response : stream) : result Response :=
  Raise AttributeError.

(** The default status of [JSONResponse]. *)
Definition OK200 : Z := 200.

(** *** [stream_response] *)

(** The body of [for i, chunk in enumerate(chunks)] from its head to its
    [yield]; [None] when the loop is over. *)
Definition stream_loop (self : A2AServer) (g : stream) (i : nat)
    (chunks : list string) : result (option json * A2AServer * stream) :=
  match chunks !! i with
  | None => Ok (None, self, move g Exhausted)
  | Some chunk =>
      task ← deref self (s_task g);
      task ← (if decide (i = 0%nat)
              then Py.at_key "messages" (Py.append (agent_message chunk)) task
              else Py.at_key "messages"
                     (Py.at_last (Py.at_key "parts"
                        (Py.at_first (Py.at_key "text" (Py.iadd_str chunk)))))
                     task);
      task ← (if Z.of_nat i =? Z.of_nat (length chunks) - 1
              then Py.setitem task "state" (JStr "completed")
              else Ok task);
      mret (Some (success task (s_request_id g)),
            mutate self (s_task g) task,
            move g (InLoop (S i) chunks))
  end.

(** One resumption of the generator: the payload of the [data:] event it
    yields, or [None] when it returns. *)
Definition next (self : A2AServer) (g : stream)
    : result (option json * A2AServer * stream) :=
  match s_at g with
  | AtStart =>
      task ← deref self (s_task g);
      mret (Some (success task (s_request_id g)), self, move g AfterSnapshot)
  | AfterSnapshot =>
      response_text ←
        match s_producer g with
        | AgentProducer agent =>
            _generate_agent_response self agent (s_message_text g)
              (s_file_parts g) (s_data_parts g)
        | AgencyProducer =>
            _generate_agency_response self (s_message_text g)
              (s_file_parts g) (s_data_parts g)
        end;
      let chunks := _chunk_text response_text 50 in
      stream_loop self g 0 chunks
  | InLoop i chunks => stream_loop self g i chunks
  | Exhausted => Ok (None, self, g)
  end.

(** *** The method handlers *)

(** [task_id = params.get("task_id")
     if not task_id: task_id = str(uuid.uuid4())] *)
Definition read_task_id (uuid : string) (params : json) : result json :=
  task_id ← Py.get params "task_id";
  mret (if Py.truthy task_id then task_id else JStr uuid).

Definition _handle_tasks_send (self : A2AServer) (uuid : string)
    (request_id params agent : json) : result (Response * A2AServer) :=
  task_id ← read_task_id uuid params;
  message ← Py.get_default params "message" (JObj []);
  '(message_text, file_parts, data_parts) ← extract_parts message;
  response_text ←
    _generate_agent_response self agent message_text file_parts data_parts;
  let task := new_task task_id "completed"
                [message; agent_message response_text] in
  let '(r, self) := new_object self task in
  self ← tasks_set self task_id r;
  mret (JSONResponse (success task request_id) OK200, self).

(** The handler stores its task and then builds its response, which
    raises: it gives the server it leaves together with what it returns or
    raises. *)
Definition _handle_tasks_send_subscribe (self : A2AServer) (uuid : string)
    (request_id params agent : json) : A2AServer * result Response :=
  match
    task_id ← read_task_id uuid params;
    message ← Py.get_default params "message" (JObj []);
    '(message_text, file_parts, data_parts) ← extract_parts message;
    let task := new_task task_id "working" [message] in
    let '(r, self) := new_object self task in
    self ← tasks_set self task_id r;
    mret (self,
          {| s_task := r; s_request_id := request_id;
             s_producer := AgentProducer agent;
             s_message_text := message_text; s_file_parts := file_parts;
             s_data_parts := data_parts; s_at := AtStart |})
  with
  | Raise e => (self, Raise e)
  | Ok (self, stream_response) =>
      (self, Response_of_generator stream_response)
  end.

Definition _handle_agency_tasks_send (self : A2AServer) (uuid : string)
    (request_id params : json) : result (Response * A2AServer) :=
  task_id ← read_task_id uuid params;
  message ← Py.get_default params "message" (JObj []);
  '(message_text, file_parts, data_parts) ← extract_parts message;
  response_text ←
    _generate_agency_response self message_text file_parts data_parts;
  let task := new_task task_id "completed"
                [message; agent_message response_text] in
  let '(r, self) := new_object self task in
  self ← tasks_set self task_id r;
  mret (JSONResponse (success task request_id) OK200, self).

Definition _handle_agency_tasks_send_subscribe (self : A2AServer)
    (uuid : string) (request_id params : json)
    : A2AServer * result Response :=
  match
    task_id ← read_task_id uuid params;
    message ← Py.get_default params "message" (JObj []);
    '(message_text, file_parts, data_parts) ← extract_parts message;
    let task := new_task task_id "working" [message] in
    let '(r, self) := new_object self task in
    self ← tasks_set self task_id r;
    mret (self,
          {| s_task := r; s_request_id := request_id;
             s_producer := AgencyProducer;
             s_message_text := message_text; s_file_parts := file_parts;
             s_data_parts := data_parts; s_at := AtStart |})
  with
  | Raise e => (self, Raise e)
  | Ok (self, stream_response) =>
      (self, Response_of_generator stream_response)
  end.

(** [not task_id or task_id not in self.tasks] *)
Definition task_unknown (self : A2AServer) (task_id : json) : result bool :=
  if negb (Py.truthy task_id) then Ok true
  else known ← tasks_contains self task_id; mret (negb known).

(** The answer of [tasks/get] and [tasks/cancel] for an unknown task. *)
Definition task_not_found (task_id request_id : json) : Response :=
  JSONResponse
    (failure (-32602) ("Task with ID " +:+ Py.str task_id +:+ " not found")
       request_id)
    404.

Definition _handle_tasks_get (self : A2AServer) (request_id params : json)
    : result (Response * A2AServer) :=
  task_id ← Py.get params "task_id";
  unknown ← task_unknown self task_id;
  if (unknown : bool) then mret (task_not_found task_id request_id, self)
  else
    r ← tasks_get self task_id;
    task ← deref self r;
    mret (JSONResponse (success task request_id) OK200, self).

Definition _handle_tasks_cancel (self : A2AServer) (request_id params : json)
    : result (Response * A2AServer) :=
  task_id ← Py.get params "task_id";
  unknown ← task_unknown self task_id;
  if (unknown : bool) then mret (task_not_found task_id request_id, self)
  else
    (* self.tasks[task_id]["state"] = "canceled" *)
    r ← tasks_get self task_id;
    task ← deref self r;
    task ← Py.setitem task "state" (JStr "canceled");
    let self := mutate self r task in
    r ← tasks_get self task_id;
    task ← deref self r;
    mret (JSONResponse (success task request_id) OK200, self).

(** The body of [for task_id, task in self.tasks.items()]. *)
Definition task_summary (self : A2AServer) (entry : json * nat)
    : result json :=
  let '(task_id, r) := entry in
  task ← deref self r;
  state ← Py.getitem task "state";
  messages ← Py.getitem task "messages";
  message_count ← Py.len messages;
  created_at ← Py.get_default task "created_at" (JStr "");
  updated_at ← Py.get_default task "updated_at" (JStr "");
  mret (JObj [("id", task_id); ("state", state);
              ("message_count", JNum message_count);
              ("created_at", created_at); ("updated_at", updated_at)]).

Definition _handle_tasks_list (self : A2AServer) (request_id params : json)
    : result (Response * A2AServer) :=
  task_summaries ← comprehension (task_summary self) (tasks self);
  mret (JSONResponse
          (success (JObj [("tasks", JArr task_summaries)]) request_id) OK200,
        self).

Definition _handle_agent_info (self : A2AServer) (request_id agent : json)
    : result (Response * A2AServer) :=
  id ← Py.get_default agent "id" (JStr "");
  name ← Py.get_default agent "name" (JStr "");
  description ← Py.get_default agent "description" (JStr "");
  skills ← Py.get_default agent "skills" (JArr []);
  status ← Py.get_default agent "status" (JStr "active");
  created_at ← Py.get_default agent "created_at" (JStr "");
  updated_at ← Py.get_default agent "updated_at" (JStr "");
  let info := JObj [("id", id); ("name", name); ("description", description);
                    ("skills", skills); ("status", status);
                    ("created_at", created_at); ("updated_at", updated_at)] in
  mret (JSONResponse (success info request_id) OK200, self).

Definition _handle_agency_info (self : A2AServer) (request_id : json)
    : result (Response * A2AServer) :=
  let info :=
    JObj [("id", JStr "ai-agency"); ("name", JStr "AI Agency");
          ("description",
           JStr "Autonomous AI Agency that can create and manage other agents");
          ("skills", JArr [JStr "agent_creation"; JStr "agent_management";
                           JStr "inter_agent_communication"]);
          ("agent_count", JNum (Z.of_nat (length (list_agents self))));
          ("version", JStr "1.0.0")] in
  mret (JSONResponse (success info request_id) OK200, self).

(** *** The POST handlers *)

(** What the handlers read of a [starlette] request.  [body] is the value
    [await request.json()] decodes, [None] when it raises
    [json.JSONDecodeError]. *)
Record Request : Type := {
  x_api_key : option string;    (* request.headers.get("x-api-key") *)
  path_agent_id : string;       (* request.path_params["agent_id"] *)
  base_url_hostname : json;     (* request.base_url.hostname *)
  base_url_port : json;         (* request.base_url.port *)
  body : option json
}.

(** [agency/utils/security.py], [verify_api_key] *)
Definition verify_api_key (self : A2AServer) (request : Request) : bool :=
  match x_api_key request with
  | None => false
  | Some api_key =>
      if String.eqb api_key "" then false
      else String.eqb api_key (API_KEY self)
  end.

(** [{"error": message}] *)
Definition bare_error (message : string) : json :=
  JObj [("error", JStr message)].

(** A POST handler gives the server it leaves together with the response
    it returns or the exception it raises. *)

(** [return await handler(...)] for a handler that leaves the server as it
    was when it raises. *)
Definition awaited (self : A2AServer) (r : result (Response * A2AServer))
    : A2AServer * result Response :=
  match r with
  | Ok (resp, self') => (self', Ok resp)
  | Raise e => (self, Raise e)
  end.

Definition handle_agent_request (self : A2AServer) (uuid : string)
    (request : Request) : A2AServer * result Response :=
  if negb (verify_api_key self request) then
    (self, Ok (JSONResponse (bare_error "Invalid or missing API key") 401))
  else
    let agent_id := path_agent_id request in
    let agent := get_agent self agent_id in
    if negb (Py.truthy agent) then
      (self,
       Ok (JSONResponse
             (bare_error ("Agent with ID " +:+ agent_id +:+ " not found"))
             404))
    else
      match body request with
      | None => (self, Ok (JSONResponse (bare_error "Invalid JSON") 400))
      | Some json_rpc =>
          match
            method ← Py.get json_rpc "method";
            params ← Py.get_default json_rpc "params" (JObj []);
            request_id ← Py.get json_rpc "id";
            mret (method, params, request_id)
          with
          | Raise e => (self, Raise e)
          | Ok (method, params, request_id) =>
              if negb (Py.truthy method) || negb (Py.truthy request_id) then
                (self,
                 Ok (JSONResponse
                       (failure (-32600) "Invalid Request" request_id) 400))
              else if Py.eq_str method "tasks/send" then
                awaited self
                  (_handle_tasks_send self uuid request_id params agent)
              else if Py.eq_str method "tasks/sendSubscribe" then
                _handle_tasks_send_subscribe self uuid request_id params agent
              else if Py.eq_str method "tasks/get" then
                awaited self (_handle_tasks_get self request_id params)
              else if Py.eq_str method "tasks/cancel" then
                awaited self (_handle_tasks_cancel self request_id params)
              else if Py.eq_str method "tasks/list" then
                awaited self (_handle_tasks_list self request_id params)
              else if Py.eq_str method "agent/info" then
                awaited self (_handle_agent_info self request_id agent)
              else
                (self,
                 Ok (JSONResponse
                       (failure (-32601)
                          ("Method not found: " +:+ Py.str method) request_id)
                       404))
          end
      end.

Definition handle_agency_request (self : A2AServer) (uuid : string)
    (request : Request) : A2AServer * result Response :=
  if negb (verify_api_key self request) then
    (self, Ok (JSONResponse (bare_error "Invalid or missing API key") 401))
  else
    match body request with
    | None => (self, Ok (JSONResponse (bare_error "Invalid JSON") 400))
    | Some json_rpc =>
        match
          method ← Py.get json_rpc "method";
          params ← Py.get_default json_rpc "params" (JObj []);
          request_id ← Py.get json_rpc "id";
          mret (method, params, request_id)
        with
        | Raise e => (self, Raise e)
        | Ok (method, params, request_id) =>
            if negb (Py.truthy method) || negb (Py.truthy request_id) then
              (self,
               Ok (JSONResponse
                     (failure (-32600) "Invalid Request" request_id) 400))
            else if Py.eq_str method "tasks/send" then
              awaited self
                (_handle_agency_tasks_send self uuid request_id params)
            else if Py.eq_str method "tasks/sendSubscribe" then
              _handle_agency_tasks_send_subscribe self uuid request_id params
            else if Py.eq_str method "tasks/get" then
              awaited self (_handle_tasks_get self request_id params)
            else if Py.eq_str method "tasks/cancel" then
              awaited self (_handle_tasks_cancel self request_id params)
            else if Py.eq_str method "tasks/list" then
              awaited self (_handle_tasks_list self request_id params)
            else if Py.eq_str method "agent/info" then
              awaited self (_handle_agency_info self request_id)
            else
              (self,
               Ok (JSONResponse
                     (failure (-32601)
                        ("Method not found: " +:+ Py.str method) request_id)
                     404))
        end
    end.

(** ** Discovery cards *)

(** [{"name": skill, "description": f"Skill in {skill}"}] *)
Definition skill_entry (skill : json) : json :=
  JObj [("name", skill); ("description", JStr ("Skill in " +:+ Py.str skill))].

(** [[{"type": "apiKey", "name": "x-api-key", "in": "header"}]] *)
Definition security_block : json :=
  JArr [JObj [("type", JStr "apiKey"); ("name", JStr "x-api-key");
              ("in", JStr "header")]].

(** A [for i, x in enumerate(l)] loop that rebuilds each element. *)
Fixpoint for_enumerate {A B : Type} (body : nat → A → result B) (i : nat)
    (l : list A) : result (list B) :=
  match l with
  | [] => Ok []
  | x :: l' => y ← body i x; ys ← for_enumerate body (S i) l'; mret (y :: ys)
  end.

(** [agency/agent_factory.py], the factory's configuration. *)
Record AgentFactory : Type := {
  agent_cards_dir : string;     (* Config.AGENT_CARDS_DIR *)
  A2A_ENDPOINT : string         (* Config.A2A_ENDPOINT *)
}.

(** The body of [for skill_idx, skill in enumerate(card["skills"])]. *)
Definition attach_examples (agent_info : json) (skill_idx : nat)
    (skill : json) : result json :=
  examples ← Py.getitem agent_info "examples";
  n ← Py.len examples;
  if Z.of_nat skill_idx <? n then
    examples ← Py.getitem agent_info "examples";
    e ← Py.index examples skill_idx;
    Py.setitem skill "examples" e
  else mret skill.

(** "Create card content" and "Add examples if available": the dict that
    [_create_agent_card] writes. *)
Definition card_content (self : AgentFactory) (agent_id : string)
    (agent_info : json) : result json :=
  name ← Py.get_default agent_info "name" (JStr "Agent");
  description ← Py.get_default agent_info "description" (JStr "");
  contact_name ← Py.get_default agent_info "name" (JStr "Agent");
  let url := A2A_ENDPOINT self +:+ "/agents/" +:+ agent_id in
  skills ← Py.get_default agent_info "skills" (JArr []);
  skills ← Py.iter skills;
  let skills := skill_entry <$> skills in
  has_examples ← Py.has_key agent_info "examples";
  skills ← (if (has_examples : bool)
            then for_enumerate (attach_examples agent_info) 0 skills
            else mret skills);
  mret (JObj [("agentFormat", JStr "1.0.0");
              ("info", JObj [("id", JStr agent_id); ("name", name);
                             ("description", description);
                             ("version", JStr "1.0.0");
                             ("contact", JObj [("name", contact_name);
                                               ("url", JStr url)])]);
              ("servers", JArr [JObj [("url", JStr url);
                                      ("protocol", JStr "a2a")]]);
              ("security", security_block);
              ("skills", JArr skills)]).

(** [AgentFactory._create_agent_card]: the path of the card and the JSON
    written there, or [None] when the [try] block raises.  [writable]
    tells whether [mkdir], [open] and [json.dump] succeed. *)
Definition _create_agent_card (self : AgentFactory) (writable : bool)
    (agent_id : string) (agent_info : json) : option (string * json) :=
  if writable then
    let card_path := agent_cards_dir self +:+ "/" +:+ agent_id +:+ ".json" in
    match card_content self agent_id agent_info with
    | Ok card => Some (card_path, card)
    | Raise _ => None
    end
  else None.

(** [f"http://{request.base_url.hostname}:{request.base_url.port}"] *)
Definition base_url (request : Request) : string :=
  "http://" +:+ Py.str (base_url_hostname request) +:+ ":"
  +:+ Py.str (base_url_port request).

(** [A2AServer.get_agent_card].  [load p] is what
    [open(p, 'r')] and [json.load] give for the path [p]: the decoded
    card, or the text of the exception raised. *)
Definition get_agent_card (self : A2AServer) (load : json → string + json)
    (request : Request) : result Response :=
  let agent_id := path_agent_id request in
  let agent := get_agent self agent_id in
  if negb (Py.truthy agent) then
    mret (JSONResponse
            (bare_error ("Agent with ID " +:+ agent_id +:+ " not found")) 404)
  else
    has_path ← Py.has_key agent "a2a_card_path";
    if (has_path : bool) then
      path ← Py.getitem agent "a2a_card_path";
      match load path with
      | inr agent_card => mret (JSONResponse agent_card OK200)
      | inl e =>
          mret (JSONResponse
                  (bare_error ("Failed to load agent card: " +:+ e)) 500)
      end
    else
      name ← Py.get_default agent "name" (JStr "Agent");
      description ← Py.get_default agent "description" (JStr "");
      version ← Py.get_default agent "version" (JStr "1.0.0");
      contact_name ← Py.get_default agent "name" (JStr "Agent");
      let url := base_url request +:+ "/agents/" +:+ agent_id in
      skills ← Py.get_default agent "skills" (JArr []);
      skills ← Py.iter skills;
      mret (JSONResponse
              (JObj [("agentFormat", JStr "1.0.0");
                     ("info", JObj [("id", JStr agent_id); ("name", name);
                                    ("description", description);
                                    ("version", version);
                                    ("contact", JObj [("name", contact_name);
                                                      ("url", JStr url)])]);
                     ("servers", JArr [JObj [("url", JStr url);
                                             ("protocol", JStr "a2a")]]);
                     ("security", security_block);
                     ("skills", JArr (skill_entry <$> skills))])
              OK200).

(** ** Running a stream and reading what it sends *)

(** The consumer of an event stream, the transport of a streaming
    response: it resumes the generator until the generator returns, at
    most [fuel] times, and collects the payloads of the events.  The
    stream it hands back tells whether the generator has returned. *)
Fixpoint consume (fuel : nat) (self : A2AServer) (g : stream)
    : result (list json * A2AServer * stream) :=
  match fuel with
  | O => Ok ([], self, g)
  | S fuel =>
      '(ev, self, g) ← next self g;
      match ev with
      | None => Ok ([], self, g)
      | Some e =>
          '(evs, self, g) ← consume fuel self g;
          mret (e :: evs, self, g)
      end
  end.

(** The value of key [k] of a JSON object. *)
Definition field (k : string) (v : json) : option json :=
  match v with
  | JObj items => Py.lookup k items
  | _ => None
  end.

Definition elements (v : json) : option (list json) :=
  match v with
  | JArr l => Some l
  | _ => None
  end.

(** The messages of a task. *)
Definition task_messages (task : json) : option (list json) :=
  field "messages" task ≫= elements.

(** The text of the agent's reply in a task: the text of the first part of
    its last message. *)
Definition task_text (task : json) : option json :=
  msgs ← task_messages task;
  m ← last msgs;
  parts ← field "parts" m ≫= elements;
  p ← head parts;
  field "text" p.

(** The task state an event or a JSON-RPC response carries. *)
Definition event_state (ev : json) : option json :=
  field "result" ev ≫= field "state".

(** The reply text an event or a JSON-RPC response carries. *)
Definition event_text (ev : json) : option json :=
  field "result" ev ≫= task_text.

(** The body of a JSON response. *)
Definition content (r : Response) : option json :=
  match r with
  | JSONResponse c _ => Some c
  | EventStream _ => None
  end.

Definition status_code (r : Response) : option Z :=
  match r with
  | JSONResponse _ s => Some s
  | EventStream _ => None
  end.

(** A JSON-RPC error envelope: [jsonrpc] is ["2.0"], [error] holds an
    integer [code] and a string [message], and [id] is present. *)
Definition is_error_envelope (v : json) : bool :=
  match field "jsonrpc" v, field "error" v, field "id" v with
  | Some (JStr "2.0"), Some e, Some _ =>
      match field "code" e, field "message" e with
      | Some (JNum _), Some (JStr _) => true
      | _, _ => false
      end
  | _, _, _ => false
  end.

Definition error_code (v : json) : option json :=
  field "error" v ≫= field "code".

(** ** Words and chunks *)

(** A word: a non-empty string without whitespace. *)
Fixpoint no_space (s : string) : bool :=
  match s with
  | EmptyString => true
  | String c s' => negb (Py.isspace c) && no_space s'
  end.

Definition is_word (w : string) : bool :=
  negb (String.eqb w "") && no_space w.

(** [chunks] is word-aligned for [text]: the words of [text] are cut into
    consecutive non-empty groups and each chunk is one group, its words
    joined by single spaces. *)
Definition word_aligned (text : string) (chunks : list string) : Prop :=
  ∃ groups : list (list string),
    chunks = Py.join " " <$> groups
    ∧ Forall (λ g, g ≠ []) groups
    ∧ concat groups = Py.split text.

(** ** What a client sees of a reply *)

(** The reply text [tasks/send] delivers. *)
Definition reply_of_send (self : A2AServer) (uuid : string)
    (request_id params agent : json) : result (option json) :=
  '(resp, _) ← _handle_tasks_send self uuid request_id params agent;
  mret (content resp ≫= event_text).

(** The stream that [tasks/sendSubscribe] opens, with the server it
    leaves; [None] when it returns no streaming response. *)
Definition subscription (self : A2AServer) (uuid : string)
    (request_id params agent : json) : option (A2AServer * stream) :=
  match _handle_tasks_send_subscribe self uuid request_id params agent with
  | (self, Ok (EventStream g)) => Some (self, g)
  | _ => None
  end.

(** The reply text [tasks/sendSubscribe] delivers: the text of the agent's
    message in the last event of the stream it opens, once that stream has
    ended; [None] when no text is delivered. *)
Definition reply_of_stream (fuel : nat) (self : A2AServer) (uuid : string)
    (request_id params agent : json) : option json :=
  '(self, g) ← subscription self uuid request_id params agent;
  match consume fuel self g with
  | Ok (evs, _, g) =>
      match s_at g with
      | Exhausted => last evs ≫= event_text
      | _ => None
      end
  | Raise _ => None
  end.


(** The state of the task that [tasks/get] returns. *)
Definition state_of_get (self : A2AServer) (request_id params : json)
    : result (option json) :=
  '(resp, _) ← _handle_tasks_get self request_id params;
  mret (content resp ≫= event_state).

(** The state of the task that [tasks/cancel] returns, and the state
    [tasks/get] returns after it. *)
Definition state_of_cancel (self : A2AServer) (request_id params : json)
    : result (option json * option json) :=
  '(resp, self) ← _handle_tasks_cancel self request_id params;
  after ← state_of_get self request_id params;
  mret (content resp ≫= event_state, after).

(** ** Well-formed requests *)

Definition is_str (v : json) : bool :=
  match v with
  | JStr _ => true
  | _ => false
  end.

(** The [file] of a file part: an object whose [file_name], when it has
    one, is a string (or a falsy value). *)
Definition valid_file (f : json) : bool :=
  match f with
  | JObj items =>
      match Py.lookup "file_name" items with
      | Some v => negb (Py.truthy v) || is_str v
      | None => true
      end
  | _ => false
  end.

(** A part: an object; the [text] of a text part is a string. *)
Definition valid_part (part : json) : bool :=
  match part with
  | JObj items =>
      let ty := default JNull (Py.lookup "type" items) in
      if Py.eq_str ty "text"
      then is_str (default (JStr "") (Py.lookup "text" items))
      else if Py.eq_str ty "file"
      then valid_file (default (JObj []) (Py.lookup "file" items))
      else true
  | _ => false
  end.

(** A message: an object whose [parts], when it has some, are a list of
    parts. *)
Definition valid_message (message : json) : bool :=
  match message with
  | JObj items =>
      match default (JArr []) (Py.lookup "parts" items) with
      | JArr parts => forallb valid_part parts
      | _ => false
      end
  | _ => false
  end.

(** The params of a send request: an object that carries a message, and
    whose [task_id], when it has one, is a string, a number, a boolean or
    null (or an empty container, which counts as none). *)
Definition valid_params (params : json) : bool :=
  match params with
  | JObj items =>
      (let task_id := default JNull (Py.lookup "task_id" items) in
       negb (Py.truthy task_id) || Py.hashable task_id)
      && valid_message (default (JObj []) (Py.lookup "message" items))
  | _ => false
  end.

(** An agent of the registry whose [skills], when it has some, are a list
    of strings. *)
Definition valid_agent (agent : json) : bool :=
  match agent with
  | JObj items =>
      match default (JArr []) (Py.lookup "skills" items) with
      | JArr skills => forallb is_str skills
      | _ => false
      end
  | _ => false
  end.

(** ** Requests and answers *)

(** The request with another body. *)
Definition with_body (request : Request) (json_rpc : json) : Request :=
  {| x_api_key := x_api_key request; path_agent_id := path_agent_id request;
     base_url_hostname := base_url_hostname request;
     base_url_port := base_url_port request; body := Some json_rpc |}.

(** The items of a dict without the key [k]. *)
Fixpoint remove {V : Type} (k : string) (items : list (string * V))
    : list (string * V) :=
  match items with
  | [] => []
  | (k', v) :: items' =>
      if String.eqb k' k then remove k items' else (k', v) :: remove k items'
  end.

(** The methods the POST handlers dispatch on. *)
Definition recognized (method : json) : bool :=
  Py.eq_str method "tasks/send" || Py.eq_str method "tasks/sendSubscribe"
  || Py.eq_str method "tasks/get" || Py.eq_str method "tasks/cancel"
  || Py.eq_str method "tasks/list" || Py.eq_str method "agent/info".

(** Both POST handlers answer the request with the JSON body [content] and
    the HTTP status [status], and leave the server as it was; the agent
    handler does so when the registry knows the agent of the path. *)
Definition answered (self : A2AServer) (uuid : string) (request : Request)
    (content : json) (status : Z) : Prop :=
  (Py.truthy (get_agent self (path_agent_id request)) = true →
   handle_agent_request self uuid request
   = (self, Ok (JSONResponse content status)))
  ∧ handle_agency_request self uuid request
    = (self, Ok (JSONResponse content status)).

(** The falsy JSON scalars. *)
Definition falsy_scalar (v : json) : Prop :=
  v = JNum 0 ∨ v = JStr "" ∨ v = JBool false ∨ v = JNull.

(** ** The states the server reaches *)

(** A task as the handlers build and mutate it: a dict with a [state], a
    list of [messages], and no [created_at] and no [updated_at]. *)
Definition task_like (task : json) : Prop :=
  ∃ (items : list (string * json)) (st : json) (msgs : list json),
    task = JObj items
    ∧ Py.lookup "state" items = Some st
    ∧ Py.lookup "messages" items = Some (JArr msgs)
    ∧ Py.lookup "created_at" items = None
    ∧ Py.lookup "updated_at" items = None.

(** Every task dict is task-like and every reference of [self.tasks]
    denotes a task dict. *)
Definition consistent (self : A2AServer) : Prop :=
  Forall task_like (objects self)
  ∧ Forall (λ entry, (entry.2 < length (objects self))%nat) (tasks self).

(** One thing that happens to the server: a POST request is handled,
    whether its handler returns or raises, or a [stream_response]
    generator is resumed.  No handler runs such a generator; with the
    resumptions the relation covers a transport that would. *)
Inductive step : A2AServer → A2AServer → Prop :=
| step_agent_request self uuid request self' answer :
    handle_agent_request self uuid request = (self', answer) →
    step self self'
| step_agency_request self uuid request self' answer :
    handle_agency_request self uuid request = (self', answer) →
    step self self'
| step_resume self g ev self' g' :
    next self g = Ok (ev, self', g') →
    step self self'.

(** The server when it starts: [self.tasks = {}]. *)
Definition started (self : A2AServer) : Prop :=
  objects self = [] ∧ tasks self = [].

Definition reachable (self : A2AServer) : Prop :=
  ∃ self0, started self0 ∧ rtc step self0 self.

(** A value carries timestamps: its [created_at] and [updated_at] are
    non-empty strings. *)
Definition has_timestamps (v : json) : Prop :=
  ∃ c u : string,
    field "created_at" v = Some (JStr c) ∧ c ≠ ""
    ∧ field "updated_at" v = Some (JStr u) ∧ u ≠ "".

(** ** Statements of the specification, as predicates *)

(** Streaming refines sending: the reply [tasks/send] returns is the reply
    [tasks/sendSubscribe] delivers. *)
Definition streaming_refines_send (self : A2AServer) (uuid : string)
    (request_id params agent : json) : Prop :=
  ∀ reply : json,
    reply_of_send self uuid request_id params agent = Ok (Some reply) →
    ∃ fuel : nat,
      reply_of_stream fuel self uuid request_id params agent = Some reply.

(** Re-joining the chunks with single spaces reconstructs the text. *)
Definition rejoin_reconstructs (text : string) : Prop :=
  Py.join " " (_chunk_text text 50) = text.


(** Cancelling a completed task leaves it completed. *)
Definition cancel_keeps_completed (self : A2AServer)
    (request_id params : json) : Prop :=
  state_of_get self request_id params = Ok (Some (JStr "completed")) →
  state_of_cancel self request_id params
  = Ok (Some (JStr "completed"), Some (JStr "completed")).

(** The summaries in an answer of [tasks/list]. *)
Definition listed (resp : Response) : option (list json) :=
  c ← content resp;
  r ← field "result" c;
  t ← field "tasks" r;
  elements t.

(** Every task carries its timestamps, and so does every summary of
    [tasks/list]. *)
Definition tasks_carry_timestamps (self : A2AServer) : Prop :=
  (∀ task : json, task ∈ objects self → has_timestamps task)
  ∧ ∀ (rid params : json) (resp : Response) (self' : A2AServer)
      (summaries : list json),
      _handle_tasks_list self rid params = Ok (resp, self') →
      listed resp = Some summaries →
      ∀ s : json, s ∈ summaries → has_timestamps s.

(** Every failure answer to a request whose body is JSON is a JSON-RPC
    error envelope. *)
Definition failures_are_enveloped (self : A2AServer) (uuid : string)
    (request : Request) : Prop :=
  ∀ (content : json) (status : Z) (self' : A2AServer),
    handle_agent_request self uuid request
    = (self', Ok (JSONResponse content status)) →
    400 ≤ status →
    body request ≠ None →
    is_error_envelope content = true.

(** ** A server, an agent and requests to evaluate the handlers on *)

Definition demo_agent : list (string * json) :=
  [("id", JStr "abc"); ("name", JStr "Bob"); ("description", JStr "Helper.");
   ("skills", JArr [JStr "demo"])].

Definition demo_server : A2AServer :=
  {| API_KEY := "secret"; registry := [("abc", demo_agent)];
     objects := []; tasks := [] |}.

(** [{"role": "user", "parts": [{"type": "text", "text": "hello"}]}] *)
Definition hello : json :=
  JObj [("role", JStr "user");
        ("parts", JArr [JObj [("type", JStr "text"); ("text", JStr "hello")]])].

(** [{"task_id": "t1", "message": hello}] *)
Definition hello_params : json :=
  JObj [("task_id", JStr "t1"); ("message", hello)].

(** A POST with the right API key for the agent ["abc"]. *)
Definition post (json_rpc : json) : Request :=
  {| x_api_key := Some "secret"; path_agent_id := "abc";
     base_url_hostname := JStr "localhost"; base_url_port := JNum 8000;
     body := Some json_rpc |}.

Definition rpc (method : string) (params id : json) : json :=
  JObj [("jsonrpc", JStr "2.0"); ("method", JStr method); ("params", params);
        ("id", id)].

(** The server after [tasks/send] of [hello_params]. *)
Definition demo_server_sent : A2AServer :=
  match _handle_tasks_send demo_server "u-1" (JStr "1") hello_params
          (JObj demo_agent) with
  | Ok (_, self) => self
  | Raise _ => demo_server
  end.

(** The server after [tasks/sendSubscribe] of [hello_params]. *)
Definition demo_subscribed : A2AServer :=
  (_handle_tasks_send_subscribe demo_server "u-1" (JStr "1") hello_params
     (JObj demo_agent)).1.

(** [{"task_id": "t1"}] *)
Definition t1_params : json := JObj [("task_id", JStr "t1")].

(** The server after [tasks/cancel] of the task ["t1"] that
    [tasks/sendSubscribe] stored. *)
Definition demo_canceled : A2AServer :=
  (awaited demo_subscribed
     (_handle_tasks_cancel demo_subscribed (JStr "2") t1_params)).1.

(** An agent with two skills and an example list for each, registered
    without a card file. *)
Definition card_agent : list (string * json) :=
  [("id", JStr "abc"); ("name", JStr "Bob"); ("description", JStr "Helper.");
   ("skills", JArr [JStr "x"; JStr "y"]);
   ("examples", JArr [JArr [JStr "e1"]; JArr [JStr "e2"]])].

Definition card_server : A2AServer :=
  {| API_KEY := "secret"; registry := [("abc", card_agent)];
     objects := []; tasks := [] |}.

Definition card_factory : AgentFactory :=
  {| agent_cards_dir := "data/agent_cards";
     A2A_ENDPOINT := "http://0.0.0.0:8000/a2a" |}.

(** [GET /agents/abc/.well-known/agent.json] *)
Definition card_request : Request :=
  {| x_api_key := None; path_agent_id := "abc";
     base_url_hostname := JStr "localhost"; base_url_port := JNum 8000;
     body := None |}.

(** The skill entries of a card. *)
Definition card_skills (card : json) : option (list json) :=
  field "skills" card ≫= elements.

(** An agent without a description. *)
Definition plain_agent : list (string * json) :=
  [("id", JStr "abc"); ("name", JStr "Bob"); ("skills", JArr [JStr "demo"])].

(** A POST for the agent ["abc"] without an API key. *)
Definition post_without_key (json_rpc : json) : Request :=
  {| x_api_key := None; path_agent_id := "abc";
     base_url_hostname := JStr "localhost"; base_url_port := JNum 8000;
     body := Some json_rpc |}.
(** ** Texts without words *)

(** [s] is empty or holds whitespace only. *)
Fixpoint all_space (s : string) : bool :=
  match s with
  | EmptyString => true
  | String c s' => Py.isspace c && all_space s'
  end.

(** A group of words that was closed by its last word: without it the
    group is shorter than [n]. *)
Definition closed_by_last (n : Z) (g : list string) : Prop :=
  ∃ (p : list string) (w : string),
    g = p ++ [w]
    ∧ (p ≠ [] → Z.of_nat (String.length (Py.join " " p)) < n).

(** ** What the handlers do to the store *)

(** The server after a handler has created the dict [task] and stored it
    under [tid]. *)
Definition created (self self' : A2AServer) (tid task : json) : Prop :=
  Py.hashable tid = true
  ∧ self' = set_tasks (set_objects self (objects self ++ [task]))
              (tasks_store tid (length (objects self)) (tasks self)).

(** The server [self'] extends [self]: the configuration and the registry
    are the same, no task dict and no store entry has gone, and every task
    id the store knew it still knows. *)
Definition extends (self self' : A2AServer) : Prop :=
  API_KEY self' = API_KEY self
  ∧ registry self' = registry self
  ∧ (length (objects self) ≤ length (objects self'))%nat
  ∧ (length (tasks self) ≤ length (tasks self'))%nat
  ∧ ∀ tid : json,
      is_Some (tasks_find tid (tasks self)) →
      is_Some (tasks_find tid (tasks self')).

(** One POST request is handled, whether its handler returns or
    raises. *)
Inductive handled : A2AServer → A2AServer → Prop :=
| handled_agent self uuid request self' answer :
    handle_agent_request self uuid request = (self', answer) →
    handled self self'
| handled_agency self uuid request self' answer :
    handle_agency_request self uuid request = (self', answer) →
    handled self self'.

(** [task'] is [task], or [task] after [task["state"] = "canceled"]. *)
Definition same_or_canceled (task task' : json) : Prop :=
  task' = task ∨ Py.setitem task "state" (JStr "canceled") = Ok task'.

(** [summary] is the summary of the store entry [entry]: the key of the
    entry, the state of its task and the number of its messages. *)
Definition summarizes (self : A2AServer) (entry : json * nat)
    (summary : json) : Prop :=
  ∃ (task st : json) (msgs : list json),
    objects self !! entry.2 = Some task
    ∧ field "state" task = Some st
    ∧ task_messages task = Some msgs
    ∧ summary = JObj [("id", entry.1); ("state", st);
                      ("message_count", JNum (Z.of_nat (length msgs)));
                      ("created_at", JStr ""); ("updated_at", JStr "")].

(** [{"task_id": "t2", "message": hello}] *)
Definition hello_params_2 : json :=
  JObj [("task_id", JStr "t2"); ("message", hello)].

(** ** JSON-RPC responses *)

(** [content], sent with the HTTP status [status], is a JSON-RPC 2.0
    response to the request with the id [request_id]: it echoes the id and
    holds either a [result], with status 200, or an [error] with an integer
    code and a message, with status 400 or 404, and never both. *)
Definition jsonrpc_answer (request_id content : json) (status : Z) : Prop :=
  field "jsonrpc" content = Some (JStr "2.0")
  ∧ field "id" content = Some request_id
  ∧ ((status = 200 ∧ is_Some (field "result" content)
      ∧ field "error" content = None)
     ∨ ((status = 400 ∨ status = 404)
        ∧ is_error_envelope content = true
        ∧ field "result" content = None)).

(** A server configured with the default, empty API key. *)
Definition unkeyed_server : A2AServer :=
  {| API_KEY := ""; registry := [("abc", demo_agent)];
     objects := []; tasks := [] |}.

(** A POST for the agent ["abc"] whose [x-api-key] header is [key]. *)
Definition post_with_key (key : string) (json_rpc : json) : Request :=
  {| x_api_key := Some key; path_agent_id := "abc";
     base_url_hostname := JStr "localhost"; base_url_port := JNum 8000;
     body := Some json_rpc |}.

(** ** The parts of a message *)

(** [part.get("type")] *)
Definition part_type (part : json) : json :=
  default JNull (field "type" part).

(** A part the loop of the send handlers can read: an object whose
    [text], when it is a text part, is a string. *)
Definition readable_part (part : json) : bool :=
  match part with
  | JObj items =>
      if Py.eq_str (part_type part) "text"
      then is_str (default (JStr "") (Py.lookup "text" items))
      else true
  | _ => false
  end.

(** The texts of the text parts, in order. *)
Definition texts_of (parts : list json) : list string :=
  omap (λ part,
          if Py.eq_str (part_type part) "text"
          then match default (JStr "") (field "text" part) with
               | JStr s => Some s
               | _ => None
               end
          else None) parts.

(** The [file] objects of the file parts, in order. *)
Definition files_of (parts : list json) : list json :=
  omap (λ part,
          if Py.eq_str (part_type part) "file"
          then Some (default (JObj []) (field "file" part))
          else None) parts.

(** The [data] objects of the data parts, in order. *)
Definition datas_of (parts : list json) : list json :=
  omap (λ part,
          if Py.eq_str (part_type part) "data"
          then Some (default (JObj []) (field "data" part))
          else None) parts.

(** ** The agents the agency can list *)

(** An agent with a [name] and a [description]. *)
Definition listable (agent : json) : bool :=
  bool_decide (is_Some (field "name" agent))
  && bool_decide (is_Some (field "description" agent)).

(** A server whose second agent has no description. *)
Definition unlisted_server : A2AServer :=
  {| API_KEY := "secret";
     registry := [("abc", demo_agent); ("xyz", plain_agent)];
     objects := []; tasks := [] |}.

(** ** The registry: [agency/agent_registry.py]

    An agent is a Python dict that the registry, the factory and their
    callers share: [register_agent] keeps the dict it is given,
    [get_agent] hands out the dict the registry holds, and [update_agent]
    writes to it.  So the agent dicts live in [dicts], are referred to by
    their index there, and [agents] maps an agent id to such a reference,
    in insertion order.  The file the registry is saved to is outside the
    model ([persistence.save] reports a failure by its result, which the
    registry does not read), and [datetime.now().isoformat()] is the
    argument [now] of the functions that call it. *)

Module Registry.

Record AgentRegistry : Type := {
  dicts : list (list (string * json));   (* the agent dicts created so far *)
  agents : list (string * nat)           (* self.agents *)
}.

(** The dict a reference denotes. *)
Definition dict_at (self : AgentRegistry) (r : nat) : list (string * json) :=
  default [] (dicts self !! r).

(** A mutation of the dict a reference denotes. *)
Definition set_dict (self : AgentRegistry) (r : nat)
    (d : list (string * json)) : AgentRegistry :=
  {| dicts := <[r := d]> (dicts self); agents := agents self |}.

(** A new dict. *)
Definition new_dict (self : AgentRegistry) (d : list (string * json))
    : nat * AgentRegistry :=
  (length (dicts self),
   {| dicts := dicts self ++ [d]; agents := agents self |}).

Definition set_agents (self : AgentRegistry) (a : list (string * nat))
    : AgentRegistry :=
  {| dicts := dicts self; agents := a |}.

(** [d.update(other)] *)
Definition dict_update (d other : list (string * json))
    : list (string * json) :=
  foldl (λ d kv, Py.store kv.1 kv.2 d) d other.

(** [register_agent(agent_id, agent_info)]: the registry afterwards, and
    the reference returned, or the exception raised. *)
Definition register_agent (self : AgentRegistry) (now : string)
    (agent_id : string) (agent_info : nat) : AgentRegistry * result nat :=
  let self :=
    match Py.lookup agent_id (agents self) with
    | Some entry =>
        (* agent_info["updated_at"] = datetime.now().isoformat() *)
        let self :=
          set_dict self agent_info
            (Py.store "updated_at" (JStr now) (dict_at self agent_info)) in
        (* self.agents[agent_id].update(agent_info) *)
        set_dict self entry
          (dict_update (dict_at self entry) (dict_at self agent_info))
    | None =>
        (* agent_info["created_at"] = datetime.now().isoformat() *)
        let self :=
          set_dict self agent_info
            (Py.store "created_at" (JStr now) (dict_at self agent_info)) in
        (* agent_info["updated_at"] = agent_info["created_at"] *)
        let self :=
          set_dict self agent_info
            (Py.store "updated_at"
               (default JNull (Py.lookup "created_at" (dict_at self agent_info)))
               (dict_at self agent_info)) in
        (* self.agents[agent_id] = agent_info *)
        set_agents self (Py.store agent_id agent_info (agents self))
    end in
  (* logger.info(f"Agent {agent_id} registered: {agent_info['name']}") *)
  match Py.lookup "name" (dict_at self agent_info) with
  | None => (self, Raise KeyError)
  | Some _ =>
      (* return self.agents[agent_id] *)
      (self,
       match Py.lookup agent_id (agents self) with
       | Some r => Ok r
       | None => Raise KeyError
       end)
  end.

(** [deregister_agent(agent_id)] *)
Definition deregister_agent (self : AgentRegistry) (agent_id : string)
    : AgentRegistry * bool :=
  match Py.lookup agent_id (agents self) with
  | Some _ => (set_agents self (remove agent_id (agents self)), true)
  | None => (self, false)
  end.

(** [get_agent(agent_id)]: [self.agents.get(agent_id)] *)
Definition get_agent (self : AgentRegistry) (agent_id : string)
    : option nat :=
  Py.lookup agent_id (agents self).

(** [list_agents(filter_func)] *)
Definition list_agents (self : AgentRegistry)
    (filter_func : option (list (string * json) → bool)) : list nat :=
  match filter_func with
  | Some f => List.filter (λ r, f (dict_at self r)) (snd <$> agents self)
  | None => snd <$> agents self
  end.

(** [update_agent_status(agent_id, status)] *)
Definition update_agent_status (self : AgentRegistry) (now : string)
    (agent_id : string) (status : json) : AgentRegistry * bool :=
  match Py.lookup agent_id (agents self) with
  | Some r =>
      let self :=
        set_dict self r (Py.store "status" status (dict_at self r)) in
      let self :=
        set_dict self r (Py.store "updated_at" (JStr now) (dict_at self r)) in
      (self, true)
  | None => (self, false)
  end.

(** [get_agents_by_status(status)] *)
Definition get_agents_by_status (self : AgentRegistry) (status : string)
    : list nat :=
  List.filter
    (λ r,
       match Py.lookup "status" (dict_at self r) with
       | Some v => Py.eq_str v status
       | None => false
       end) (snd <$> agents self).

(** [get_active_agents()] *)
Definition get_active_agents (self : AgentRegistry) : list nat :=
  get_agents_by_status self "active".

(** A comprehension whose condition may raise. *)
Fixpoint filter_result {A : Type} (f : A → result bool) (l : list A)
    : result (list A) :=
  match l with
  | [] => Ok []
  | x :: l' =>
      b ← f x; xs ← filter_result f l';
      mret (if (b : bool) then x :: xs else xs)
  end.

(** [get_agents_by_skill(skill)]: the agents with
    ["skills" in agent and skill in agent["skills"]]. *)
Definition get_agents_by_skill (self : AgentRegistry) (skill : string)
    : result (list nat) :=
  filter_result
    (λ r,
       match Py.lookup "skills" (dict_at self r) with
       | Some skills => Py.has_key skills skill
       | None => Ok false
       end) (snd <$> agents self).

(** [v.lower()] *)
Definition lower_of (v : json) : result string :=
  match v with
  | JStr s => Ok (Py.lower s)
  | _ => Raise AttributeError
  end.

(** [any(query in skill.lower() for skill in skills)] *)
Fixpoint any_skill (query : string) (skills : list json) : result bool :=
  match skills with
  | [] => Ok false
  | skill :: skills' =>
      s ← lower_of skill;
      if Py.contains query s then Ok true else any_skill query skills'
  end.

(** ["k" in agent and query in agent["k"].lower()] *)
Definition field_matches (agent : list (string * json)) (k : string)
    (query : string) : result bool :=
  match Py.lookup k agent with
  | Some v => s ← lower_of v; mret (Py.contains query s)
  | None => Ok false
  end.

(** The condition of the comprehension of [search_agents]. *)
Definition search_matches (agent : list (string * json)) (query : string)
    : result bool :=
  b ← field_matches agent "name" query;
  if (b : bool) then Ok true
  else
    b ← field_matches agent "description" query;
    if (b : bool) then Ok true
    else
      match Py.lookup "skills" agent with
      | Some skills => skills ← Py.iter skills; any_skill query skills
      | None => Ok false
      end.

(** [search_agents(query)] *)
Definition search_agents (self : AgentRegistry) (query : string)
    : result (list nat) :=
  let query := Py.lower query in
  filter_result (λ r, search_matches (dict_at self r) query)
    (snd <$> agents self).

(** The registry as a dict of dicts: what [A2AServer] reads of it. *)
Definition view (self : AgentRegistry)
    : list (string * list (string * json)) :=
  (λ entry, (entry.1, dict_at self entry.2)) <$> agents self.

End Registry.

(** ** The factory: [agency/agent_factory.py]

    The card files are the part of the file system the factory writes:
    [files] maps the path of a JSON file to the value [json.load] reads
    from it.  [writable] tells whether [mkdir], [open(path, 'w')],
    [json.dump] and [unlink] succeed, and [other] is what [open] and
    [json.load] give for a path that [files] does not hold. *)

(** [open(path, 'r')] and [json.load]. *)
Definition load_card (files : list (string * json))
    (other : json → string + json) (path : json) : string + json :=
  match path with
  | JStr p =>
      match Py.lookup p files with
      | Some card => inr card
      | None => other path
      end
  | _ => other path
  end.

(** [d.items()] *)
Definition dict_items (d : json) : result (list (string * json)) :=
  match d with
  | JObj items => Ok items
  | _ => Raise AttributeError
  end.

(** The skills of a card: the comprehension over
    [agent_info.get("skills", [])] and "Add examples if available". *)
Definition card_skill_entries (agent_info : json) : result (list json) :=
  skills ← Py.get_default agent_info "skills" (JArr []);
  skills ← Py.iter skills;
  let skills := skill_entry <$> skills in
  has_examples ← Py.has_key agent_info "examples";
  if (has_examples : bool)
  then for_enumerate (attach_examples agent_info) 0 skills
  else mret skills.

(** The body of the [try] of [_update_agent_card] up to the write: the
    path and the updated card.  The [except] clause catches every
    exception, so which one is raised does not matter. *)
Definition updated_card (files : list (string * json))
    (other : json → string + json) (agent_info : json)
    : result (string * json) :=
  path ← Py.getitem agent_info "a2a_card_path";
  match path with
  | JStr card_path =>
      match load_card files other path with
      | inl _ => Raise KeyError
      | inr card =>
          name ← Py.get_default agent_info "name" (JStr "Agent");
          card ← Py.at_key "info" (λ info, Py.setitem info "name" name) card;
          description ← Py.get_default agent_info "description" (JStr "");
          card ← Py.at_key "info"
                   (λ info, Py.setitem info "description" description) card;
          skills ← card_skill_entries agent_info;
          card ← Py.setitem card "skills" (JArr skills);
          mret (card_path, card)
      end
  | _ => Raise TypeError
  end.

(** [AgentFactory._update_agent_card]: the result and the files
    afterwards. *)
Definition _update_agent_card (writable : bool)
    (files : list (string * json)) (other : json → string + json)
    (agent_id : string) (agent_info : json)
    : bool * list (string * json) :=
  match updated_card files other agent_info with
  | Ok (card_path, card) =>
      if writable then (true, Py.store card_path card files)
      else (false, files)
  | Raise _ => (false, files)
  end.

(** The loop [for key, value in metadata.items()] of [create_agent]. *)
Definition add_metadata (agent_info : list (string * json))
    (kv : string * json) : list (string * json) :=
  match Py.lookup kv.1 agent_info with
  | Some _ => agent_info
  | None => Py.store kv.1 kv.2 agent_info
  end.

(** [AgentFactory.create_agent]: the registry and the files afterwards,
    and the reference of the dict returned, or the exception raised.
    [uuid] is [str(uuid.uuid4())]. *)
Definition create_agent (self : AgentFactory) (DEFAULT_MODEL : string)
    (uuid now : string) (writable : bool)
    (reg : Registry.AgentRegistry) (files : list (string * json))
    (name description skills model instructions mcp_servers metadata : json)
    : Registry.AgentRegistry * list (string * json) * result nat :=
  let agent_id := uuid in
  let model := if negb (Py.truthy model) then JStr DEFAULT_MODEL else model in
  match (if Py.truthy metadata
         then Py.get_default metadata "category" (JStr "general")
         else Ok (JStr "general")) with
  | Raise e => (reg, files, Raise e)
  | Ok category =>
      let agent_info :=
        [("id", JStr agent_id); ("name", name);
         ("description", description); ("skills", skills); ("model", model);
         ("status", JStr "active"); ("category", category)] in
      let agent_info :=
        if Py.truthy instructions
        then Py.store "instructions" instructions agent_info
        else agent_info in
      let agent_info :=
        if Py.truthy mcp_servers
        then Py.store "mcp_servers" mcp_servers agent_info
        else agent_info in
      match (if Py.truthy metadata
             then items ← dict_items metadata;
                  mret (foldl add_metadata agent_info items)
             else Ok agent_info) with
      | Raise e => (reg, files, Raise e)
      | Ok agent_info =>
          let '(agent_info, files) :=
            match _create_agent_card self writable agent_id
                    (JObj agent_info) with
            | Some (a2a_card_path, card) =>
                (Py.store "a2a_card_path" (JStr a2a_card_path) agent_info,
                 Py.store a2a_card_path card files)
            | None => (agent_info, files)
            end in
          let '(r, reg) := Registry.new_dict reg agent_info in
          let '(reg, registered) :=
            Registry.register_agent reg now agent_id r in
          (reg, files, _ ← registered; mret r)
      end
  end.

(** The loop [for key, value in updates.items()] of [update_agent]. *)
Definition apply_update (agent : list (string * json)) (kv : string * json)
    : list (string * json) :=
  if String.eqb kv.1 "id" || String.eqb kv.1 "created_at" then agent
  else Py.store kv.1 kv.2 agent.

(** [AgentFactory.update_agent]: [None] stands for the result [None].
    [agent] is the dict the registry holds, so the loop writes to the
    registry's entry, and [register_agent] is given that same dict.  The
    last log line reads [agent['name']], which [register_agent] has read
    before it. *)
Definition update_agent (now : string) (writable : bool)
    (other : json → string + json)
    (reg : Registry.AgentRegistry) (files : list (string * json))
    (agent_id : string) (updates : json)
    : Registry.AgentRegistry * list (string * json) * result (option nat) :=
  match Registry.get_agent reg agent_id with
  | None => (reg, files, Ok None)
  | Some agent =>
      if negb (Py.truthy (JObj (Registry.dict_at reg agent)))
      then (reg, files, Ok None)
      else
        match dict_items updates with
        | Raise e => (reg, files, Raise e)
        | Ok items =>
            let reg :=
              Registry.set_dict reg agent
                (foldl apply_update (Registry.dict_at reg agent) items) in
            let files :=
              match Py.lookup "a2a_card_path" (Registry.dict_at reg agent) with
              | Some _ =>
                  (_update_agent_card writable files other agent_id
                     (JObj (Registry.dict_at reg agent))).2
              | None => files
              end in
            let '(reg, updated_agent) :=
              Registry.register_agent reg now agent_id agent in
            (reg, files, r ← updated_agent; mret (Some r))
        end
  end.

(** [AgentFactory.delete_agent]: a card path that is not a string makes
    [Path] raise inside the [try], which leaves the files as they are. *)
Definition delete_agent (writable : bool)
    (reg : Registry.AgentRegistry) (files : list (string * json))
    (agent_id : string)
    : Registry.AgentRegistry * list (string * json) * result bool :=
  match Registry.get_agent reg agent_id with
  | None => (reg, files, Ok false)
  | Some agent =>
      if negb (Py.truthy (JObj (Registry.dict_at reg agent)))
      then (reg, files, Ok false)
      else
        let files :=
          match Py.lookup "a2a_card_path" (Registry.dict_at reg agent) with
          | Some (JStr card_path) =>
              if writable then remove card_path files else files
          | _ => files
          end in
        let '(reg', result) := Registry.deregister_agent reg agent_id in
        if (result : bool) then
          (* logger.info(f"Deleted agent: {agent['name']} ({agent_id})") *)
          match Py.lookup "name" (Registry.dict_at reg agent) with
          | Some _ => (reg', files, Ok true)
          | None => (reg', files, Raise KeyError)
          end
        else (reg', files, Ok false)
  end.

(** [AgentFactory.activate_agent] and [AgentFactory.deactivate_agent] *)
Definition activate_agent (reg : Registry.AgentRegistry) (now : string)
    (agent_id : string) : Registry.AgentRegistry * bool :=
  Registry.update_agent_status reg now agent_id (JStr "active").

Definition deactivate_agent (reg : Registry.AgentRegistry) (now : string)
    (agent_id : string) : Registry.AgentRegistry * bool :=
  Registry.update_agent_status reg now agent_id (JStr "inactive").

(** The server that reads the registry [reg]. *)
Definition server_of (key : string) (reg : Registry.AgentRegistry)
    : A2AServer :=
  {| API_KEY := key; registry := Registry.view reg;
     objects := []; tasks := [] |}.

(** ** Registries and files to evaluate the factory on *)

(** A registry that knows no agent, and the dict of an agent to
    register. *)
Definition unregistered : Registry.AgentRegistry :=
  {| Registry.dicts := [demo_agent]; Registry.agents := [] |}.

(** The registry when the agency starts with no registry file. *)
Definition empty_registry : Registry.AgentRegistry :=
  {| Registry.dicts := []; Registry.agents := [] |}.

(** The dict of a registered agent that has a card file. *)
Definition registered_agent : list (string * json) :=
  [("id", JStr "abc"); ("name", JStr "Bob"); ("description", JStr "Helper.");
   ("skills", JArr [JStr "x"; JStr "y"]); ("status", JStr "active");
   ("a2a_card_path", JStr "data/agent_cards/abc.json");
   ("created_at", JStr "2026-01-01T00:00:00");
   ("updated_at", JStr "2026-01-01T00:00:00")].

(** A registry that knows the agent ["abc"]. *)
Definition registered : Registry.AgentRegistry :=
  {| Registry.dicts := [registered_agent]; Registry.agents := [("abc", 0%nat)] |}.

(** The card [_create_agent_card] wrote for the agent ["abc"] when its
    name was ["Bob"]. *)
Definition bob_card : json :=
  JObj [("agentFormat", JStr "1.0.0");
        ("info",
         JObj [("id", JStr "abc"); ("name", JStr "Bob");
               ("description", JStr "Helper."); ("version", JStr "1.0.0");
               ("contact",
                JObj [("name", JStr "Bob");
                      ("url", JStr "http://0.0.0.0:8000/a2a/agents/abc")])]);
        ("servers",
         JArr [JObj [("url", JStr "http://0.0.0.0:8000/a2a/agents/abc");
                     ("protocol", JStr "a2a")]]);
        ("security", security_block);
        ("skills",
         JArr [JObj [("name", JStr "x"); ("description", JStr "Skill in x")];
               JObj [("name", JStr "y"); ("description", JStr "Skill in y")]])].

(** The agent ["abc"] after it was renamed and lost a skill. *)
Definition renamed_agent : list (string * json) :=
  [("id", JStr "abc"); ("name", JStr "Rob"); ("description", JStr "Helper.");
   ("skills", JArr [JStr "x"]); ("status", JStr "active");
   ("a2a_card_path", JStr "data/agent_cards/abc.json")].

(** A registry that knows no agent, and the dict of an agent without a
    name. *)
Definition nameless : Registry.AgentRegistry :=
  {| Registry.dicts := [[("id", JStr "n1"); ("skills", JArr [])]];
     Registry.agents := [] |}.


(** * Properties *)

(** ** The operations of Python, on examples *)

Example repr_ex :
  Py.repr (JArr [JStr "a'b"; JNum (-3); JObj [("k", JNull)]])
  = "[" +:+ String (ascii_of_N 34) "a'b" +:+ String (ascii_of_N 34) ""
    +:+ ", -3, {'k': None}]".
Proof. reflexivity. Qed.

Example split_ex :
  Py.split "  I'm   Bob, ok " = ["I'm"; "Bob,"; "ok"].
Proof. reflexivity. Qed.

Example chunk_ex :
  _chunk_text "aaaa bbbb cc dd e" 9 = ["aaaa bbbb"; "cc dd e"].
Proof. reflexivity. Qed.
(** ** Strings *)

Lemma sapp_cons (c : ascii) (a b : string) :
  String c a +:+ b = String c (a +:+ b).
Proof. done. Qed.

Lemma sapp_empty_l (s : string) : "" +:+ s = s.
Proof. done. Qed.

Lemma sapp_empty_r (s : string) : s +:+ "" = s.
Proof. induction s as [|c s IH]; [done|]. by rewrite sapp_cons, IH. Qed.

Lemma sapp_assoc (a b c : string) : (a +:+ b) +:+ c = a +:+ b +:+ c.
Proof. induction a as [|x a IH]; [done|]. by rewrite !sapp_cons, IH. Qed.

Lemma slength_app (a b : string) :
  String.length (a +:+ b) = (String.length a + String.length b)%nat.
Proof.
  induction a as [|x a IH]; [done|]. rewrite sapp_cons. cbn. by rewrite IH.
Qed.

(** ** Joining *)

Lemma join_cons (sep x : string) (l : list string) :
  l ≠ [] → Py.join sep (x :: l) = x +:+ sep +:+ Py.join sep l.
Proof. by destruct l. Qed.

Lemma join_app (sep : string) (a b : list string) :
  a ≠ [] → b ≠ [] →
  Py.join sep (a ++ b) = Py.join sep a +:+ sep +:+ Py.join sep b.
Proof.
  intros Ha Hb. induction a as [|x a IH]; [done|].
  destruct a as [|y a].
  - cbn [app]. by rewrite join_cons.
  - rewrite <- app_comm_cons, !join_cons by done.
    rewrite IH by done. by rewrite !sapp_assoc.
Qed.

Lemma join_snoc (sep x : string) (a : list string) :
  a ≠ [] → Py.join sep (a ++ [x]) = Py.join sep a +:+ sep +:+ x.
Proof. intros. by rewrite join_app. Qed.

(** Joining the joined groups of a list joins the list. *)
Lemma join_groups (sep : string) (groups : list (list string)) :
  Forall (λ g, g ≠ []) groups →
  Py.join sep (Py.join sep <$> groups) = Py.join sep (concat groups).
Proof.
  induction 1 as [|g groups Hg Hgs IH]; [done|].
  destruct groups as [|g' groups].
  - cbn. by rewrite app_nil_r.
  - rewrite fmap_cons, join_cons by done. rewrite IH.
    change (concat (g :: g' :: groups)) with (g ++ concat (g' :: groups)).
    rewrite (join_app sep g); [done|done|].
    inversion Hgs as [|?? Hg' _]; subst. cbn [concat]. by destruct g'.
Qed.

(** ** Splitting *)

Lemma split_go_word (w cur rest : string) :
  no_space w = true →
  Py.split_go cur (w +:+ rest) = Py.split_go (cur +:+ w) rest.
Proof.
  revert cur. induction w as [|c w IH]; intros cur Hw.
  - by rewrite sapp_empty_l, sapp_empty_r.
  - cbn in Hw. apply andb_prop in Hw as [Hc Hw].
    apply negb_true_iff in Hc.
    rewrite sapp_cons. cbn [Py.split_go]. rewrite Hc, IH by done.
    by rewrite sapp_assoc.
Qed.

Lemma split_go_end (cur : string) : cur ≠ "" → Py.split_go cur "" = [cur].
Proof. intros. cbn [Py.split_go]. by destruct (decide (cur = "")). Qed.

Lemma split_go_space (cur rest : string) :
  cur ≠ "" → Py.split_go cur (" " +:+ rest) = cur :: Py.split_go "" rest.
Proof.
  intros. rewrite sapp_cons, sapp_empty_l. cbn [Py.split_go].
  change (Py.isspace " ") with true. cbn match.
  by destruct (decide (cur = "")).
Qed.

Lemma is_word_spec (w : string) :
  is_word w = true → w ≠ "" ∧ no_space w = true.
Proof.
  unfold is_word. intros [Hne Hw]%andb_prop. split; [|done].
  apply negb_true_iff in Hne. by apply String.eqb_neq in Hne.
Qed.

(** Splitting the words joined by single spaces gives the words back. *)
Lemma split_join (ws : list string) :
  Forall (λ w, is_word w = true) ws → Py.split (Py.join " " ws) = ws.
Proof.
  unfold Py.split. induction 1 as [|w ws Hw Hws IH]; [done|].
  apply is_word_spec in Hw as [Hne Hw].
  destruct ws as [|w' ws].
  - cbn [Py.join]. rewrite <- (sapp_empty_r w) at 1.
    rewrite split_go_word, sapp_empty_l by done. by apply split_go_end.
  - rewrite join_cons by done.
    rewrite split_go_word, sapp_empty_l by done.
    rewrite split_go_space by done. by rewrite IH.
Qed.

(** ** [_chunk_text] *)

(** The loop of [_chunk_text] closes groups of words, each long enough. *)
Lemma chunk_fold (n : Z) (words : list string) :
  ∀ chunks cur : list string,
  ∃ (groups : list (list string)) (cur' : list string),
    foldl (chunk_step n) (chunks, cur) words
    = (chunks ++ (Py.join " " <$> groups), cur')
    ∧ Forall (λ g, g ≠ [] ∧ n ≤ Z.of_nat (String.length (Py.join " " g)))
        groups
    ∧ cur ++ words = concat groups ++ cur'.
Proof.
  induction words as [|w ws IH]; intros chunks cur.
  - exists [], cur. by rewrite !app_nil_r.
  - cbn [foldl]. unfold chunk_step at 2.
    destruct (Z.leb_spec n
                (Z.of_nat (String.length (Py.join " " (cur ++ [w]))))) as [Hle|Hlt].
    + destruct (IH (chunks ++ [Py.join " " (cur ++ [w])]) [])
        as (groups & cur' & Hfold & Hall & Hcat).
      exists ((cur ++ [w]) :: groups), cur'. split_and!.
      * rewrite Hfold, fmap_cons. by rewrite <- app_assoc.
      * constructor; [|done]. split; [by destruct cur|done].
      * cbn [concat]. rewrite <- !app_assoc. cbn in Hcat. by rewrite <- Hcat.
    + destruct (IH chunks (cur ++ [w]))
        as (groups & cur' & Hfold & Hall & Hcat).
      exists groups, cur'. split_and!; [done|done|].
      by rewrite <- Hcat, <- app_assoc.
Qed.

(** The chunks of a text: the groups the loop closed, and the words left
    over as a last group. *)
Lemma chunk_text_groups (text : string) (n : Z) :
  ∃ groups : list (list string),
    _chunk_text text n = Py.join " " <$> groups
    ∧ Forall (λ g, g ≠ []) groups
    ∧ concat groups = Py.split text
    ∧ ∀ (i : nat) (g : list string),
        groups !! i = Some g → (i + 1 < length groups)%nat →
        n ≤ Z.of_nat (String.length (Py.join " " g)).
Proof.
  unfold _chunk_text.
  destruct (chunk_fold n (Py.split text) [] [])
    as (groups & cur' & -> & Hall & Hcat).
  cbn in Hcat. destruct cur' as [|w cur'].
  - exists groups. rewrite app_nil_r in Hcat. split_and!; [done| |done|].
    + eapply Forall_impl; [done|]. by intros ? [].
    + intros i g Hg _. by eapply Forall_lookup_1 in Hall as [_ ?].
  - exists (groups ++ [w :: cur']). split_and!.
    + by rewrite fmap_app.
    + apply Forall_app. split; [|by repeat constructor].
      eapply Forall_impl; [done|]. by intros ? [].
    + rewrite concat_app. cbn. by rewrite app_nil_r.
    + intros i g Hg Hi. rewrite length_app in Hi. cbn in Hi.
      rewrite lookup_app_l in Hg by lia.
      by eapply Forall_lookup_1 in Hall as [_ ?].
Qed.

Lemma chunk_text_aligned (text : string) (n : Z) :
  word_aligned text (_chunk_text text n).
Proof.
  destruct (chunk_text_groups text n) as (groups & ? & ? & ? & _).
  by exists groups.
Qed.

Lemma chunk_text_min_size (text : string) (n : Z) (i : nat) (c : string) :
  _chunk_text text n !! i = Some c →
  (i + 1 < length (_chunk_text text n))%nat →
  n ≤ Z.of_nat (String.length c).
Proof.
  destruct (chunk_text_groups text n) as (groups & -> & _ & _ & Hmin).
  rewrite list_lookup_fmap, length_fmap.
  destruct (groups !! i) as [g|] eqn:Hg; [|done].
  intros [= <-] Hi. by eapply Hmin.
Qed.

Lemma chunk_text_rejoin (text : string) (n : Z) :
  Py.join " " (_chunk_text text n) = Py.join " " (Py.split text).
Proof.
  destruct (chunk_text_groups text n) as (groups & -> & Hne & <- & _).
  by apply join_groups.
Qed.

(** ** Dicts *)

Lemma lookup_store_eq {V : Type} (k : string) (v : V)
    (items : list (string * V)) :
  Py.lookup k (Py.store k v items) = Some v.
Proof.
  induction items as [|[k' v'] items IH]; cbn.
  - by rewrite String.eqb_refl.
  - destruct (String.eqb k' k) eqn:E; cbn; by rewrite E.
Qed.

Lemma lookup_store_ne {V : Type} (k k' : string) (v : V)
    (items : list (string * V)) :
  k ≠ k' → Py.lookup k (Py.store k' v items) = Py.lookup k items.
Proof.
  intros Hne. induction items as [|[k0 v0] items IH]; cbn.
  - destruct (String.eqb k' k) eqn:E; [|done].
    apply String.eqb_eq in E. congruence.
  - destruct (String.eqb k0 k') eqn:E; cbn; [|by rewrite IH].
    apply String.eqb_eq in E as ->.
    destruct (String.eqb k' k) eqn:E'; [|done].
    apply String.eqb_eq in E'. congruence.
Qed.

Lemma key_eqb_refl (k : json) : Py.hashable k = true → Py.key_eqb k k = true.
Proof.
  destruct k as [|[]| | | |]; cbn; try done.
  - intros _. apply Z.eqb_refl.
  - intros _. apply String.eqb_refl.
Qed.

Lemma tasks_find_store_eq (k : json) (r : nat) (d : list (json * nat)) :
  Py.hashable k = true → tasks_find k (tasks_store k r d) = Some r.
Proof.
  intros Hk. induction d as [|[k' r'] d IH]; cbn.
  - by rewrite key_eqb_refl.
  - destruct (Py.key_eqb k' k) eqn:E; cbn; by rewrite E.
Qed.

Lemma tasks_store_length (k : json) (r r0 : nat) (d : list (json * nat)) :
  tasks_find k d = Some r0 → length (tasks_store k r d) = length d.
Proof.
  induction d as [|[k' r'] d IH]; cbn; [done|].
  destruct (Py.key_eqb k' k); cbn; [done|]. intros. by rewrite IH.
Qed.

Lemma join_empty_cons (c : string) (l : list string) :
  Py.join "" (c :: l) = c +:+ Py.join "" l.
Proof. destruct l; [by rewrite sapp_empty_r|done]. Qed.

(** ** Task dicts *)

Lemma objects_mutate (self : A2AServer) (r : nat) (task task' : json) :
  objects self !! r = Some task → objects (mutate self r task') !! r = Some task'.
Proof.
  intros H. cbn. apply list_lookup_insert_eq. by eapply lookup_lt_Some.
Qed.

(** ** The handlers that create and cancel tasks *)

Ltac bind_inv H :=
  repeat (cbn [mbind result_bind mret result_ret] in H;
          match type of H with
          | context [mbind _ ?m] =>
              destruct m as [?|?] eqn:?;
              cbn [mbind result_bind mret result_ret] in H;
              [|discriminate H]
          | context [let '(_, _) := ?p in _] => destruct p
          end).

Lemma tasks_set_ok (self self' : A2AServer) (task_id : json) (r : nat) :
  tasks_set self task_id r = Ok self' →
  Py.hashable task_id = true
  ∧ self' = set_tasks self (tasks_store task_id r (tasks self)).
Proof.
  unfold tasks_set. destruct (Py.hashable task_id); [|done].
  by intros [= <-].
Qed.

(** What a POST handler gives for a handler it awaits. *)
Lemma awaited_inv (self self' : A2AServer) (r : result (Response * A2AServer))
    (answer : result Response) :
  awaited self r = (self', answer) →
  (∃ resp, r = Ok (resp, self') ∧ answer = Ok resp)
  ∨ (∃ e, r = Raise e ∧ self' = self ∧ answer = Raise e).
Proof.
  destruct r as [[resp self1]|e]; intros [= <- <-]; [left|right]; eauto.
Qed.

(** What [tasks/sendSubscribe] does: it raises before it has written
    anything, or it makes a task in state [working] that holds the
    message, stores it under the task id, and raises [AttributeError]. *)
Lemma send_subscribe_outcome (self self1 : A2AServer) (uuid : string)
    (rid params agent : json) (answer : result Response) :
  _handle_tasks_send_subscribe self uuid rid params agent = (self1, answer) →
  (self1 = self ∧ ∃ e, answer = Raise e)
  ∨ ∃ (tid message : json) (mt : string) (fp dp : list json),
      read_task_id uuid params = Ok tid
      ∧ Py.get_default params "message" (JObj []) = Ok message
      ∧ extract_parts message = Ok (mt, fp, dp)
      ∧ Py.hashable tid = true
      ∧ answer = Raise AttributeError
      ∧ self1 = set_tasks
                  (set_objects self
                     (objects self ++ [new_task tid "working" [message]]))
                  (tasks_store tid (length (objects self)) (tasks self)).
Proof.
  unfold _handle_tasks_send_subscribe, new_object, tasks_set,
    Response_of_generator.
  destruct (read_task_id uuid params) as [tid|e] eqn:Htid;
    cbn [mbind result_bind]; [|intros [= <- <-]; left; eauto].
  destruct (Py.get_default params "message" (JObj [])) as [message|e]
    eqn:Hmsg;
    cbn [mbind result_bind]; [|intros [= <- <-]; left; eauto].
  destruct (extract_parts message) as [[[mt fp] dp]|e] eqn:Hparts;
    cbn [mbind result_bind]; [|intros [= <- <-]; left; eauto].
  destruct (Py.hashable tid) eqn:Hh;
    cbn [mbind result_bind mret result_ret]; intros [= <- <-];
    [right|left; eauto].
  by exists tid, message, mt, fp, dp.
Qed.

Lemma agency_send_subscribe_outcome (self self1 : A2AServer) (uuid : string)
    (rid params : json) (answer : result Response) :
  _handle_agency_tasks_send_subscribe self uuid rid params = (self1, answer) →
  (self1 = self ∧ ∃ e, answer = Raise e)
  ∨ ∃ (tid message : json) (mt : string) (fp dp : list json),
      read_task_id uuid params = Ok tid
      ∧ Py.get_default params "message" (JObj []) = Ok message
      ∧ extract_parts message = Ok (mt, fp, dp)
      ∧ Py.hashable tid = true
      ∧ answer = Raise AttributeError
      ∧ self1 = set_tasks
                  (set_objects self
                     (objects self ++ [new_task tid "working" [message]]))
                  (tasks_store tid (length (objects self)) (tasks self)).
Proof.
  unfold _handle_agency_tasks_send_subscribe, new_object, tasks_set,
    Response_of_generator.
  destruct (read_task_id uuid params) as [tid|e] eqn:Htid;
    cbn [mbind result_bind]; [|intros [= <- <-]; left; eauto].
  destruct (Py.get_default params "message" (JObj [])) as [message|e]
    eqn:Hmsg;
    cbn [mbind result_bind]; [|intros [= <- <-]; left; eauto].
  destruct (extract_parts message) as [[[mt fp] dp]|e] eqn:Hparts;
    cbn [mbind result_bind]; [|intros [= <- <-]; left; eauto].
  destruct (Py.hashable tid) eqn:Hh;
    cbn [mbind result_bind mret result_ret]; intros [= <- <-];
    [right|left; eauto].
  by exists tid, message, mt, fp, dp.
Qed.

(** No request makes a [tasks/sendSubscribe] handler return. *)
Lemma send_subscribe_raises (self : A2AServer) (uuid : string)
    (rid params agent : json) :
  ∃ e, (_handle_tasks_send_subscribe self uuid rid params agent).2 = Raise e.
Proof.
  destruct (_handle_tasks_send_subscribe self uuid rid params agent)
    as [self1 answer] eqn:H.
  apply send_subscribe_outcome in H
    as [[_ [e ->]]|(? & ? & ? & ? & ? & _ & _ & _ & _ & -> & _)]; eauto.
Qed.

Lemma agency_send_subscribe_raises (self : A2AServer) (uuid : string)
    (rid params : json) :
  ∃ e, (_handle_agency_tasks_send_subscribe self uuid rid params).2 = Raise e.
Proof.
  destruct (_handle_agency_tasks_send_subscribe self uuid rid params)
    as [self1 answer] eqn:H.
  apply agency_send_subscribe_outcome in H
    as [[_ [e ->]]|(? & ? & ? & ? & ? & _ & _ & _ & _ & -> & _)]; eauto.
Qed.

Lemma send_subscribe_no_answer (self self' : A2AServer) (uuid : string)
    (rid params agent : json) (resp : Response) :
  _handle_tasks_send_subscribe self uuid rid params agent ≠ (self', Ok resp).
Proof.
  intros H. destruct (send_subscribe_raises self uuid rid params agent)
    as [e He].
  by rewrite H in He.
Qed.

Lemma agency_send_subscribe_no_answer (self self' : A2AServer)
    (uuid : string) (rid params : json) (resp : Response) :
  _handle_agency_tasks_send_subscribe self uuid rid params ≠ (self', Ok resp).
Proof.
  intros H. destruct (agency_send_subscribe_raises self uuid rid params)
    as [e He].
  by rewrite H in He.
Qed.

Lemma task_unknown_known (self : A2AServer) (tid : json) (r : nat) :
  Py.truthy tid = true → Py.hashable tid = true →
  tasks_find tid (tasks self) = Some r →
  task_unknown self tid = Ok false.
Proof.
  intros Ht Hh Hf. unfold task_unknown, tasks_contains.
  rewrite Ht, Hh. cbn. rewrite Hf. by rewrite bool_decide_eq_true_2.
Qed.

Lemma tasks_get_known (self : A2AServer) (tid : json) (r : nat) :
  Py.hashable tid = true → tasks_find tid (tasks self) = Some r →
  tasks_get self tid = Ok r.
Proof. intros Hh Hf. unfold tasks_get. by rewrite Hh, Hf. Qed.

Lemma deref_known (self : A2AServer) (r : nat) (task : json) :
  objects self !! r = Some task → deref self r = Ok task.
Proof. intros H. unfold deref. by rewrite H. Qed.

Lemma tasks_mutate (self : A2AServer) (r : nat) (task : json) :
  tasks (mutate self r task) = tasks self.
Proof. reflexivity. Qed.

(** [tasks/cancel] on a stored task: whatever the task's state was, it is
    set to [canceled] and the task is returned. *)
Lemma cancel_known (self : A2AServer) (rid params tid : json) (r : nat)
    (items : list (string * json)) :
  Py.get params "task_id" = Ok tid →
  Py.truthy tid = true → Py.hashable tid = true →
  tasks_find tid (tasks self) = Some r →
  objects self !! r = Some (JObj items) →
  _handle_tasks_cancel self rid params
  = Ok (JSONResponse
          (success (JObj (Py.store "state" (JStr "canceled") items)) rid)
          OK200,
        mutate self r (JObj (Py.store "state" (JStr "canceled") items))).
Proof.
  intros Hp Ht Hh Hf Hobj. unfold _handle_tasks_cancel.
  rewrite Hp. cbn [mbind result_bind].
  rewrite (task_unknown_known _ _ r) by done. cbn [mbind result_bind].
  rewrite (tasks_get_known self tid r) by done. cbn [mbind result_bind].
  rewrite (deref_known self r (JObj items)) by done.
  cbn [mbind result_bind Py.setitem].
  rewrite (tasks_get_known _ tid r) by done.
  cbn [mbind result_bind].
  erewrite deref_known by by eapply objects_mutate. done.
Qed.

(** [tasks/get] on a stored task returns it. *)
Lemma get_known (self : A2AServer) (rid params tid task : json) (r : nat) :
  Py.get params "task_id" = Ok tid →
  Py.truthy tid = true → Py.hashable tid = true →
  tasks_find tid (tasks self) = Some r →
  objects self !! r = Some task →
  _handle_tasks_get self rid params
  = Ok (JSONResponse (success task rid) OK200, self).
Proof.
  intros Hp Ht Hh Hf Hobj. unfold _handle_tasks_get.
  rewrite Hp. cbn [mbind result_bind].
  rewrite (task_unknown_known _ _ r) by done. cbn [mbind result_bind].
  rewrite (tasks_get_known self tid r) by done. cbn [mbind result_bind].
  by rewrite (deref_known self r task).
Qed.

Lemma read_task_id_truthy (uuid : string) (params tid : json) :
  uuid ≠ "" → read_task_id uuid params = Ok tid → Py.truthy tid = true.
Proof.
  intros Hu. unfold read_task_id.
  destruct (Py.get params "task_id") as [v|] eqn:Hv; [|done].
  cbn. destruct (Py.truthy v) eqn:Hv'; intros [= <-]; [done|].
  cbn. by apply negb_true_iff, String.eqb_neq.
Qed.



(** ** The replies to "hello" for the agent Bob *)

Lemma demo_send_reply :
  reply_of_send demo_server "u-1" (JStr "1") hello_params (JObj demo_agent)
  = Ok (Some (JStr "I'm Bob, specialized in demo. Helper. How can I assist you today?")).
Proof. vm_compute. reflexivity. Qed.

(** [tasks/sendSubscribe] opens no stream. *)
Lemma no_subscription (self : A2AServer) (uuid : string)
    (rid params agent : json) :
  subscription self uuid rid params agent = None.
Proof.
  unfold subscription.
  destruct (send_subscribe_raises self uuid rid params agent) as [e He].
  destruct (_handle_tasks_send_subscribe self uuid rid params agent)
    as [self1 answer].
  cbn in He. by rewrite He.
Qed.

Lemma no_stream_reply (fuel : nat) (self : A2AServer) (uuid : string)
    (rid params agent : json) :
  reply_of_stream fuel self uuid rid params agent = None.
Proof. unfold reply_of_stream. by rewrite no_subscription. Qed.

Lemma streaming_refines_send_fails :
  ¬ streaming_refines_send demo_server "u-1" (JStr "1") hello_params
      (JObj demo_agent).
Proof.
  intros H. destruct (H _ demo_send_reply) as [fuel Hfuel].
  by rewrite no_stream_reply in Hfuel.
Qed.


(** ** [tasks/send] returns for every well-formed request *)

Lemma join_json_strings (sep : string) (skills : list json) :
  forallb is_str skills = true →
  ∃ text, Py.join_json sep (JArr skills) = Ok text.
Proof.
  intros H. unfold Py.join_json. cbn [Py.iter mbind result_bind].
  assert (∃ strs, comprehension
            (λ x, match x with JStr s => Ok s | _ => Raise TypeError end)
            skills = Ok strs) as [strs ->]; [|by eexists].
  induction skills as [|[] skills IH]; cbn in H |- *; try done.
  - by eexists.
  - destruct (IH H) as [strs ->]. by eexists.
Qed.

Lemma file_name_suffix_total (f : json) (fp : list json) :
  valid_file f = true → ∃ suffix, file_name_suffix (f :: fp) = Ok suffix.
Proof.
  unfold valid_file, file_name_suffix. destruct f as [| | | | |items]; try done.
  cbn [Py.get Py.get_default mbind result_bind].
  destruct (Py.lookup "file_name" items) as [v|]; cbn [from_option id].
  - intros H. destruct (Py.truthy v) eqn:Hv;
      cbn [negb orb mbind result_bind mret result_ret] in H |- *.
    + destruct v; try done. by eexists.
    + by eexists.
  - intros _. by eexists.
Qed.

Lemma agent_response_total (self : A2AServer) (agent : json) (mt : string)
    (fp dp : list json) :
  valid_agent agent = true →
  Forall (λ f, valid_file f = true) fp →
  ∃ text, _generate_agent_response self agent mt fp dp = Ok text.
Proof.
  unfold valid_agent. destruct agent as [| | | | |items]; try done.
  intros Hskills Hfp. unfold _generate_agent_response.
  cbn [Py.get_default mbind result_bind].
  destruct (default (JArr []) (Py.lookup "skills" items))
    as [| | | |skills|]; try done.
  destruct (join_json_strings ", " skills Hskills) as [joined Hj].
  repeat match goal with
         | |- context [if ?b then _ else _] => destruct b eqn:?
         end; rewrite ?Hj; cbn [mbind result_bind]; try by eexists.
  match goal with
  | H : _ && bool_decide (fp ≠ []) = true |- _ =>
      apply andb_prop in H as [_ Hne%bool_decide_eq_true]
  end.
  destruct fp as [|f fp]; [done|].
  inversion Hfp; subst.
  destruct (file_name_suffix_total f fp) as [suffix ->]; [done|].
  cbn [mbind result_bind]. by eexists.
Qed.

Lemma part_step_total (mt : string) (fp dp : list json) (part : json) :
  valid_part part = true →
  Forall (λ f, valid_file f = true) fp →
  ∃ mt' fp' dp',
    part_step (mt, fp, dp) part = Ok (mt', fp', dp')
    ∧ Forall (λ f, valid_file f = true) fp'.
Proof.
  unfold valid_part. destruct part as [| | | | |items]; try done.
  intros Hpart Hfp. unfold part_step.
  cbn [Py.get Py.get_default mbind result_bind] in *.
  destruct (Py.eq_str (default JNull (Py.lookup "type" items)) "text").
  - destruct (default (JStr "") (Py.lookup "text" items)); try done.
    cbn. by eexists _, _, _.
  - cbn [mbind result_bind].
    destruct (Py.eq_str (default JNull (Py.lookup "type" items)) "file").
    + cbn. eexists _, _, _. split; [done|].
      apply Forall_app. split; [done|]. by repeat constructor.
    + cbn [mbind result_bind].
      destruct (Py.eq_str (default JNull (Py.lookup "type" items)) "data");
        cbn; by eexists _, _, _.
Qed.

Lemma for_each_parts_total (parts : list json) :
  ∀ (mt : string) (fp dp : list json),
    forallb valid_part parts = true →
    Forall (λ f, valid_file f = true) fp →
    ∃ mt' fp' dp',
      for_each part_step parts (mt, fp, dp) = Ok (mt', fp', dp')
      ∧ Forall (λ f, valid_file f = true) fp'.
Proof.
  induction parts as [|part parts IH]; intros mt fp dp Hparts Hfp.
  - by eexists _, _, _.
  - cbn in Hparts. apply andb_prop in Hparts as [Hpart Hparts].
    destruct (part_step_total mt fp dp part Hpart Hfp)
      as (mt1 & fp1 & dp1 & Hstep & Hfp1).
    cbn [for_each]. rewrite Hstep. cbn [mbind result_bind].
    by apply IH.
Qed.

Lemma extract_parts_total (message : json) :
  valid_message message = true →
  ∃ mt fp dp,
    extract_parts message = Ok (mt, fp, dp)
    ∧ Forall (λ f, valid_file f = true) fp.
Proof.
  unfold valid_message, extract_parts.
  destruct message as [| | | | |items]; try done.
  cbn [Py.get_default mbind result_bind].
  destruct (default (JArr []) (Py.lookup "parts" items))
    as [| | | |parts|]; try done.
  intros H. cbn [Py.iter mbind result_bind]. by apply for_each_parts_total.
Qed.

Lemma read_task_id_total (uuid : string) (params : json) :
  valid_params params = true →
  ∃ tid message,
    read_task_id uuid params = Ok tid
    ∧ Py.hashable tid = true
    ∧ Py.get_default params "message" (JObj []) = Ok message
    ∧ valid_message message = true.
Proof.
  unfold valid_params, read_task_id.
  destruct params as [| | | | |items]; try done.
  intros [Htid Hmsg]%andb_prop. cbn [Py.get Py.get_default mbind result_bind].
  eexists _, _. split_and!; [done| |done|done].
  destruct (Py.truthy (default JNull (Py.lookup "task_id" items))); done.
Qed.

(** What [tasks/send] does for a well-formed request. *)
Lemma send_ok (self : A2AServer) (uuid : string) (rid params agent : json) :
  valid_params params = true →
  valid_agent agent = true →
  ∃ (tid message : json) (mt : string) (fp dp : list json) (text : string),
    read_task_id uuid params = Ok tid
    ∧ Py.hashable tid = true
    ∧ Py.get_default params "message" (JObj []) = Ok message
    ∧ extract_parts message = Ok (mt, fp, dp)
    ∧ _generate_agent_response self agent mt fp dp = Ok text
    ∧ _handle_tasks_send self uuid rid params agent
      = Ok (JSONResponse
              (success (new_task tid "completed" [message; agent_message text])
                 rid) OK200,
            set_tasks
              (set_objects self
                 (objects self
                  ++ [new_task tid "completed" [message; agent_message text]]))
              (tasks_store tid (length (objects self)) (tasks self))).
Proof.
  intros Hparams Hagent.
  destruct (read_task_id_total uuid params Hparams)
    as (tid & message & Htid & Hh & Hmsg & Hvalid).
  destruct (extract_parts_total message Hvalid) as (mt & fp & dp & Hparts & Hfp).
  destruct (agent_response_total self agent mt fp dp Hagent Hfp) as [text Htext].
  exists tid, message, mt, fp, dp, text. split_and!; try done.
  unfold _handle_tasks_send. rewrite Htid. cbn [mbind result_bind].
  rewrite Hmsg. cbn [mbind result_bind]. rewrite Hparts.
  cbn [mbind result_bind]. rewrite Htext. cbn [mbind result_bind].
  unfold new_object, tasks_set. cbn [objects]. by rewrite Hh.
Qed.

(** What [tasks/sendSubscribe] does for a well-formed request, for an agent
    and for the agency: the task is stored, and the handler raises. *)
Lemma send_subscribe_total (self : A2AServer) (uuid : string)
    (rid params agent : json) :
  valid_params params = true →
  ∃ (tid message : json) (mt : string) (fp dp : list json),
    read_task_id uuid params = Ok tid
    ∧ Py.hashable tid = true
    ∧ Py.get_default params "message" (JObj []) = Ok message
    ∧ extract_parts message = Ok (mt, fp, dp)
    ∧ Forall (λ f, valid_file f = true) fp
    ∧ _handle_tasks_send_subscribe self uuid rid params agent
      = (set_tasks
           (set_objects self
              (objects self ++ [new_task tid "working" [message]]))
           (tasks_store tid (length (objects self)) (tasks self)),
         Raise AttributeError)
    ∧ _handle_agency_tasks_send_subscribe self uuid rid params
      = (set_tasks
           (set_objects self
              (objects self ++ [new_task tid "working" [message]]))
           (tasks_store tid (length (objects self)) (tasks self)),
         Raise AttributeError).
Proof.
  intros Hparams.
  destruct (read_task_id_total uuid params Hparams)
    as (tid & message & Htid & Hh & Hmsg & Hvalid).
  destruct (extract_parts_total message Hvalid) as (mt & fp & dp & Hparts & Hfp).
  exists tid, message, mt, fp, dp. split_and!; try done.
  - unfold _handle_tasks_send_subscribe. rewrite Htid. cbn [mbind result_bind].
    rewrite Hmsg. cbn [mbind result_bind]. rewrite Hparts.
    cbn [mbind result_bind].
    unfold new_object, tasks_set. cbn [objects]. by rewrite Hh.
  - unfold _handle_agency_tasks_send_subscribe. rewrite Htid.
    cbn [mbind result_bind]. rewrite Hmsg. cbn [mbind result_bind].
    rewrite Hparts. cbn [mbind result_bind].
    unfold new_object, tasks_set. cbn [objects]. by rewrite Hh.
Qed.

(** ** The envelope checks of the POST handlers *)

Lemma lookup_remove_eq {V : Type} (k : string) (items : list (string * V)) :
  Py.lookup k (remove k items) = None.
Proof.
  induction items as [|[k' v] items IH]; [done|]. cbn.
  destruct (String.eqb k' k) eqn:E; [done|]. cbn. by rewrite E.
Qed.

Lemma lookup_remove_ne {V : Type} (k k' : string)
    (items : list (string * V)) :
  k ≠ k' → Py.lookup k (remove k' items) = Py.lookup k items.
Proof.
  intros Hne. induction items as [|[k0 v] items IH]; [done|]. cbn.
  destruct (String.eqb k0 k') eqn:E; cbn.
  - apply String.eqb_eq in E as ->.
    destruct (String.eqb k' k) eqn:E'; [|done].
    apply String.eqb_eq in E'. congruence.
  - by rewrite IH.
Qed.

(** A request whose [method] or [id] is missing or falsy is answered with
    the Invalid Request envelope, which echoes the [id]. *)
Lemma invalid_request (self : A2AServer) (uuid : string) (request : Request)
    (rpc : list (string * json)) :
  verify_api_key self request = true →
  body request = Some (JObj rpc) →
  Py.truthy (default JNull (Py.lookup "method" rpc)) = false
  ∨ Py.truthy (default JNull (Py.lookup "id" rpc)) = false →
  answered self uuid request
    (failure (-32600) "Invalid Request" (default JNull (Py.lookup "id" rpc)))
    400.
Proof.
  intros Hkey Hbody Hfalsy.
  assert (Hguard : negb (Py.truthy (default JNull (Py.lookup "method" rpc)))
                   || negb (Py.truthy (default JNull (Py.lookup "id" rpc)))
                   = true).
  { destruct Hfalsy as [-> | ->]; [done|]. by rewrite orb_true_r. }
  split.
  - intros Hagent. unfold handle_agent_request.
    rewrite Hkey, Hagent, Hbody.
    cbn [negb Py.get Py.get_default mbind result_bind mret result_ret].
    by rewrite Hguard.
  - unfold handle_agency_request. rewrite Hkey, Hbody.
    cbn [negb Py.get Py.get_default mbind result_bind mret result_ret].
    by rewrite Hguard.
Qed.

(** A request with a [method] the handlers do not know is answered with
    the Method not found envelope. *)
Lemma method_not_found (self : A2AServer) (uuid : string) (request : Request)
    (rpc : list (string * json)) :
  verify_api_key self request = true →
  body request = Some (JObj rpc) →
  Py.truthy (default JNull (Py.lookup "method" rpc)) = true →
  Py.truthy (default JNull (Py.lookup "id" rpc)) = true →
  recognized (default JNull (Py.lookup "method" rpc)) = false →
  answered self uuid request
    (failure (-32601)
       ("Method not found: "
        +:+ Py.str (default JNull (Py.lookup "method" rpc)))
       (default JNull (Py.lookup "id" rpc)))
    404.
Proof.
  intros Hkey Hbody Hm Hid Hrec. unfold recognized in Hrec.
  repeat (apply orb_false_elim in Hrec as [Hrec ?]).
  split.
  - intros Hagent. unfold handle_agent_request.
    rewrite Hkey, Hagent, Hbody.
    cbn [negb Py.get Py.get_default mbind result_bind mret result_ret].
    rewrite Hm, Hid. cbn [negb orb].
    by repeat match goal with H : Py.eq_str _ _ = false |- _ =>
                rewrite H; clear H end.
  - unfold handle_agency_request. rewrite Hkey, Hbody.
    cbn [negb Py.get Py.get_default mbind result_bind mret result_ret].
    rewrite Hm, Hid. cbn [negb orb].
    by repeat match goal with H : Py.eq_str _ _ = false |- _ =>
                rewrite H; clear H end.
Qed.

(** [tasks/get] and [tasks/cancel] for a task id the store does not hold
    are answered with the task-not-found envelope. *)
Lemma unknown_task (self : A2AServer) (uuid : string) (request : Request)
    (rpc : list (string * json)) (method : string) (params tid : json) :
  verify_api_key self request = true →
  body request = Some (JObj rpc) →
  Py.lookup "method" rpc = Some (JStr method) →
  method = "tasks/get" ∨ method = "tasks/cancel" →
  Py.truthy (default JNull (Py.lookup "id" rpc)) = true →
  Py.get (default (JObj []) (Py.lookup "params" rpc)) "task_id" = Ok tid →
  task_unknown self tid = Ok true →
  answered self uuid request
    (failure (-32602) ("Task with ID " +:+ Py.str tid +:+ " not found")
       (default JNull (Py.lookup "id" rpc)))
    404.
Proof.
  intros Hkey Hbody Hm Hmethod Hid Htid Hunknown.
  split.
  - intros Hagent. unfold handle_agent_request.
    rewrite Hkey, Hagent, Hbody.
    cbn [negb Py.get Py.get_default mbind result_bind mret result_ret].
    rewrite Hm, Hid. cbn [from_option id].
    destruct Hmethod as [-> | ->]; cbn [Py.truthy Py.eq_str String.eqb
      Ascii.eqb Bool.eqb negb orb andb];
      unfold _handle_tasks_get, _handle_tasks_cancel;
      rewrite Htid; cbn [mbind result_bind]; rewrite Hunknown; done.
  - unfold handle_agency_request. rewrite Hkey, Hbody.
    cbn [negb Py.get Py.get_default mbind result_bind mret result_ret].
    rewrite Hm, Hid. cbn [from_option id].
    destruct Hmethod as [-> | ->]; cbn [Py.truthy Py.eq_str String.eqb
      Ascii.eqb Bool.eqb negb orb andb];
      unfold _handle_tasks_get, _handle_tasks_cancel;
      rewrite Htid; cbn [mbind result_bind]; rewrite Hunknown; done.
Qed.

(** A request without the right API key is answered before its body is
    read, with a bare error object. *)
Lemma unauthorized (self : A2AServer) (uuid : string) (request : Request) :
  verify_api_key self request = false →
  handle_agent_request self uuid request
  = (self, Ok (JSONResponse (bare_error "Invalid or missing API key") 401))
  ∧ handle_agency_request self uuid request
    = (self, Ok (JSONResponse (bare_error "Invalid or missing API key") 401)).
Proof.
  intros H. unfold handle_agent_request, handle_agency_request.
  by rewrite H.
Qed.

Lemma unknown_agent (self : A2AServer) (uuid : string) (request : Request) :
  verify_api_key self request = true →
  Py.truthy (get_agent self (path_agent_id request)) = false →
  handle_agent_request self uuid request
  = (self,
     Ok (JSONResponse
           (bare_error
              ("Agent with ID " +:+ path_agent_id request +:+ " not found"))
           404)).
Proof.
  intros Hkey Hagent. unfold handle_agent_request. by rewrite Hkey, Hagent.
Qed.

Lemma malformed_json (self : A2AServer) (uuid : string) (request : Request) :
  verify_api_key self request = true →
  body request = None →
  answered self uuid request (bare_error "Invalid JSON") 400.
Proof.
  intros Hkey Hbody. split.
  - intros Hagent. unfold handle_agent_request.
    by rewrite Hkey, Hagent, Hbody.
  - unfold handle_agency_request. by rewrite Hkey, Hbody.
Qed.

(** ** Tasks never carry timestamps *)

Lemma task_like_new (tid : json) (st : string) (msgs : list json) :
  task_like (new_task tid st msgs).
Proof. by eexists _, _, _. Qed.

Lemma task_like_set_state (task task' v : json) :
  task_like task → Py.setitem task "state" v = Ok task' → task_like task'.
Proof.
  intros (items & st & msgs & -> & Hst & Hmsgs & Hc & Hu) [= <-].
  eexists _, v, msgs. split_and!; [done|..].
  - apply lookup_store_eq.
  - by rewrite lookup_store_ne.
  - by rewrite lookup_store_ne.
  - by rewrite lookup_store_ne.
Qed.

Lemma at_last_array (f : json → result json) (l l' : json) :
  Py.at_last f l = Ok l' → ∃ xs, l' = JArr xs.
Proof.
  destruct l as [| | |s|xs|]; try done.
  - by destruct s.
  - cbn. destruct (last xs); [|done].
    destruct (f j); [|done]. intros [= <-]. by eexists.
Qed.

Lemma task_like_messages (f : json → result json) (task task' : json) :
  (∀ l l', f l = Ok l' → ∃ xs, l' = JArr xs) →
  task_like task → Py.at_key "messages" f task = Ok task' → task_like task'.
Proof.
  intros Hf (items & st & msgs & -> & Hst & Hmsgs & Hc & Hu).
  unfold Py.at_key. cbn [Py.getitem]. rewrite Hmsgs. cbn [mbind result_bind].
  destruct (f (JArr msgs)) as [l'|] eqn:El; [|done].
  destruct (Hf _ _ El) as [xs ->]. cbn. intros [= <-].
  eexists _, st, xs. split_and!; [done|..].
  - by rewrite lookup_store_ne.
  - apply lookup_store_eq.
  - by rewrite lookup_store_ne.
  - by rewrite lookup_store_ne.
Qed.

Lemma consistent_mutate (self : A2AServer) (r : nat) (task : json) :
  consistent self → task_like task → consistent (mutate self r task).
Proof.
  intros [Hobjs Htasks] Htask. split; cbn.
  - by apply Forall_insert.
  - by rewrite length_insert.
Qed.

Lemma tasks_store_refs (P : nat → Prop) (k : json) (r : nat)
    (d : list (json * nat)) :
  Forall (λ entry, P entry.2) d → P r →
  Forall (λ entry, P entry.2) (tasks_store k r d).
Proof.
  intros Hd Hr. induction Hd as [|[k' r'] d Hk Hd IH]; cbn.
  - by repeat constructor.
  - destruct (Py.key_eqb k' k); constructor; done.
Qed.

Lemma consistent_create (self : A2AServer) (tid : json) (st : string)
    (msgs : list json) :
  consistent self →
  consistent
    (set_tasks (set_objects self (objects self ++ [new_task tid st msgs]))
       (tasks_store tid (length (objects self)) (tasks self))).
Proof.
  intros [Hobjs Htasks]. split; cbn.
  - apply Forall_app. split; [done|]. repeat constructor. apply task_like_new.
  - rewrite length_app. cbn.
    apply (tasks_store_refs (λ r, r < length (objects self) + 1)%nat);
      [|lia].
    eapply Forall_impl; [done|]. cbn. lia.
Qed.

Lemma consistent_deref (self : A2AServer) (r : nat) (task : json) :
  consistent self → deref self r = Ok task → task_like task.
Proof.
  intros [Hobjs _]. unfold deref.
  destruct (objects self !! r) as [t|] eqn:E; [|done].
  intros [= <-]. by eapply Forall_lookup_1.
Qed.

Lemma consistent_stream_loop (self self' : A2AServer) (g g' : stream)
    (i : nat) (chunks : list string) (ev : option json) :
  consistent self →
  stream_loop self g i chunks = Ok (ev, self', g') →
  consistent self'.
Proof.
  intros Hself. unfold stream_loop.
  destruct (chunks !! i) as [chunk|]; [|by intros [= _ <- _]].
  intros H. bind_inv H. injection H as _ <- _.
  apply consistent_mutate; [done|].
  assert (task_like a) by by eapply consistent_deref.
  assert (task_like a0).
  { destruct (decide (i = 0%nat)).
    - eapply (task_like_messages (Py.append _)); [|done..].
      intros [] l'; try done. intros [= <-]. by eexists.
    - eapply (task_like_messages (Py.at_last _)); [|done..].
      intros l l'. apply at_last_array. }
  destruct (Z.of_nat i =? Z.of_nat (length chunks) - 1).
  - by eapply task_like_set_state.
  - by simplify_eq.
Qed.

Lemma consistent_next (self self' : A2AServer) (g g' : stream)
    (ev : option json) :
  consistent self → next self g = Ok (ev, self', g') → consistent self'.
Proof.
  intros Hself. unfold next. destruct (s_at g).
  - intros H. bind_inv H. by injection H as _ <- _.
  - intros H. bind_inv H. by eapply consistent_stream_loop.
  - by apply consistent_stream_loop.
  - by intros [= _ <- _].
Qed.

Lemma consistent_send (self self' : A2AServer) (uuid : string)
    (rid params agent : json) (resp : Response) :
  consistent self →
  _handle_tasks_send self uuid rid params agent = Ok (resp, self') →
  consistent self'.
Proof.
  intros Hself H. unfold _handle_tasks_send, new_object in H. bind_inv H.
  match goal with Hs : tasks_set _ _ _ = Ok _ |- _ =>
    apply tasks_set_ok in Hs as [_ ->] end.
  injection H as _ <-. by apply consistent_create.
Qed.

Lemma consistent_send_subscribe (self self' : A2AServer) (uuid : string)
    (rid params agent : json) (answer : result Response) :
  consistent self →
  _handle_tasks_send_subscribe self uuid rid params agent = (self', answer) →
  consistent self'.
Proof.
  intros Hself H.
  apply send_subscribe_outcome in H
    as [[-> _]|(? & ? & ? & ? & ? & _ & _ & _ & _ & _ & ->)]; [done|].
  by apply consistent_create.
Qed.

Lemma consistent_agency_send (self self' : A2AServer) (uuid : string)
    (rid params : json) (resp : Response) :
  consistent self →
  _handle_agency_tasks_send self uuid rid params = Ok (resp, self') →
  consistent self'.
Proof.
  intros Hself H. unfold _handle_agency_tasks_send, new_object in H.
  bind_inv H.
  match goal with Hs : tasks_set _ _ _ = Ok _ |- _ =>
    apply tasks_set_ok in Hs as [_ ->] end.
  injection H as _ <-. by apply consistent_create.
Qed.

Lemma consistent_agency_send_subscribe (self self' : A2AServer)
    (uuid : string) (rid params : json) (answer : result Response) :
  consistent self →
  _handle_agency_tasks_send_subscribe self uuid rid params = (self', answer) →
  consistent self'.
Proof.
  intros Hself H.
  apply agency_send_subscribe_outcome in H
    as [[-> _]|(? & ? & ? & ? & ? & _ & _ & _ & _ & _ & ->)]; [done|].
  by apply consistent_create.
Qed.

Lemma consistent_get (self self' : A2AServer) (rid params : json)
    (resp : Response) :
  _handle_tasks_get self rid params = Ok (resp, self') → self' = self.
Proof.
  intros H. unfold _handle_tasks_get in H. bind_inv H.
  destruct a0; bind_inv H; by injection H as _ <-.
Qed.

Lemma consistent_cancel (self self' : A2AServer) (rid params : json)
    (resp : Response) :
  consistent self →
  _handle_tasks_cancel self rid params = Ok (resp, self') →
  consistent self'.
Proof.
  intros Hself H. unfold _handle_tasks_cancel in H. bind_inv H.
  destruct a0; bind_inv H; injection H as _ <-; [done|].
  apply consistent_mutate; [done|].
  eapply task_like_set_state; [|done]. by eapply consistent_deref.
Qed.

Lemma consistent_list (self self' : A2AServer) (rid params : json)
    (resp : Response) :
  _handle_tasks_list self rid params = Ok (resp, self') → self' = self.
Proof.
  intros H. unfold _handle_tasks_list in H. bind_inv H.
  by injection H as _ <-.
Qed.

Lemma consistent_agent_info (self self' : A2AServer) (rid agent : json)
    (resp : Response) :
  _handle_agent_info self rid agent = Ok (resp, self') → self' = self.
Proof.
  intros H. unfold _handle_agent_info in H. bind_inv H.
  by injection H as _ <-.
Qed.

(** The branches of a POST handler: the guards are decided, and an awaited
    handler has returned or raised. *)
Ltac outcomes H :=
  repeat match type of H with
         | (if ?b then _ else _) = (_, _) => destruct b eqn:?
         | match ?o with Some _ => _ | None => _ end = (_, _) =>
             destruct o eqn:?
         | match ?r with Ok _ => _ | Raise _ => _ end = (_, _) =>
             destruct r as [[[? ?] ?]|?] eqn:?
         | awaited _ _ = (_, _) =>
             apply awaited_inv in H as [(? & H & ->)|(? & H & -> & ->)]
         | (_, _) = (_, _) => injection H as <- <-
         end.

Lemma consistent_agent_request (self self' : A2AServer) (uuid : string)
    (request : Request) (answer : result Response) :
  consistent self →
  handle_agent_request self uuid request = (self', answer) →
  consistent self'.
Proof.
  intros Hself H. unfold handle_agent_request in H. outcomes H; try done.
  - by eapply consistent_send.
  - by eapply consistent_send_subscribe.
  - by apply consistent_get in H as ->.
  - by eapply consistent_cancel.
  - by apply consistent_list in H as ->.
  - by apply consistent_agent_info in H as ->.
Qed.

Lemma consistent_agency_request (self self' : A2AServer) (uuid : string)
    (request : Request) (answer : result Response) :
  consistent self →
  handle_agency_request self uuid request = (self', answer) →
  consistent self'.
Proof.
  intros Hself H. unfold handle_agency_request in H. outcomes H; try done.
  - by eapply consistent_agency_send.
  - by eapply consistent_agency_send_subscribe.
  - by apply consistent_get in H as ->.
  - by eapply consistent_cancel.
  - by apply consistent_list in H as ->.
  - unfold _handle_agency_info in H. by injection H as _ <-.
Qed.

(** Every state the server reaches is consistent. *)
Lemma reachable_consistent (self : A2AServer) :
  reachable self → consistent self.
Proof.
  intros (self0 & [Hobjs Htasks] & Hsteps).
  assert (Hstart : consistent self0).
  { split; [by rewrite Hobjs|by rewrite Htasks]. }
  clear Hobjs Htasks.
  induction Hsteps as [|self0 self1 self2 Hstep _ IH]; [done|].
  apply IH. destruct Hstep.
  - by eapply consistent_agent_request.
  - by eapply consistent_agency_request.
  - by eapply consistent_next.
Qed.

Lemma task_summary_known (self : A2AServer) (k : json) (r : nat)
    (items : list (string * json)) (st : json) (msgs : list json) :
  objects self !! r = Some (JObj items) →
  Py.lookup "state" items = Some st →
  Py.lookup "messages" items = Some (JArr msgs) →
  Py.lookup "created_at" items = None →
  Py.lookup "updated_at" items = None →
  task_summary self (k, r)
  = Ok (JObj [("id", k); ("state", st);
              ("message_count", JNum (Z.of_nat (length msgs)));
              ("created_at", JStr ""); ("updated_at", JStr "")]).
Proof.
  intros Htask Hst Hmsgs Hc Hu. unfold task_summary.
  rewrite (deref_known _ _ _ Htask).
  cbn [mbind result_bind Py.getitem Py.get_default].
  by rewrite Hst, Hmsgs, Hc, Hu.
Qed.

(** In a consistent server [tasks/list] returns one summary per stored
    task, with empty timestamps. *)
Lemma summaries_total (self : A2AServer) (d : list (json * nat)) :
  Forall task_like (objects self) →
  Forall (λ entry, (entry.2 < length (objects self))%nat) d →
  ∃ summaries,
    comprehension (task_summary self) d = Ok summaries
    ∧ length summaries = length d
    ∧ Forall (λ s, field "created_at" s = Some (JStr "")
                   ∧ field "updated_at" s = Some (JStr "")) summaries.
Proof.
  intros Hobjs Hd. induction Hd as [|[k r] d Hr Hd IH].
  - by exists [].
  - destruct IH as (summaries & Hsum & Hlen & Hall).
    cbn in Hr. destruct (lookup_lt_is_Some_2 _ _ Hr) as [task Htask].
    destruct (Forall_lookup_1 _ _ _ _ Hobjs Htask)
      as (items & st & msgs & -> & Hst & Hmsgs & Hc & Hu).
    cbn [comprehension].
    rewrite (task_summary_known self k r items st msgs) by done.
    cbn [mbind result_bind]. rewrite Hsum.
    cbn [mbind result_bind mret result_ret].
    eexists. split_and!; [done|by cbn; rewrite Hlen|].
    constructor; [done|done].
Qed.

(** ** The skills of a discovery card *)

Lemma attach_examples_entry (items : list (string * json))
    (exs : list json) (i : nat) (name : string) :
  Py.lookup "examples" items = Some (JArr exs) →
  ∃ entry,
    attach_examples (JObj items) i (skill_entry (JStr name)) = Ok entry
    ∧ field "name" entry = Some (JStr name)
    ∧ field "description" entry = Some (JStr ("Skill in " +:+ name))
    ∧ field "examples" entry = exs !! i.
Proof.
  intros Hex. unfold attach_examples. cbn [Py.getitem]. rewrite Hex.
  cbn [mbind result_bind Py.len].
  destruct (Z.ltb_spec (Z.of_nat i) (Z.of_nat (length exs))) as [Hlt|Hge].
  - destruct (lookup_lt_is_Some_2 exs i) as [e He]; [lia|].
    cbn [mbind result_bind Py.index]. rewrite He.
    eexists. split_and!; [reflexivity|done..].
  - eexists. split_and!; [reflexivity|done|done|].
    symmetry. apply lookup_ge_None_2. lia.
Qed.

Lemma attach_examples_all (items : list (string * json)) (exs : list json) :
  Py.lookup "examples" items = Some (JArr exs) →
  ∀ (names : list string) (i : nat),
  ∃ entries,
    for_enumerate (attach_examples (JObj items)) i
      (skill_entry <$> (JStr <$> names)) = Ok entries
    ∧ length entries = length names
    ∧ ∀ (j : nat) (name : string),
        names !! j = Some name →
        ∃ entry,
          entries !! j = Some entry
          ∧ field "name" entry = Some (JStr name)
          ∧ field "examples" entry = exs !! (i + j)%nat.
Proof.
  intros Hex. induction names as [|name names IH]; intros i.
  - by exists [].
  - destruct (attach_examples_entry items exs i name Hex)
      as (entry & Hentry & Hname & _ & Hexs).
    destruct (IH (S i)) as (entries & Hrest & Hlen & Hall).
    cbn [fmap list_fmap for_enumerate]. rewrite Hentry.
    cbn [mbind result_bind].
    change (list_fmap json json skill_entry (list_fmap string json JStr names))
      with (skill_entry <$> (JStr <$> names)).
    rewrite Hrest.
    cbn [mbind result_bind mret result_ret].
    exists (entry :: entries). split_and!; [done|by cbn; rewrite Hlen|].
    intros [|j] name' Hj; cbn in Hj.
    + injection Hj as <-. exists entry. by rewrite Nat.add_0_r.
    + destruct (Hall j name' Hj) as (entry' & ? & ? & Hexs').
      exists entry'. split_and!; [done|done|].
      rewrite Hexs'. f_equal. lia.
Qed.

(** The card [_create_agent_card] writes for an agent with skill names and
    an examples list: one entry per skill, in order, entry [i] carrying
    the [i]-th example list when there is one and no [examples] field
    otherwise. *)
Lemma create_agent_card_skills (self : AgentFactory) (agent_id : string)
    (items : list (string * json)) (names : list string) (exs : list json) :
  Py.lookup "skills" items = Some (JArr (JStr <$> names)) →
  Py.lookup "examples" items = Some (JArr exs) →
  ∃ (path : string) (card : json) (entries : list json),
    _create_agent_card self true agent_id (JObj items) = Some (path, card)
    ∧ card_skills card = Some entries
    ∧ length entries = length names
    ∧ ∀ (i : nat) (name : string),
        names !! i = Some name →
        ∃ entry,
          entries !! i = Some entry
          ∧ field "name" entry = Some (JStr name)
          ∧ field "examples" entry = exs !! i.
Proof.
  intros Hskills Hex.
  destruct (attach_examples_all items exs Hex names 0)
    as (entries & Hentries & Hlen & Hall).
  unfold _create_agent_card, card_content.
  cbn [Py.get_default mbind result_bind Py.has_key].
  rewrite Hskills, Hex. cbn [from_option id Py.iter mbind result_bind].
  rewrite bool_decide_eq_true_2 by by eexists.
  rewrite Hentries. cbn [mbind result_bind mret result_ret].
  eexists _, _, entries. split_and!; [done|done|done|done].
Qed.

(** The card [get_agent_card] generates for an agent without a card file:
    one entry per skill, in order, none with an [examples] field. *)
Lemma generated_card_skills (self : A2AServer) (load : json → string + json)
    (request : Request) (items : list (string * json))
    (names : list string) :
  Py.lookup (path_agent_id request) (registry self) = Some items →
  items ≠ [] →
  Py.lookup "a2a_card_path" items = None →
  Py.lookup "skills" items = Some (JArr (JStr <$> names)) →
  ∃ card,
    get_agent_card self load request = Ok (JSONResponse card OK200)
    ∧ card_skills card = Some (skill_entry <$> (JStr <$> names))
    ∧ ∀ entry, entry ∈ skill_entry <$> (JStr <$> names) →
               field "examples" entry = None.
Proof.
  intros Hagent Hne Hpath Hskills. unfold get_agent_card, get_agent.
  rewrite Hagent. destruct items as [|item items]; [done|].
  cbn [Py.truthy negb Py.has_key mbind result_bind].
  rewrite Hpath. rewrite bool_decide_eq_false_2 by by intros [? [=]].
  cbn [Py.get_default mbind result_bind]. rewrite Hskills.
  cbn [from_option id Py.iter mbind result_bind mret result_ret].
  eexists. split_and!; [done|done|].
  intros entry (v & -> & _)%list_elem_of_fmap. done.
Qed.

(** An agent whose [examples] are [None], as the REST route makes it when
    the request has none, gets no card file: [len(None)] raises. *)
Example create_agent_card_without_examples :
  _create_agent_card card_factory true "abc"
    (JObj [("id", JStr "abc"); ("name", JStr "Bob");
           ("skills", JArr [JStr "x"; JStr "y"]); ("examples", JNull)])
  = None.
Proof. reflexivity. Qed.

(** * The properties of the specification *)

(** ** Streaming and sending *)

(** C1.  The specification asks that the reply [tasks/sendSubscribe]
    streams is the reply [tasks/send] returns.  [tasks/sendSubscribe]
    delivers no reply at all: its handler stores the task in state
    [working] and then raises [AttributeError], because its last statement
    makes a plain [Response] of the generator, so for no request a stream
    is opened and an event sent.  For the agent Bob and the message
    "hello", [tasks/send] returns "... How can I assist you today?", and
    the POST of [tasks/sendSubscribe] ends in the exception and leaves the
    task with the message of the request alone. *)
Theorem subscribe_delivers_no_reply :
  (∀ (fuel : nat) (self : A2AServer) (uuid : string)
     (rid params agent : json),
     reply_of_stream fuel self uuid rid params agent = None)
  ∧ reply_of_send demo_server "u-1" (JStr "1") hello_params (JObj demo_agent)
    = Ok (Some (JStr "I'm Bob, specialized in demo. Helper. How can I assist you today?"))
  ∧ handle_agent_request demo_server "u-1"
      (post (rpc "tasks/sendSubscribe" hello_params (JStr "1")))
    = (demo_subscribed, Raise AttributeError)
  ∧ objects demo_subscribed = [new_task (JStr "t1") "working" [hello]]
  ∧ tasks demo_subscribed = [(JStr "t1", 0%nat)]
  ∧ ¬ streaming_refines_send demo_server "u-1" (JStr "1") hello_params
        (JObj demo_agent).
Proof.
  split_and!.
  - intros. apply no_stream_reply.
  - exact demo_send_reply.
  - reflexivity.
  - reflexivity.
  - reflexivity.
  - exact streaming_refines_send_fails.
Qed.

(** ** Chunking *)

(** C2, as the specification states it, fails: re-joining the chunks with
    single spaces does not reconstruct a text in which two words are
    separated by more than one space, such as the reply of an agent
    without a description. *)
Lemma rejoin_loses_whitespace :
  _generate_agent_response demo_server (JObj plain_agent) "hello" [] []
  = Ok "I'm Bob, specialized in demo.  How can I assist you today?"
  ∧ ¬ rejoin_reconstructs
        "I'm Bob, specialized in demo.  How can I assist you today?".
Proof.
  split; [vm_compute; reflexivity|]. intros H. vm_compute in H.
  discriminate H.
Qed.

(** C2, amended.  For every text, the chunks [_chunk_text] makes with
    minimum size 50 are word-aligned, every chunk but the last is at least
    50 characters long, and re-joining the chunks with single spaces gives
    the words of the text joined by single spaces; this is the text itself
    when the text consists of words separated by single spaces. *)
Theorem chunk_text_words (text : string) :
  word_aligned text (_chunk_text text 50)
  ∧ (∀ (i : nat) (c : string),
       _chunk_text text 50 !! i = Some c →
       (i + 1 < length (_chunk_text text 50))%nat →
       50 ≤ Z.of_nat (String.length c))
  ∧ Py.join " " (_chunk_text text 50) = Py.join " " (Py.split text)
  ∧ (∀ ws : list string,
       Forall (λ w, is_word w = true) ws →
       text = Py.join " " ws →
       rejoin_reconstructs text).
Proof.
  split_and!.
  - apply chunk_text_aligned.
  - apply chunk_text_min_size.
  - apply chunk_text_rejoin.
  - intros ws Hws ->. unfold rejoin_reconstructs.
    by rewrite chunk_text_rejoin, split_join.
Qed.

Lemma chunk_text_words_witness :
  50 ≤ Z.of_nat (String.length "I'm Bob, specialized in demo. Helper. How can I assist")
  ∧ rejoin_reconstructs
      "I'm Bob, specialized in demo. Helper. How can I assist you today?".
Proof.
  pose proof (chunk_text_words
    "I'm Bob, specialized in demo. Helper. How can I assist you today?")
    as (_ & Hmin & _ & Hjoin).
  split.
  - apply (Hmin 0%nat); [reflexivity|vm_compute; lia].
  - apply (Hjoin ["I'm"; "Bob,"; "specialized"; "in"; "demo."; "Helper.";
                  "How"; "can"; "I"; "assist"; "you"; "today?"]);
      [|reflexivity].
    repeat (constructor; [reflexivity|]). constructor.
Defined.

(** ** Cancelling *)




(** C4, as the specification states it, fails: [tasks/cancel] on the
    completed task that [tasks/send] stored answers with the task in state
    [canceled], and [canceled] is what [tasks/get] reports afterwards. *)
Lemma cancel_changes_completed :
  ¬ cancel_keeps_completed demo_server_sent (JStr "2")
      (JObj [("task_id", JStr "t1")]).
Proof.
  intros H. assert (E : state_of_get demo_server_sent (JStr "2")
                          (JObj [("task_id", JStr "t1")])
                        = Ok (Some (JStr "completed"))) by (vm_compute; reflexivity).
  specialize (H E). vm_compute in H. discriminate H.
Qed.

(** C4, amended.  For every task id present in the store, whatever the
    state of its task (a terminal state such as [completed] included),
    [tasks/cancel] sets the state to [canceled] and returns the task, which
    is the task the store then holds. *)
Theorem cancel_sets_canceled (self : A2AServer) (rid params tid : json)
    (r : nat) (items : list (string * json)) :
  Py.get params "task_id" = Ok tid →
  Py.truthy tid = true →
  Py.hashable tid = true →
  tasks_find tid (tasks self) = Some r →
  objects self !! r = Some (JObj items) →
  ∃ (task : json) (self' : A2AServer),
    _handle_tasks_cancel self rid params
    = Ok (JSONResponse (success task rid) OK200, self')
    ∧ field "state" task = Some (JStr "canceled")
    ∧ _handle_tasks_get self' rid params
      = Ok (JSONResponse (success task rid) OK200, self').
Proof.
  intros Hp Ht Hh Hf Hobj. eexists _, _. split_and!.
  - by apply (cancel_known self rid params tid r items).
  - apply lookup_store_eq.
  - apply (get_known _ _ _ tid _ r); try done.
    by eapply objects_mutate.
Qed.

Lemma cancel_sets_canceled_witness :
  ∃ (task : json) (self' : A2AServer),
    _handle_tasks_cancel demo_server_sent (JStr "2")
      (JObj [("task_id", JStr "t1")])
    = Ok (JSONResponse (success task (JStr "2")) OK200, self')
    ∧ field "state" task = Some (JStr "canceled")
    ∧ _handle_tasks_get self' (JStr "2") (JObj [("task_id", JStr "t1")])
      = Ok (JSONResponse (success task (JStr "2")) OK200, self').
Proof.
  apply (cancel_sets_canceled demo_server_sent (JStr "2")
           (JObj [("task_id", JStr "t1")]) (JStr "t1") 0
           [("id", JStr "t1"); ("state", JStr "completed");
            ("messages",
             JArr [hello;
                   agent_message
                     "I'm Bob, specialized in demo. Helper. How can I assist you today?"]);
            ("artifacts", JArr [])]); reflexivity.
Defined.

(** ** Sending *)

(** C5.  For every well-formed [tasks/send] request, the JSON-RPC result
    is a task in state [completed] with exactly two messages: the message
    of the request, and a message of role [agent] with exactly one part,
    of type [text]. *)
Theorem tasks_send_completed (self : A2AServer) (uuid : string)
    (rid params agent : json) :
  valid_params params = true →
  valid_agent agent = true →
  ∃ (task message : json) (text : string) (self' : A2AServer),
    _handle_tasks_send self uuid rid params agent
    = Ok (JSONResponse (success task rid) OK200, self')
    ∧ field "state" task = Some (JStr "completed")
    ∧ Py.get_default params "message" (JObj []) = Ok message
    ∧ task_messages task
      = Some [message;
              JObj [("role", JStr "agent");
                    ("parts", JArr [JObj [("type", JStr "text");
                                          ("text", JStr text)]])]].
Proof.
  intros Hparams Hagent.
  destruct (send_ok self uuid rid params agent Hparams Hagent)
    as (tid & message & mt & fp & dp & text & _ & _ & Hmsg & _ & _ & Hsend).
  by eexists _, message, text, _.
Qed.

Lemma tasks_send_completed_witness :
  ∃ (task message : json) (text : string) (self' : A2AServer),
    _handle_tasks_send demo_server "u-1" (JStr "1")
      (JObj [("message", hello)]) (JObj demo_agent)
    = Ok (JSONResponse (success task (JStr "1")) OK200, self')
    ∧ field "state" task = Some (JStr "completed")
    ∧ Py.get_default (JObj [("message", hello)]) "message" (JObj [])
      = Ok message
    ∧ task_messages task
      = Some [message;
              JObj [("role", JStr "agent");
                    ("parts", JArr [JObj [("type", JStr "text");
                                          ("text", JStr text)]])]].
Proof.
  apply (tasks_send_completed demo_server "u-1" (JStr "1")
           (JObj [("message", hello)]) (JObj demo_agent)); reflexivity.
Defined.

(** C10.  When the params of [tasks/send] or [tasks/sendSubscribe] carry
    the id of a task the store holds, the store entry of that id is
    replaced by the new task, without a check of the id and without a
    merge: the entry refers to a new task dict made from the request alone
    ([completed] with the two messages for [tasks/send], [working] with
    the message for [tasks/sendSubscribe]), and no entry is added.
    [tasks/send] returns the new task.  [tasks/sendSubscribe] has replaced
    the entry when it ends, as it does for every well-formed request, in
    the [AttributeError] of its last statement. *)
Theorem send_replaces_stored_task (self : A2AServer) (uuid : string)
    (rid params agent tid : json) (r_old : nat) :
  valid_params params = true →
  valid_agent agent = true →
  Py.get params "task_id" = Ok tid →
  Py.truthy tid = true →
  tasks_find tid (tasks self) = Some r_old →
  ∃ (message : json) (text : string),
    Py.get_default params "message" (JObj []) = Ok message
    ∧ (∃ self',
         _handle_tasks_send self uuid rid params agent
         = Ok (JSONResponse
                 (success
                    (new_task tid "completed" [message; agent_message text])
                    rid) OK200, self')
         ∧ tasks_find tid (tasks self') = Some (length (objects self))
         ∧ objects self'
           = objects self
             ++ [new_task tid "completed" [message; agent_message text]]
         ∧ length (tasks self') = length (tasks self))
    ∧ (∃ self',
         _handle_tasks_send_subscribe self uuid rid params agent
         = (self', Raise AttributeError)
         ∧ tasks_find tid (tasks self') = Some (length (objects self))
         ∧ objects self' = objects self ++ [new_task tid "working" [message]]
         ∧ length (tasks self') = length (tasks self)).
Proof.
  intros Hparams Hagent Hp Ht Hf.
  assert (Htid : read_task_id uuid params = Ok tid).
  { unfold read_task_id. rewrite Hp. cbn. by rewrite Ht. }
  destruct (send_ok self uuid rid params agent Hparams Hagent)
    as (tid1 & message & mt & fp & dp & text & Htid1 & Hh & Hmsg & _ & _
        & Hsend).
  destruct (send_subscribe_total self uuid rid params agent Hparams)
    as (tid2 & message2 & mt2 & fp2 & dp2 & Htid2 & _ & Hmsg2 & _ & _ & Hsub
        & _).
  rewrite Htid in Htid1, Htid2. injection Htid1 as <-. injection Htid2 as <-.
  rewrite Hmsg in Hmsg2. injection Hmsg2 as <-.
  exists message, text. split_and!; [done| |].
  - eexists. split_and!; [exact Hsend|..]; cbn.
    + by apply tasks_find_store_eq.
    + done.
    + by eapply tasks_store_length.
  - eexists. split_and!; [exact Hsub|..]; cbn.
    + by apply tasks_find_store_eq.
    + done.
    + by eapply tasks_store_length.
Qed.

Lemma send_replaces_stored_task_witness :
  ∃ (message : json) (text : string),
    Py.get_default hello_params "message" (JObj []) = Ok message
    ∧ (∃ self',
         _handle_tasks_send demo_server_sent "u-2" (JStr "2") hello_params
           (JObj demo_agent)
         = Ok (JSONResponse
                 (success
                    (new_task (JStr "t1") "completed"
                       [message; agent_message text])
                    (JStr "2")) OK200, self')
         ∧ tasks_find (JStr "t1") (tasks self')
           = Some (length (objects demo_server_sent))
         ∧ objects self'
           = objects demo_server_sent
             ++ [new_task (JStr "t1") "completed"
                   [message; agent_message text]]
         ∧ length (tasks self') = length (tasks demo_server_sent))
    ∧ (∃ self',
         _handle_tasks_send_subscribe demo_server_sent "u-2" (JStr "2")
           hello_params (JObj demo_agent)
         = (self', Raise AttributeError)
         ∧ tasks_find (JStr "t1") (tasks self')
           = Some (length (objects demo_server_sent))
         ∧ objects self'
           = objects demo_server_sent
             ++ [new_task (JStr "t1") "working" [message]]
         ∧ length (tasks self') = length (tasks demo_server_sent)).
Proof.
  apply (send_replaces_stored_task demo_server_sent "u-2" (JStr "2")
           hello_params (JObj demo_agent) (JStr "t1") 0); reflexivity.
Defined.

(** ** Failures *)

(** C6, as the specification states it, fails: a request without an API
    key, whose body is a well-formed JSON-RPC request, is answered with
    status 401 and the body [{"error": "Invalid or missing API key"}],
    which is no JSON-RPC error envelope. *)
Lemma authentication_failure_is_not_enveloped :
  ¬ failures_are_enveloped demo_server "u-1"
      (post_without_key (rpc "tasks/send" hello_params (JStr "1"))).
Proof.
  intros H.
  specialize (H (bare_error "Invalid or missing API key") 401 demo_server).
  discriminate H; [reflexivity|lia|discriminate].
Qed.

(** C6, amended.  The failures the POST handlers meet once the body is
    decoded answer with a JSON-RPC error envelope holding an integer code
    and a message: a missing or falsy [method] or [id] with code -32600
    and status 400, an unrecognized method with code -32601 and status
    404, an unknown task id with code -32602 and status 404.  The failures
    met before answer with a bare [{"error": message}] object, which is no
    envelope: an authentication failure with status 401, an unknown agent
    id with status 404 and, as the specification says, malformed JSON with
    status 400. *)
Theorem failure_answers (self : A2AServer) (uuid : string)
    (request : Request) :
  (verify_api_key self request = false →
   handle_agent_request self uuid request
   = (self, Ok (JSONResponse (bare_error "Invalid or missing API key") 401))
   ∧ handle_agency_request self uuid request
     = (self,
        Ok (JSONResponse (bare_error "Invalid or missing API key") 401)))
  ∧ (verify_api_key self request = true →
     Py.truthy (get_agent self (path_agent_id request)) = false →
     handle_agent_request self uuid request
     = (self,
        Ok (JSONResponse
              (bare_error
                 ("Agent with ID " +:+ path_agent_id request +:+ " not found"))
              404)))
  ∧ (verify_api_key self request = true →
     body request = None →
     answered self uuid request (bare_error "Invalid JSON") 400)
  ∧ (∀ rpc : list (string * json),
       verify_api_key self request = true →
       body request = Some (JObj rpc) →
       (Py.truthy (default JNull (Py.lookup "method" rpc)) = false
        ∨ Py.truthy (default JNull (Py.lookup "id" rpc)) = false →
        answered self uuid request
          (failure (-32600) "Invalid Request"
             (default JNull (Py.lookup "id" rpc))) 400)
       ∧ (Py.truthy (default JNull (Py.lookup "method" rpc)) = true →
          Py.truthy (default JNull (Py.lookup "id" rpc)) = true →
          recognized (default JNull (Py.lookup "method" rpc)) = false →
          answered self uuid request
            (failure (-32601)
               ("Method not found: "
                +:+ Py.str (default JNull (Py.lookup "method" rpc)))
               (default JNull (Py.lookup "id" rpc))) 404)
       ∧ (∀ (method : string) (tid : json),
            Py.lookup "method" rpc = Some (JStr method) →
            method = "tasks/get" ∨ method = "tasks/cancel" →
            Py.truthy (default JNull (Py.lookup "id" rpc)) = true →
            Py.get (default (JObj []) (Py.lookup "params" rpc)) "task_id"
            = Ok tid →
            task_unknown self tid = Ok true →
            answered self uuid request
              (failure (-32602)
                 ("Task with ID " +:+ Py.str tid +:+ " not found")
                 (default JNull (Py.lookup "id" rpc))) 404))
  ∧ (∀ (code : Z) (message : string) (rid : json),
       is_error_envelope (failure code message rid) = true)
  ∧ (∀ message : string, is_error_envelope (bare_error message) = false).
Proof.
  split_and!.
  - apply unauthorized.
  - apply unknown_agent.
  - apply malformed_json.
  - intros rpc Hkey Hbody. split_and!.
    + by apply invalid_request.
    + by apply method_not_found.
    + intros method tid. by apply unknown_task.
  - done.
  - done.
Qed.

Lemma failure_answers_witness :
  handle_agent_request demo_server "u-1"
    (post_without_key (rpc "tasks/send" hello_params (JStr "1")))
  = (demo_server,
     Ok (JSONResponse (bare_error "Invalid or missing API key") 401))
  ∧ answered demo_server "u-1" (post (JObj [("id", JStr "1")]))
      (failure (-32600) "Invalid Request" (JStr "1")) 400
  ∧ answered demo_server "u-1" (post (rpc "tasks/frob" (JObj []) (JStr "1")))
      (failure (-32601) "Method not found: tasks/frob" (JStr "1")) 404
  ∧ answered demo_server "u-1"
      (post (rpc "tasks/get" (JObj [("task_id", JStr "t9")]) (JStr "1")))
      (failure (-32602) "Task with ID t9 not found" (JStr "1")) 404.
Proof.
  split_and!.
  - apply (failure_answers demo_server "u-1"
             (post_without_key (rpc "tasks/send" hello_params (JStr "1")))).
    reflexivity.
  - apply (proj1 (proj2 (proj2 (proj2
             (failure_answers demo_server "u-1"
                (post (JObj [("id", JStr "1")]))))))
             [("id", JStr "1")]); [reflexivity|reflexivity|].
    left. reflexivity.
  - apply (proj1 (proj2 (proj2 (proj2
             (failure_answers demo_server "u-1"
                (post (rpc "tasks/frob" (JObj []) (JStr "1")))))))
             [("jsonrpc", JStr "2.0"); ("method", JStr "tasks/frob");
              ("params", JObj []); ("id", JStr "1")]); reflexivity.
  - pose proof (proj1 (proj2 (proj2 (proj2
             (failure_answers demo_server "u-1"
                (post (rpc "tasks/get" (JObj [("task_id", JStr "t9")])
                         (JStr "1")))))))
             [("jsonrpc", JStr "2.0"); ("method", JStr "tasks/get");
              ("params", JObj [("task_id", JStr "t9")]); ("id", JStr "1")]
             eq_refl eq_refl) as (_ & _ & H).
    apply (H "tasks/get" (JStr "t9")); try reflexivity.
    left. reflexivity.
Defined.

(** C9.  A request whose [id] is present but a falsy scalar (0, the empty
    string, false or null), or whose [method] is present but the empty
    string, is rejected by both POST handlers with the Invalid Request
    envelope (code -32600, status 400), as the request without that field
    is; the envelope echoes the [id] of the request, null when it has
    none. *)
Theorem falsy_id_or_method_rejected (self : A2AServer) (uuid : string)
    (request : Request) (rpc : list (string * json)) (k : string)
    (v : json) :
  verify_api_key self request = true →
  body request = Some (JObj rpc) →
  Py.lookup k rpc = Some v →
  (k = "id" ∧ falsy_scalar v) ∨ (k = "method" ∧ v = JStr "") →
  answered self uuid request
    (failure (-32600) "Invalid Request" (default JNull (Py.lookup "id" rpc)))
    400
  ∧ answered self uuid (with_body request (JObj (remove k rpc)))
      (failure (-32600) "Invalid Request"
         (if String.eqb k "id" then JNull
          else default JNull (Py.lookup "id" rpc)))
      400.
Proof.
  intros Hkey Hbody Hk Hfalsy. split.
  - apply invalid_request; [done|done|].
    destruct Hfalsy as [[-> Hv]|[-> ->]]; rewrite Hk; [right|by left].
    by destruct Hv as [->|[->|[->| ->]]].
  - replace (if String.eqb k "id" then JNull
             else default JNull (Py.lookup "id" rpc))
      with (default JNull (Py.lookup "id" (remove k rpc))).
    + apply invalid_request; [done|done|].
      destruct Hfalsy as [[-> _]|[-> _]]; rewrite lookup_remove_eq;
        [by right|by left].
    + destruct Hfalsy as [[-> _]|[-> _]].
      * by rewrite lookup_remove_eq.
      * by rewrite lookup_remove_ne.
Qed.

Lemma falsy_id_or_method_rejected_witness :
  answered demo_server "u-1" (post (rpc "tasks/send" hello_params (JNum 0)))
    (failure (-32600) "Invalid Request" (JNum 0)) 400
  ∧ answered demo_server "u-1"
      (with_body (post (rpc "tasks/send" hello_params (JNum 0)))
         (JObj [("jsonrpc", JStr "2.0"); ("method", JStr "tasks/send");
                ("params", hello_params)]))
      (failure (-32600) "Invalid Request" JNull) 400.
Proof.
  apply (falsy_id_or_method_rejected demo_server "u-1"
           (post (rpc "tasks/send" hello_params (JNum 0)))
           [("jsonrpc", JStr "2.0"); ("method", JStr "tasks/send");
            ("params", hello_params); ("id", JNum 0)] "id" (JNum 0));
    [reflexivity|reflexivity|reflexivity|].
  left. split; [reflexivity|]. left. reflexivity.
Defined.

(** ** Timestamps *)

(** C7, as the specification states it, fails: the task [tasks/send] has
    stored carries no timestamps. *)
Lemma stored_task_has_no_timestamps :
  ¬ tasks_carry_timestamps demo_server_sent.
Proof.
  intros [H _].
  destruct (H (new_task (JStr "t1") "completed"
                 [hello;
                  agent_message
                    "I'm Bob, specialized in demo. Helper. How can I assist you today?"]))
    as (c & u & Hc & _).
  - vm_compute. left.
  - discriminate Hc.
Qed.

(** C7, amended.  No handler and no stream sets [created_at] or
    [updated_at] on a task: in every state the server reaches, no task
    has either key, neither after its creation nor after any mutation;
    [tasks/list] returns one summary per stored task, and the
    [created_at] and [updated_at] of every summary are the empty
    string. *)
Theorem tasks_never_carry_timestamps (self : A2AServer) :
  reachable self →
  (∀ task : json,
     task ∈ objects self →
     field "created_at" task = None ∧ field "updated_at" task = None)
  ∧ ∀ rid params : json,
      ∃ summaries : list json,
        _handle_tasks_list self rid params
        = Ok (JSONResponse (success (JObj [("tasks", JArr summaries)]) rid)
                OK200, self)
        ∧ length summaries = length (tasks self)
        ∧ ∀ s : json,
            s ∈ summaries →
            field "created_at" s = Some (JStr "")
            ∧ field "updated_at" s = Some (JStr "").
Proof.
  intros [Hobjs Htasks]%reachable_consistent. split.
  - intros task Htask.
    apply (proj1 (Forall_forall _ _) Hobjs) in Htask
      as (items & st & msgs & -> & _ & _ & Hc & Hu).
    done.
  - intros rid params.
    destruct (summaries_total self (tasks self) Hobjs Htasks)
      as (summaries & Hsum & Hlen & Hall).
    exists summaries. split_and!; [|done|].
    + unfold _handle_tasks_list. by rewrite Hsum.
    + intros s Hs. by apply (proj1 (Forall_forall _ _) Hall).
Qed.

Lemma demo_server_sent_reachable : reachable demo_server_sent.
Proof.
  exists demo_server. split; [done|].
  eapply rtc_l; [|apply rtc_refl].
  eapply (step_agent_request demo_server "u-1"
            (post (rpc "tasks/send" hello_params (JStr "1")))).
  vm_compute. reflexivity.
Defined.

Lemma tasks_never_carry_timestamps_witness :
  (∀ task : json,
     task ∈ objects demo_server_sent →
     field "created_at" task = None ∧ field "updated_at" task = None)
  ∧ ∀ rid params : json,
      ∃ summaries : list json,
        _handle_tasks_list demo_server_sent rid params
        = Ok (JSONResponse (success (JObj [("tasks", JArr summaries)]) rid)
                OK200, demo_server_sent)
        ∧ length summaries = length (tasks demo_server_sent)
        ∧ ∀ s : json,
            s ∈ summaries →
            field "created_at" s = Some (JStr "")
            ∧ field "updated_at" s = Some (JStr "").
Proof.
  apply (tasks_never_carry_timestamps demo_server_sent).
  exact demo_server_sent_reachable.
Defined.

(** ** Discovery cards *)

(** C8.  The specification asks that the discovery card of an agent with
    skills and an examples list carries, at the entry of skill [i], the
    [i]-th example list.  The card [_create_agent_card] writes does; the
    card [get_agent_card] generates for an agent registered without a
    card file does not: for the agent with skills [x], [y] and examples
    [["e1"], ["e2"]], its two skill entries have a name and a description
    and no examples. *)
Theorem generated_card_omits_examples :
  (∀ load : json → string + json,
     ∃ card : json,
       get_agent_card card_server load card_request
       = Ok (JSONResponse card OK200)
       ∧ card_skills card
         = Some [JObj [("name", JStr "x");
                       ("description", JStr "Skill in x")];
                 JObj [("name", JStr "y");
                       ("description", JStr "Skill in y")]])
  ∧ ∃ (path : string) (card : json),
      _create_agent_card card_factory true "abc" (JObj card_agent)
      = Some (path, card)
      ∧ card_skills card
        = Some [JObj [("name", JStr "x");
                      ("description", JStr "Skill in x");
                      ("examples", JArr [JStr "e1"])];
                JObj [("name", JStr "y");
                      ("description", JStr "Skill in y");
                      ("examples", JArr [JStr "e2"])]].
Proof.
  split.
  - intros load. eexists. split; reflexivity.
  - eexists _, _. split; reflexivity.
Qed.
(** * Further properties of the code *)

(** ** [_chunk_text]: the words and the sizes of the chunks *)

Lemma no_space_app (a b : string) :
  no_space (a +:+ b) = no_space a && no_space b.
Proof.
  induction a as [|c a IH]; [done|].
  rewrite sapp_cons. cbn [no_space]. rewrite IH. by rewrite andb_assoc.
Qed.

Lemma sapp_eq_empty (a b : string) : a +:+ b = "" → a = "" ∧ b = "".
Proof. destruct a; [by rewrite sapp_empty_l|by rewrite sapp_cons]. Qed.

(** [split] yields words. *)
Lemma split_go_words (s : string) :
  ∀ cur : string,
    no_space cur = true →
    Forall (λ w, is_word w = true) (Py.split_go cur s).
Proof.
  assert (Hcur : ∀ cur, no_space cur = true →
            Forall (λ w, is_word w = true)
              (if decide (cur = "") then [] else [cur])).
  { intros cur Hns. destruct (decide (cur = "")) as [|Hne]; [done|].
    apply Forall_singleton. unfold is_word. rewrite Hns, andb_true_r.
    apply negb_true_iff, String.eqb_neq. done. }
  induction s as [|c s IH]; intros cur Hns; cbn [Py.split_go].
  - by apply Hcur.
  - destruct (Py.isspace c) eqn:Ec.
    + apply Forall_app. split; [by apply Hcur|by apply IH].
    + apply IH. rewrite no_space_app, Hns. cbn. by rewrite Ec.
Qed.

Lemma split_words (s : string) :
  Forall (λ w, is_word w = true) (Py.split s).
Proof. by apply split_go_words. Qed.

Lemma split_go_nonempty (s : string) :
  ∀ cur : string, cur ≠ "" → Py.split_go cur s ≠ [].
Proof.
  induction s as [|c s IH]; intros cur Hne; cbn [Py.split_go].
  - by destruct (decide (cur = "")).
  - destruct (Py.isspace c).
    + by destruct (decide (cur = "")).
    + apply IH. intros [_ ?]%sapp_eq_empty. done.
Qed.

Lemma split_nil (s : string) : Py.split s = [] ↔ all_space s = true.
Proof.
  unfold Py.split. induction s as [|c s IH]; [done|].
  cbn [Py.split_go all_space]. destruct (Py.isspace c); cbn.
  - done.
  - split; [|done]. intros H. by apply split_go_nonempty in H.
Qed.

(** Splitting the words joined by single spaces gives the words back. *)
Lemma split_join_split (s : string) :
  Py.split (Py.join " " (Py.split s)) = Py.split s.
Proof. apply split_join, split_words. Qed.

Lemma concat_nil_groups {A : Type} (groups : list (list A)) :
  Forall (λ g, g ≠ []) groups → concat groups = [] → groups = [].
Proof.
  destruct groups as [|g groups]; [done|].
  intros Hne%Forall_cons_1 H. destruct Hne as [Hg _].
  cbn in H. by apply app_eq_nil in H as [? _].
Qed.

Lemma chunk_text_nil (text : string) (n : Z) :
  _chunk_text text n = [] ↔ Py.split text = [].
Proof.
  destruct (chunk_text_groups text n) as (groups & -> & Hne & Hcat & _).
  rewrite <- Hcat. split.
  - intros H%fmap_nil_inv. by subst.
  - intros H. by rewrite (concat_nil_groups groups Hne H).
Qed.

(** X1.  A text without words gives no chunk, and only such a text. *)
Theorem chunk_text_empty_iff (text : string) (chunk_size : Z) :
  _chunk_text text chunk_size = [] ↔ all_space text = true.
Proof. by rewrite chunk_text_nil, split_nil. Qed.

Lemma join_prefix_length (a b : list string) :
  (String.length (Py.join " " a)
   ≤ String.length (Py.join " " (a ++ b)))%nat.
Proof.
  destruct a as [|x a]; [cbn; lia|].
  destruct b as [|y b]; [by rewrite app_nil_r|].
  rewrite join_app by done. rewrite slength_app. lia.
Qed.

(** X2.  A text whose words, joined by single spaces, are shorter than
    [chunk_size] is sent as one chunk. *)
Theorem chunk_text_single (text : string) (chunk_size : Z) :
  Py.split text ≠ [] →
  Z.of_nat (String.length (Py.join " " (Py.split text))) < chunk_size →
  _chunk_text text chunk_size = [Py.join " " (Py.split text)].
Proof.
  intros Hwords Hshort.
  destruct (chunk_text_groups text chunk_size)
    as (groups & -> & Hne & Hcat & Hmin).
  rewrite <- Hcat in *.
  destruct groups as [|g [|g' groups]].
  - done.
  - cbn. by rewrite app_nil_r.
  - exfalso. specialize (Hmin 0%nat g eq_refl). cbn in Hmin.
    specialize (Hmin ltac:(lia)).
    pose proof (join_prefix_length g (concat (g' :: groups))) as Hle.
    cbn [concat] in Hshort, Hle. lia.
Qed.

Lemma chunk_text_single_witness :
  _chunk_text "How can I assist you today?" 50
  = [Py.join " " (Py.split "How can I assist you today?")].
Proof. apply chunk_text_single; [done|by vm_compute]. Defined.

Lemma chunk_fold_words (n : Z) (words : list string) :
  n ≤ 1 →
  Forall (λ w, is_word w = true) words →
  ∀ chunks : list string,
    foldl (chunk_step n) (chunks, []) words = (chunks ++ words, []).
Proof.
  intros Hn. induction 1 as [|w words Hw _ IH]; intros chunks.
  - by rewrite app_nil_r.
  - cbn [foldl chunk_step app Py.join].
    apply is_word_spec in Hw as [Hw _].
    assert ((n <=? Z.of_nat (String.length w)) = true) as ->.
    { apply Z.leb_le. destruct w; [done|]. cbn [String.length]. lia. }
    rewrite IH. by rewrite <- app_assoc.
Qed.

(** X3.  With a [chunk_size] of at most 1 every word is a chunk of its
    own. *)
Theorem chunk_text_size_one (text : string) (chunk_size : Z) :
  chunk_size ≤ 1 → _chunk_text text chunk_size = Py.split text.
Proof.
  intros Hn. unfold _chunk_text.
  by rewrite (chunk_fold_words chunk_size _ Hn (split_words text) []).
Qed.

Lemma chunk_text_size_one_witness :
  _chunk_text "a  bc d" 0 = Py.split "a  bc d".
Proof. apply chunk_text_size_one. lia. Defined.

Lemma chunk_fold_minimal (n : Z) (words : list string) :
  ∀ chunks cur : list string,
    (cur ≠ [] → Z.of_nat (String.length (Py.join " " cur)) < n) →
    ∃ (groups : list (list string)) (cur' : list string),
      foldl (chunk_step n) (chunks, cur) words
      = (chunks ++ (Py.join " " <$> groups), cur')
      ∧ Forall (λ g, closed_by_last n g
                     ∧ n ≤ Z.of_nat (String.length (Py.join " " g))) groups
      ∧ cur ++ words = concat groups ++ cur'
      ∧ (cur' ≠ [] → Z.of_nat (String.length (Py.join " " cur')) < n).
Proof.
  induction words as [|w words IH]; intros chunks cur Hcur.
  - exists [], cur. cbn. by rewrite !app_nil_r.
  - cbn [foldl chunk_step].
    destruct (n <=? Z.of_nat (String.length (Py.join " " (cur ++ [w]))))
      eqn:E.
    + destruct (IH (chunks ++ [Py.join " " (cur ++ [w])]) [])
        as (groups & cur' & Hfold & Hgroups & Hcat & Hcur'); [done|].
      exists ((cur ++ [w]) :: groups), cur'. split_and!.
      * rewrite Hfold, <- app_assoc. done.
      * constructor; [|done]. split; [by exists cur, w|].
        by apply Z.leb_le.
      * cbn [concat]. rewrite <- !app_assoc. cbn. by rewrite <- Hcat.
      * done.
    + apply Z.leb_gt in E.
      destruct (IH chunks (cur ++ [w]))
        as (groups & cur' & Hfold & Hgroups & Hcat & Hcur'); [done|].
      exists groups, cur'. split_and!; try done.
      rewrite <- Hcat, <- app_assoc. done.
Qed.

(** X4.  A chunk is closed by the first word that brings it to
    [chunk_size]: the chunks are the words of the text cut into consecutive
    groups, every group but the last is at least [chunk_size] long, and
    every group without its last word is shorter than [chunk_size]. *)
Theorem chunk_text_minimal (text : string) (chunk_size : Z) :
  ∃ groups : list (list string),
    _chunk_text text chunk_size = Py.join " " <$> groups
    ∧ concat groups = Py.split text
    ∧ Forall (closed_by_last chunk_size) groups
    ∧ ∀ (i : nat) (g : list string),
        groups !! i = Some g →
        (i + 1 < length groups)%nat →
        chunk_size ≤ Z.of_nat (String.length (Py.join " " g)).
Proof.
  unfold _chunk_text.
  destruct (chunk_fold_minimal chunk_size (Py.split text) [] [])
    as (groups & cur & -> & Hgroups & Hcat & Hcur); [done|].
  cbn [app] in *. destruct cur as [|w cur].
  - exists groups. rewrite app_nil_r in Hcat. split_and!; [done|done| |].
    + eapply Forall_impl; [exact Hgroups|]. by intros g [Hg _].
    + intros i g Hg _.
      by destruct (Forall_lookup_1 _ _ _ _ Hgroups Hg).
  - exists (groups ++ [w :: cur]). split_and!.
    + by rewrite fmap_app.
    + rewrite concat_app. cbn. by rewrite app_nil_r.
    + apply Forall_app. split.
      { eapply Forall_impl; [exact Hgroups|]. by intros g [Hg _]. }
      apply Forall_singleton.
      destruct (exists_last (l := w :: cur)) as (p & x & Hp); [done|].
      exists p, x. split; [done|]. intros _.
      pose proof (join_prefix_length p [x]) as Hle.
      rewrite <- Hp in Hle. specialize (Hcur ltac:(done)). lia.
    + intros i g Hg Hi. rewrite length_app in Hi. cbn [length] in Hi.
      rewrite lookup_app_l in Hg by lia.
      by destruct (Forall_lookup_1 _ _ _ _ Hgroups Hg).
Qed.

(** X5.  Chunking neither loses nor reorders a word: the words of the
    chunks, in order, are the words of the text, and chunking the chunks
    joined by single spaces gives the same chunks again. *)
Theorem chunk_text_keeps_words (text : string) (chunk_size : Z) :
  concat (Py.split <$> _chunk_text text chunk_size) = Py.split text
  ∧ _chunk_text (Py.join " " (_chunk_text text chunk_size)) chunk_size
    = _chunk_text text chunk_size.
Proof.
  split.
  - destruct (chunk_text_groups text chunk_size)
      as (groups & -> & Hne & Hcat & _).
    rewrite <- Hcat. pose proof (split_words text) as Hw.
    rewrite <- Hcat in Hw. clear Hcat Hne.
    induction groups as [|g groups IH]; [done|].
    cbn [concat fmap list_fmap] in *. apply Forall_app in Hw as [Hg Hw].
    by rewrite (IH Hw), (split_join g Hg).
  - unfold _chunk_text at 1 3. fold (_chunk_text text chunk_size).
    by rewrite chunk_text_rejoin, split_join_split.
Qed.
(** ** The replies, and what [tasks/sendSubscribe] leaves *)

Lemma chunk_text_starts (c : ascii) (rest : string) (n : Z) :
  Py.isspace c = false → _chunk_text (String c rest) n ≠ [].
Proof.
  intros Hc H. apply chunk_text_nil, split_nil in H.
  cbn [all_space] in H. by rewrite Hc in H.
Qed.

Lemma agency_response_starts (self : A2AServer) (mt : string)
    (fp dp : list json) (text : string) :
  _generate_agency_response self mt fp dp = Ok text →
  ∃ rest, text = "I" +:+ rest ∨ text = "H" +:+ rest ∨ text = "T" +:+ rest.
Proof.
  unfold _generate_agency_response. intros H.
  repeat match type of H with
         | (if ?b then _ else _) = Ok _ => destruct b
         | match ?l with [] => _ | _ :: _ => _ end = Ok _ => destruct l
         | _ => progress bind_inv H
         end;
    injection H as <-; eexists; eauto.
Qed.

Lemma agency_response_chunks (self : A2AServer) (mt : string)
    (fp dp : list json) (text : string) :
  _generate_agency_response self mt fp dp = Ok text →
  _chunk_text text 50 ≠ [].
Proof.
  intros (rest & [->| [->| ->]])%agency_response_starts;
    by apply chunk_text_starts.
Qed.

(** X6.  [tasks/sendSubscribe] returns no response.  For a well-formed
    request, to an agent or to the agency, the handler makes a task in
    state [working] whose only message is the message of the request,
    stores it under the task id of the request, and raises
    [AttributeError] when it makes its response of the generator: no
    event is sent, and [tasks/get] then returns the stored task, still
    [working]. *)
Theorem subscribe_stores_and_raises (self : A2AServer) (uuid : string)
    (rid params agent : json) :
  uuid ≠ "" →
  valid_params params = true →
  ∃ (tid message : json) (self1 : A2AServer),
    read_task_id uuid params = Ok tid
    ∧ Py.get_default params "message" (JObj []) = Ok message
    ∧ _handle_tasks_send_subscribe self uuid rid params agent
      = (self1, Raise AttributeError)
    ∧ _handle_agency_tasks_send_subscribe self uuid rid params
      = (self1, Raise AttributeError)
    ∧ created self self1 tid (new_task tid "working" [message])
    ∧ subscription self uuid rid params agent = None
    ∧ ∀ rid' : json,
        _handle_tasks_get self1 rid' (JObj [("task_id", tid)])
        = Ok (JSONResponse (success (new_task tid "working" [message]) rid')
                OK200, self1).
Proof.
  intros Huuid Hparams.
  destruct (send_subscribe_total self uuid rid params agent Hparams)
    as (tid & message & mt & fp & dp & Htid & Hh & Hmsg & _ & _ & Hsub
        & Hagency).
  pose proof (read_task_id_truthy _ _ _ Huuid Htid) as Htruthy.
  eexists tid, message, _.
  split_and!; [done|done|exact Hsub|exact Hagency|done| |].
  - apply no_subscription.
  - intros rid'.
    apply (get_known _ rid' _ tid _ (length (objects self))); try done.
    + cbn. by apply tasks_find_store_eq.
    + cbn. by rewrite list_lookup_middle.
Qed.

Lemma subscribe_stores_and_raises_witness :
  ∃ (tid message : json) (self1 : A2AServer),
    read_task_id "u-1" hello_params = Ok tid
    ∧ Py.get_default hello_params "message" (JObj []) = Ok message
    ∧ _handle_tasks_send_subscribe demo_server "u-1" (JStr "1") hello_params
        (JObj demo_agent)
      = (self1, Raise AttributeError)
    ∧ _handle_agency_tasks_send_subscribe demo_server "u-1" (JStr "1")
        hello_params
      = (self1, Raise AttributeError)
    ∧ created demo_server self1 tid (new_task tid "working" [message])
    ∧ subscription demo_server "u-1" (JStr "1") hello_params
        (JObj demo_agent) = None
    ∧ ∀ rid' : json,
        _handle_tasks_get self1 rid' (JObj [("task_id", tid)])
        = Ok (JSONResponse (success (new_task tid "working" [message]) rid')
                OK200, self1).
Proof.
  apply (subscribe_stores_and_raises demo_server "u-1" (JStr "1")
           hello_params (JObj demo_agent)); [done|reflexivity].
Defined.
(** ** The task store *)

Lemma key_eqb_true_l (a b c : json) :
  Py.key_eqb a b = true → Py.key_eqb a c = Py.key_eqb b c.
Proof.
  destruct a as [|[]| | | |], b as [|[]| | | |];
    cbn [Py.key_eqb Py.as_int]; try done;
    destruct c as [|[]| | | |]; cbn [Py.key_eqb Py.as_int]; try done;
    intros H; first [apply Z.eqb_eq in H|apply String.eqb_eq in H];
    first [by subst|by rewrite <- H|lia].
Qed.

Lemma tasks_find_store_ne (k k' : json) (r : nat) (d : list (json * nat)) :
  Py.key_eqb k k' = false →
  tasks_find k' (tasks_store k r d) = tasks_find k' d.
Proof.
  intros Hne. induction d as [|[k1 r1] d IH]; cbn.
  - by rewrite Hne.
  - destruct (Py.key_eqb k1 k) eqn:E; cbn.
    + by rewrite (key_eqb_true_l _ _ k' E), Hne.
    + by rewrite IH.
Qed.

Lemma tasks_find_store_is_Some (k k' : json) (r : nat)
    (d : list (json * nat)) :
  is_Some (tasks_find k' d) → is_Some (tasks_find k' (tasks_store k r d)).
Proof.
  induction d as [|[k1 r1] d IH]; cbn; [by intros [? ?]|].
  destruct (Py.key_eqb k1 k) eqn:E; cbn;
    destruct (Py.key_eqb k1 k'); eauto.
Qed.

Lemma tasks_store_grows (k : json) (r : nat) (d : list (json * nat)) :
  (length d ≤ length (tasks_store k r d))%nat.
Proof.
  induction d as [|[k1 r1] d IH]; cbn; [lia|].
  destruct (Py.key_eqb k1 k); cbn; lia.
Qed.

(** What [tasks/get] answers depends on the store only through the entry
    of the task id and the dict it refers to. *)
Lemma get_frame (self self' : A2AServer) (rid params tid : json)
    (resp : Response) :
  Py.get params "task_id" = Ok tid →
  tasks_find tid (tasks self') = tasks_find tid (tasks self) →
  (∀ r, tasks_find tid (tasks self) = Some r →
        objects self' !! r = objects self !! r) →
  _handle_tasks_get self rid params = Ok (resp, self) →
  _handle_tasks_get self' rid params = Ok (resp, self').
Proof.
  intros Hp Hfind Hobj. unfold _handle_tasks_get. rewrite Hp.
  cbn [mbind result_bind]. unfold task_unknown, tasks_contains, tasks_get.
  rewrite Hfind.
  destruct (Py.truthy tid); cbn [negb mbind result_bind mret result_ret].
  2: { by intros [= <-]. }
  destruct (Py.hashable tid); cbn [mbind result_bind mret result_ret];
    [|done].
  destruct (tasks_find tid (tasks self)) as [r|] eqn:E.
  - rewrite bool_decide_eq_true_2 by done.
    cbn [negb mbind result_bind mret result_ret]. unfold deref.
    rewrite (Hobj r eq_refl).
    destruct (objects self !! r); cbn [mbind result_bind mret result_ret];
      [|done].
    by intros [= <-].
  - rewrite bool_decide_eq_false_2 by (by intros [? ?]).
    cbn [negb mbind result_bind mret result_ret]. by intros [= <-].
Qed.

Lemma send_creates (self self' : A2AServer) (uuid : string)
    (rid params agent : json) (resp : Response) :
  _handle_tasks_send self uuid rid params agent = Ok (resp, self') →
  ∃ (tid message : json) (text : string),
    read_task_id uuid params = Ok tid
    ∧ created self self' tid
        (new_task tid "completed" [message; agent_message text])
    ∧ resp = JSONResponse
               (success
                  (new_task tid "completed" [message; agent_message text])
                  rid) OK200.
Proof.
  unfold _handle_tasks_send, new_object. intros H. bind_inv H.
  match goal with Hs : tasks_set _ _ _ = Ok _ |- _ =>
    apply tasks_set_ok in Hs as [Hh ->] end.
  injection H as <- <-. by eexists _, _, _.
Qed.

Lemma agency_send_creates (self self' : A2AServer) (uuid : string)
    (rid params : json) (resp : Response) :
  _handle_agency_tasks_send self uuid rid params = Ok (resp, self') →
  ∃ (tid message : json) (text : string),
    read_task_id uuid params = Ok tid
    ∧ created self self' tid
        (new_task tid "completed" [message; agent_message text])
    ∧ resp = JSONResponse
               (success
                  (new_task tid "completed" [message; agent_message text])
                  rid) OK200.
Proof.
  unfold _handle_agency_tasks_send, new_object. intros H. bind_inv H.
  match goal with Hs : tasks_set _ _ _ = Ok _ |- _ =>
    apply tasks_set_ok in Hs as [Hh ->] end.
  injection H as <- <-. by eexists _, _, _.
Qed.

Lemma send_subscribe_creates (self self' : A2AServer) (uuid : string)
    (rid params agent : json) (answer : result Response) :
  _handle_tasks_send_subscribe self uuid rid params agent = (self', answer) →
  self' = self
  ∨ ∃ tid message : json,
      read_task_id uuid params = Ok tid
      ∧ Py.get_default params "message" (JObj []) = Ok message
      ∧ created self self' tid (new_task tid "working" [message])
      ∧ answer = Raise AttributeError.
Proof.
  intros [[-> _]|(tid & message & ? & ? & ? & ? & ? & ? & ? & -> & ->)]
    %send_subscribe_outcome; [by left|right].
  by exists tid, message.
Qed.

Lemma agency_send_subscribe_creates (self self' : A2AServer) (uuid : string)
    (rid params : json) (answer : result Response) :
  _handle_agency_tasks_send_subscribe self uuid rid params
  = (self', answer) →
  self' = self
  ∨ ∃ tid message : json,
      read_task_id uuid params = Ok tid
      ∧ Py.get_default params "message" (JObj []) = Ok message
      ∧ created self self' tid (new_task tid "working" [message])
      ∧ answer = Raise AttributeError.
Proof.
  intros [[-> _]|(tid & message & ? & ? & ? & ? & ? & ? & ? & -> & ->)]
    %agency_send_subscribe_outcome; [by left|right].
  by exists tid, message.
Qed.

Lemma deref_none (self : A2AServer) (r : nat) :
  objects self !! r = None → deref self r = Raise KeyError.
Proof. unfold deref. by intros ->. Qed.

(** What [tasks/cancel] does to the server: nothing, or it replaces one
    task dict. *)
Lemma cancel_shape (self self' : A2AServer) (rid params : json)
    (resp : Response) :
  _handle_tasks_cancel self rid params = Ok (resp, self') →
  self' = self
  ∨ ∃ (tid : json) (r : nat) (items : list (string * json)),
      Py.get params "task_id" = Ok tid
      ∧ Py.truthy tid = true
      ∧ Py.hashable tid = true
      ∧ tasks_find tid (tasks self) = Some r
      ∧ objects self !! r = Some (JObj items)
      ∧ self' = mutate self r (JObj (Py.store "state" (JStr "canceled") items))
      ∧ resp = JSONResponse
                 (success (JObj (Py.store "state" (JStr "canceled") items))
                    rid) OK200.
Proof.
  intros H0. pose proof H0 as H. unfold _handle_tasks_cancel in H.
  destruct (Py.get params "task_id") as [tid|] eqn:Hp; [|done].
  cbn [mbind result_bind] in H.
  destruct (task_unknown self tid) as [[]|] eqn:Hu;
    cbn [mbind result_bind mret result_ret] in H; [| |done].
  { injection H as _ <-. by left. }
  right. unfold task_unknown, tasks_contains in Hu.
  destruct (Py.truthy tid) eqn:Ht; [|done].
  destruct (Py.hashable tid) eqn:Hh; [|done].
  cbn [negb mbind result_bind mret result_ret] in Hu.
  destruct (tasks_find tid (tasks self)) as [r|] eqn:Hf.
  2: { by rewrite bool_decide_eq_false_2 in Hu by (by intros [? ?]). }
  clear Hu.
  destruct (objects self !! r) as [task|] eqn:Hobj.
  2: { rewrite (tasks_get_known _ _ _ Hh Hf) in H.
       cbn [mbind result_bind] in H.
       by rewrite (deref_none _ _ Hobj) in H. }
  destruct task as [| | | | |items].
  6: { rewrite (cancel_known self rid params tid r items Hp Ht Hh Hf Hobj)
         in H0.
       injection H0 as <- <-. by exists tid, r, items. }
  all: rewrite (tasks_get_known _ _ _ Hh Hf) in H;
    cbn [mbind result_bind] in H;
    rewrite (deref_known _ _ _ Hobj) in H; done.
Qed.
(** X7.  The task that [tasks/send] returns is the task that [tasks/get]
    returns afterwards for the id the task carries. *)
Theorem get_after_send (self : A2AServer) (uuid : string)
    (rid params agent rid' : json) :
  uuid ≠ "" →
  valid_params params = true →
  valid_agent agent = true →
  ∃ (tid task : json) (self' : A2AServer),
    _handle_tasks_send self uuid rid params agent
    = Ok (JSONResponse (success task rid) OK200, self')
    ∧ field "id" task = Some tid
    ∧ _handle_tasks_get self' rid' (JObj [("task_id", tid)])
      = Ok (JSONResponse (success task rid') OK200, self').
Proof.
  intros Huuid Hparams Hagent.
  destruct (send_ok self uuid rid params agent Hparams Hagent)
    as (tid & message & mt & fp & dp & text & Htid & Hh & Hmsg & Hparts
        & Htext & Hsend).
  eexists tid, _, _. split_and!; [exact Hsend|done|].
  apply (get_known _ rid' _ tid _ (length (objects self))); try done.
  - by eapply read_task_id_truthy.
  - cbn. by apply tasks_find_store_eq.
  - cbn. by rewrite list_lookup_middle.
Qed.

Lemma get_after_send_witness :
  ∃ (tid task : json) (self' : A2AServer),
    _handle_tasks_send demo_server "u-1" (JStr "1") hello_params
      (JObj demo_agent)
    = Ok (JSONResponse (success task (JStr "1")) OK200, self')
    ∧ field "id" task = Some tid
    ∧ _handle_tasks_get self' (JStr "2") (JObj [("task_id", tid)])
      = Ok (JSONResponse (success task (JStr "2")) OK200, self').
Proof.
  apply (get_after_send demo_server "u-1" (JStr "1") hello_params
           (JObj demo_agent) (JStr "2")); [done|reflexivity|reflexivity].
Defined.

Lemma tasks_find_elem (k : json) (r : nat) (d : list (json * nat)) :
  tasks_find k d = Some r → ∃ k', (k', r) ∈ d.
Proof.
  induction d as [|[k1 r1] d IH]; cbn; [done|].
  destruct (Py.key_eqb k1 k).
  - intros [= ->]. exists k1. by left.
  - intros (k' & Hin)%IH. exists k'. by right.
Qed.

Lemma consistent_ref (self : A2AServer) (k : json) (r : nat) :
  consistent self → tasks_find k (tasks self) = Some r →
  (r < length (objects self))%nat.
Proof.
  intros [_ Hrefs] (k' & Hin)%tasks_find_elem.
  by apply (proj1 (Forall_forall _ _) Hrefs (k', r)).
Qed.

Lemma get_frame_created (self self' : A2AServer) (tid task : json)
    (rid params tid' : json) (resp : Response) :
  consistent self →
  created self self' tid task →
  Py.get params "task_id" = Ok tid' →
  Py.key_eqb tid tid' = false →
  _handle_tasks_get self rid params = Ok (resp, self) →
  _handle_tasks_get self' rid params = Ok (resp, self').
Proof.
  intros Hself [_ ->] Hp Hne. apply (get_frame _ _ _ _ tid'); [done| |].
  - cbn. by apply tasks_find_store_ne.
  - intros r Hr. cbn. apply lookup_app_l. by eapply consistent_ref.
Qed.

(** X8.  Creating or replacing a task leaves the tasks under other ids
    alone: [tasks/get] for another id answers after a [tasks/send] or a
    [tasks/sendSubscribe], whether it has returned or raised, as it did
    before. *)
Theorem send_leaves_other_tasks (self self' : A2AServer) (uuid : string)
    (rid params agent : json) (resp : Response) (answer : result Response)
    (tid rid' params' tid' : json) (resp' : Response) :
  reachable self →
  _handle_tasks_send self uuid rid params agent = Ok (resp, self')
  ∨ _handle_tasks_send_subscribe self uuid rid params agent
    = (self', answer) →
  read_task_id uuid params = Ok tid →
  Py.get params' "task_id" = Ok tid' →
  Py.key_eqb tid tid' = false →
  _handle_tasks_get self rid' params' = Ok (resp', self) →
  _handle_tasks_get self' rid' params' = Ok (resp', self').
Proof.
  intros Hself%reachable_consistent Hsend Htid Hp Hne.
  destruct Hsend as [H|H].
  - apply send_creates in H as (tid0 & message & text & Htid0 & Hc & _).
    rewrite Htid in Htid0. injection Htid0 as <-.
    by eapply get_frame_created.
  - apply send_subscribe_creates in H
      as [->|(tid0 & message & Htid0 & _ & Hc & _)]; [done|].
    rewrite Htid in Htid0. injection Htid0 as <-.
    by eapply get_frame_created.
Qed.

Lemma send_leaves_other_tasks_witness :
  (∃ (resp : Response) (self' : A2AServer),
     _handle_tasks_send demo_server_sent "u-2" (JStr "2") hello_params_2
       (JObj demo_agent) = Ok (resp, self')
     ∧ _handle_tasks_get self' (JStr "3") t1_params
       = Ok (JSONResponse
               (success
                  (new_task (JStr "t1") "completed"
                     [hello;
                      agent_message
                        "I'm Bob, specialized in demo. Helper. How can I assist you today?"])
                  (JStr "3")) OK200, self'))
  ∧ ∃ self' : A2AServer,
      _handle_tasks_send_subscribe demo_server_sent "u-2" (JStr "2")
        hello_params_2 (JObj demo_agent) = (self', Raise AttributeError)
      ∧ _handle_tasks_get self' (JStr "3") t1_params
        = Ok (JSONResponse
                (success
                   (new_task (JStr "t1") "completed"
                      [hello;
                       agent_message
                         "I'm Bob, specialized in demo. Helper. How can I assist you today?"])
                   (JStr "3")) OK200, self').
Proof.
  split.
  - destruct (_handle_tasks_send demo_server_sent "u-2" (JStr "2")
                hello_params_2 (JObj demo_agent)) as [[resp self']|e] eqn:E;
      [|by vm_compute in E].
    exists resp, self'. split; [done|].
    apply (send_leaves_other_tasks demo_server_sent self' "u-2" (JStr "2")
             hello_params_2 (JObj demo_agent) resp (Ok resp) (JStr "t2")
             (JStr "3") t1_params (JStr "t1"));
      [apply demo_server_sent_reachable|by left|reflexivity|reflexivity
      |reflexivity|reflexivity].
  - eexists. split; [reflexivity|].
    apply (send_leaves_other_tasks demo_server_sent _ "u-2" (JStr "2")
             hello_params_2 (JObj demo_agent)
             (JSONResponse JNull 0) (Raise AttributeError) (JStr "t2")
             (JStr "3") t1_params (JStr "t1"));
      [apply demo_server_sent_reachable|by right|reflexivity|reflexivity
      |reflexivity|reflexivity].
Defined.
(** A resumption of a generator changes at most the dict of its own
    task. *)
Lemma stream_loop_frame (self self' : A2AServer) (g g' : stream) (i : nat)
    (chunks : list string) (ev : option json) :
  stream_loop self g i chunks = Ok (ev, self', g') →
  API_KEY self' = API_KEY self
  ∧ registry self' = registry self
  ∧ tasks self' = tasks self
  ∧ length (objects self') = length (objects self)
  ∧ (∀ r, r ≠ s_task g → objects self' !! r = objects self !! r)
  ∧ s_task g' = s_task g.
Proof.
  unfold stream_loop. intros H.
  destruct (chunks !! i); [|by injection H as _ <- <-].
  bind_inv H. injection H as _ <- <-. split_and!; try done.
  - cbn. by rewrite length_insert.
  - intros r Hr. cbn. by rewrite list_lookup_insert_ne.
Qed.

Lemma next_frame (self self' : A2AServer) (g g' : stream)
    (ev : option json) :
  next self g = Ok (ev, self', g') →
  API_KEY self' = API_KEY self
  ∧ registry self' = registry self
  ∧ tasks self' = tasks self
  ∧ length (objects self') = length (objects self)
  ∧ (∀ r, r ≠ s_task g → objects self' !! r = objects self !! r)
  ∧ s_task g' = s_task g.
Proof.
  unfold next. intros H. destruct (s_at g).
  - bind_inv H. by injection H as _ <- <-.
  - bind_inv H. by apply stream_loop_frame in H.
  - by apply stream_loop_frame in H.
  - by injection H as _ <- <-.
Qed.

(** ** What the handlers never do *)

Lemma extends_refl (self : A2AServer) : extends self self.
Proof. by repeat split. Qed.

Lemma extends_trans (a b c : A2AServer) :
  extends a b → extends b c → extends a c.
Proof.
  intros (? & ? & ? & ? & Hab) (? & ? & ? & ? & Hbc).
  split_and!; try congruence; try lia. eauto.
Qed.

Lemma created_extends (self self' : A2AServer) (tid task : json) :
  created self self' tid task → extends self self'.
Proof.
  intros [_ ->]. split_and!; try done; cbn.
  - rewrite length_app. lia.
  - apply tasks_store_grows.
  - intros k. apply tasks_find_store_is_Some.
Qed.

Lemma mutate_extends (self : A2AServer) (r : nat) (task : json) :
  extends self (mutate self r task).
Proof.
  split_and!; try done; cbn. by rewrite length_insert.
Qed.

(** What a POST request does to the server: nothing, or it creates a
    task, or it cancels one. *)
Lemma agent_request_shape (self self' : A2AServer) (uuid : string)
    (request : Request) (answer : result Response) :
  handle_agent_request self uuid request = (self', answer) →
  self' = self
  ∨ (∃ tid task : json, created self self' tid task)
  ∨ ∃ (r : nat) (items : list (string * json)),
      objects self !! r = Some (JObj items)
      ∧ self' = mutate self r
                  (JObj (Py.store "state" (JStr "canceled") items)).
Proof.
  intros H. unfold handle_agent_request in H.
  outcomes H; try by left.
  - apply send_creates in H as (? & ? & ? & _ & Hc & _). right. left. eauto.
  - apply send_subscribe_creates in H as [->|(? & ? & _ & _ & Hc & _)];
      [by left|right; left; eauto].
  - apply consistent_get in H as ->. by left.
  - apply cancel_shape in H
      as [->|(tid & r & items & _ & _ & _ & _ & Hobj & -> & _)];
      [by left|right; right; eauto].
  - apply consistent_list in H as ->. by left.
  - apply consistent_agent_info in H as ->. by left.
Qed.

Lemma agency_request_shape (self self' : A2AServer) (uuid : string)
    (request : Request) (answer : result Response) :
  handle_agency_request self uuid request = (self', answer) →
  self' = self
  ∨ (∃ tid task : json, created self self' tid task)
  ∨ ∃ (r : nat) (items : list (string * json)),
      objects self !! r = Some (JObj items)
      ∧ self' = mutate self r
                  (JObj (Py.store "state" (JStr "canceled") items)).
Proof.
  intros H. unfold handle_agency_request in H.
  outcomes H; try by left.
  - apply agency_send_creates in H as (? & ? & ? & _ & Hc & _).
    right. left. eauto.
  - apply agency_send_subscribe_creates in H
      as [->|(? & ? & _ & _ & Hc & _)]; [by left|right; left; eauto].
  - apply consistent_get in H as ->. by left.
  - apply cancel_shape in H
      as [->|(tid & r & items & _ & _ & _ & _ & Hobj & -> & _)];
      [by left|right; right; eauto].
  - apply consistent_list in H as ->. by left.
  - unfold _handle_agency_info in H. injection H as _ <-. by left.
Qed.

Lemma agent_request_extends (self self' : A2AServer) (uuid : string)
    (request : Request) (answer : result Response) :
  handle_agent_request self uuid request = (self', answer) →
  extends self self'.
Proof.
  intros [->|[(tid & task & Hc)|(r & items & _ & ->)]]%agent_request_shape.
  - apply extends_refl.
  - by eapply created_extends.
  - apply mutate_extends.
Qed.

Lemma agency_request_extends (self self' : A2AServer) (uuid : string)
    (request : Request) (answer : result Response) :
  handle_agency_request self uuid request = (self', answer) →
  extends self self'.
Proof.
  intros [->|[(tid & task & Hc)|(r & items & _ & ->)]]%agency_request_shape.
  - apply extends_refl.
  - by eapply created_extends.
  - apply mutate_extends.
Qed.

(** X10.  No request and no stream ever removes a task or touches the
    registry: after any sequence of POST requests and stream resumptions
    the API key and the registry are the same, no task dict and no store
    entry has gone, and every task id that was known is still known. *)
Theorem tasks_are_never_removed (self self' : A2AServer) :
  rtc step self self' → extends self self'.
Proof.
  induction 1 as [|self0 self1 self2 Hstep _ IH]; [apply extends_refl|].
  apply (extends_trans _ self1); [|done]. destruct Hstep.
  - by eapply agent_request_extends.
  - by eapply agency_request_extends.
  - match goal with Hn : next _ _ = Ok _ |- _ =>
      apply next_frame in Hn as (? & ? & Ht & Hl & _ & _) end.
    split_and!; try done; try lia.
    + by rewrite Ht.
    + intros k. by rewrite Ht.
Qed.

Lemma tasks_are_never_removed_witness : extends demo_server demo_server_sent.
Proof.
  apply tasks_are_never_removed.
  eapply rtc_l; [|apply rtc_refl].
  eapply (step_agent_request demo_server "u-1"
            (post (rpc "tasks/send" hello_params (JStr "1")))).
  vm_compute. reflexivity.
Defined.
(** ** [tasks/cancel] and [tasks/list] *)

Lemma store_store {V : Type} (k : string) (v v' : V)
    (items : list (string * V)) :
  Py.store k v (Py.store k v' items) = Py.store k v items.
Proof.
  induction items as [|[k1 v1] items IH]; cbn.
  - by rewrite String.eqb_refl.
  - destruct (String.eqb k1 k) eqn:E; cbn; rewrite E; [done|by rewrite IH].
Qed.

Lemma mutate_mutate (self : A2AServer) (r : nat) (task task' : json) :
  mutate (mutate self r task) r task' = mutate self r task'.
Proof.
  unfold mutate, set_objects. cbn. f_equal. apply list_insert_insert_eq.
Qed.

(** X11.  [tasks/cancel] is idempotent: a second cancel with the same
    params gives the answer of the first and leaves the server as the first
    left it. *)
Theorem cancel_twice (self self' : A2AServer) (rid params : json)
    (resp : Response) :
  _handle_tasks_cancel self rid params = Ok (resp, self') →
  _handle_tasks_cancel self' rid params = Ok (resp, self').
Proof.
  intros H. pose proof H as Hshape. apply cancel_shape in Hshape
    as [->|(tid & r & items & Hp & Ht & Hh & Hf & Hobj & -> & ->)]; [done|].
  rewrite (cancel_known _ rid params tid r
             (Py.store "state" (JStr "canceled") items) Hp Ht Hh).
  - by rewrite store_store, mutate_mutate.
  - by rewrite tasks_mutate.
  - by apply objects_mutate with (task := JObj items).
Qed.

Lemma cancel_twice_witness :
  ∃ (resp : Response) (self' : A2AServer),
    _handle_tasks_cancel demo_server_sent (JStr "2")
      (JObj [("task_id", JStr "t1")]) = Ok (resp, self')
    ∧ _handle_tasks_cancel self' (JStr "2") (JObj [("task_id", JStr "t1")])
      = Ok (resp, self').
Proof.
  destruct (_handle_tasks_cancel demo_server_sent (JStr "2")
              (JObj [("task_id", JStr "t1")])) as [[resp self']|e] eqn:E;
    [|by vm_compute in E].
  exists resp, self'. split; [done|].
  by apply (cancel_twice demo_server_sent).
Defined.

(** X12.  [tasks/cancel] changes nothing but the state of the task it
    cancels: the store's entries stay, and every task dict keeps all its
    fields other than [state], its messages among them. *)
Theorem cancel_changes_state_only (self self' : A2AServer)
    (rid params : json) (resp : Response) :
  _handle_tasks_cancel self rid params = Ok (resp, self') →
  tasks self' = tasks self
  ∧ length (objects self') = length (objects self)
  ∧ ∀ (r : nat) (task : json),
      objects self !! r = Some task →
      ∃ task' : json,
        objects self' !! r = Some task'
        ∧ ∀ k : string, k ≠ "state" → field k task' = field k task.
Proof.
  intros [->|(tid & r0 & items & _ & _ & _ & _ & Hobj & -> & _)]%cancel_shape.
  { split_and!; [done|done|]. intros r task Hr. by exists task. }
  split_and!; [done|by cbn; rewrite length_insert|].
  intros r task Hr. cbn [objects mutate set_objects].
  destruct (decide (r = r0)) as [->|Hne].
  - rewrite Hobj in Hr. injection Hr as <-. eexists. split.
    + apply list_lookup_insert_eq. by eapply lookup_lt_Some.
    + intros k Hk. cbn. by apply lookup_store_ne.
  - exists task. by rewrite list_lookup_insert_ne.
Qed.

Lemma cancel_changes_state_only_witness :
  ∃ (resp : Response) (self' : A2AServer),
    _handle_tasks_cancel demo_server_sent (JStr "2")
      (JObj [("task_id", JStr "t1")]) = Ok (resp, self')
    ∧ tasks self' = tasks demo_server_sent
    ∧ length (objects self') = length (objects demo_server_sent)
    ∧ ∀ (r : nat) (task : json),
        objects demo_server_sent !! r = Some task →
        ∃ task' : json,
          objects self' !! r = Some task'
          ∧ ∀ k : string, k ≠ "state" → field k task' = field k task.
Proof.
  destruct (_handle_tasks_cancel demo_server_sent (JStr "2")
              (JObj [("task_id", JStr "t1")])) as [[resp self']|e] eqn:E;
    [|by vm_compute in E].
  exists resp, self'. split; [done|].
  by apply (cancel_changes_state_only demo_server_sent self' (JStr "2")
              (JObj [("task_id", JStr "t1")]) resp).
Defined.

Lemma summaries_describe (self : A2AServer) (d : list (json * nat)) :
  Forall task_like (objects self) →
  Forall (λ entry, (entry.2 < length (objects self))%nat) d →
  ∃ summaries,
    comprehension (task_summary self) d = Ok summaries
    ∧ Forall2 (summarizes self) d summaries.
Proof.
  intros Hobjs Hd. induction Hd as [|[k r] d Hr Hd IH].
  - by exists [].
  - destruct IH as (summaries & Hsum & Hall).
    cbn in Hr. destruct (lookup_lt_is_Some_2 _ _ Hr) as [task Htask].
    destruct (Forall_lookup_1 _ _ _ _ Hobjs Htask)
      as (items & st & msgs & -> & Hst & Hmsgs & Hc & Hu).
    cbn [comprehension].
    rewrite (task_summary_known self k r items st msgs) by done.
    cbn [mbind result_bind]. rewrite Hsum.
    cbn [mbind result_bind mret result_ret].
    eexists. split; [done|]. constructor; [|done].
    exists (JObj items), st, msgs. split_and!; try done.
    unfold task_messages. cbn. by rewrite Hmsgs.
Qed.

(** X13.  In every state the server reaches, [tasks/list] answers with one
    summary per entry of the store, in the order in which the task ids
    were first stored; the summary gives the key of the entry, the state of
    its task and the number of its messages, and the server stays as it
    is. *)
Theorem tasks_list_summaries (self : A2AServer) (rid params : json) :
  reachable self →
  ∃ summaries : list json,
    _handle_tasks_list self rid params
    = Ok (JSONResponse (success (JObj [("tasks", JArr summaries)]) rid)
            OK200, self)
    ∧ Forall2 (summarizes self) (tasks self) summaries.
Proof.
  intros [Hobjs Hrefs]%reachable_consistent.
  destruct (summaries_describe self (tasks self) Hobjs Hrefs)
    as (summaries & Hsum & Hall).
  exists summaries. split; [|done].
  unfold _handle_tasks_list. by rewrite Hsum.
Qed.

Lemma tasks_list_summaries_witness :
  ∃ summaries : list json,
    _handle_tasks_list demo_server_sent (JStr "2") (JObj [])
    = Ok (JSONResponse
            (success (JObj [("tasks", JArr summaries)]) (JStr "2"))
            OK200, demo_server_sent)
    ∧ Forall2 (summarizes demo_server_sent) (tasks demo_server_sent)
        summaries.
Proof.
  apply tasks_list_summaries, demo_server_sent_reachable.
Defined.
(** ** What a sequence of requests does to a task *)

Lemma same_or_canceled_trans (a b c : json) :
  same_or_canceled a b → same_or_canceled b c → same_or_canceled a c.
Proof.
  intros [->|Hab] Hbc; [done|]. right.
  destruct a as [| | | | |items]; try done. injection Hab as <-.
  destruct Hbc as [->|Hbc]; [done|].
  injection Hbc as <-. by rewrite store_store.
Qed.

Lemma same_or_canceled_fields (task task' : json) :
  same_or_canceled task task' →
  (∀ k : string, k ≠ "state" → field k task' = field k task)
  ∧ (field "state" task' = field "state" task
     ∨ field "state" task' = Some (JStr "canceled")).
Proof.
  intros [->|H]; [by split; [|left]|].
  destruct task as [| | | | |items]; try done. injection H as <-. split.
  - intros k Hk. by apply lookup_store_ne.
  - right. apply lookup_store_eq.
Qed.

Lemma handled_same_or_canceled (self self' : A2AServer) (r : nat)
    (task : json) :
  handled self self' →
  objects self !! r = Some task →
  ∃ task', objects self' !! r = Some task' ∧ same_or_canceled task task'.
Proof.
  intros Hstep Hr.
  assert (Hshape : self' = self
            ∨ (∃ tid task0 : json, created self self' tid task0)
            ∨ ∃ (r0 : nat) (items : list (string * json)),
                objects self !! r0 = Some (JObj items)
                ∧ self' = mutate self r0
                            (JObj (Py.store "state" (JStr "canceled") items))).
  { destruct Hstep; [by eapply agent_request_shape
                    |by eapply agency_request_shape]. }
  destruct Hshape as [->|[(tid & task0 & _ & ->)|(r0 & items & Hr0 & ->)]].
  - exists task. by split; [|left].
  - exists task. split; [|by left]. cbn.
    rewrite lookup_app_l; [done|]. by eapply lookup_lt_Some.
  - destruct (decide (r = r0)) as [->|Hne].
    + rewrite Hr0 in Hr. injection Hr as <-. eexists. split.
      * by eapply objects_mutate.
      * by right.
    + exists task. split; [|by left]. cbn.
      by rewrite list_lookup_insert_ne.
Qed.

(** X9.  The requests change a task dict only by cancelling it.  After
    any sequence of POST requests, whether their handlers returned or
    raised, every task dict that existed is still there, and it is as it
    was, or as it was with the state [canceled]: its id, its messages and
    its artifacts are the same, and its state is the same or [canceled].
    So no request completes the task that [tasks/sendSubscribe] stored in
    state [working]. *)
Theorem requests_only_cancel (self self' : A2AServer) (r : nat)
    (task : json) :
  rtc handled self self' →
  objects self !! r = Some task →
  ∃ task' : json,
    objects self' !! r = Some task'
    ∧ same_or_canceled task task'
    ∧ (∀ k : string, k ≠ "state" → field k task' = field k task)
    ∧ (field "state" task' = field "state" task
       ∨ field "state" task' = Some (JStr "canceled")).
Proof.
  intros Hsteps Hr.
  assert (H : ∃ task', objects self' !! r = Some task'
                       ∧ same_or_canceled task task').
  { revert task Hr.
    induction Hsteps as [self|self0 self1 self2 Hstep _ IH]; intros task Hr.
    - exists task. by split; [|left].
    - destruct (handled_same_or_canceled _ _ _ _ Hstep Hr)
        as (task1 & Hr1 & H1).
      destruct (IH task1 Hr1) as (task2 & Hr2 & H2).
      exists task2. split; [done|]. by eapply same_or_canceled_trans. }
  destruct H as (task' & Hr' & Hsame). exists task'.
  destruct (same_or_canceled_fields _ _ Hsame). by split_and!.
Qed.

Lemma requests_only_cancel_witness :
  ∃ task' : json,
    objects demo_canceled !! 0%nat = Some task'
    ∧ same_or_canceled (new_task (JStr "t1") "working" [hello]) task'
    ∧ (∀ k : string,
         k ≠ "state" →
         field k task' = field k (new_task (JStr "t1") "working" [hello]))
    ∧ (field "state" task'
       = field "state" (new_task (JStr "t1") "working" [hello])
       ∨ field "state" task' = Some (JStr "canceled")).
Proof.
  apply (requests_only_cancel demo_subscribed demo_canceled 0
           (new_task (JStr "t1") "working" [hello])); [|reflexivity].
  eapply rtc_l; [|apply rtc_refl].
  apply (handled_agent demo_subscribed "u-2"
           (post (rpc "tasks/cancel" t1_params (JStr "2")))
           demo_canceled
           (Ok (JSONResponse
                  (success (new_task (JStr "t1") "canceled" [hello])
                     (JStr "2")) OK200))).
  reflexivity.
Defined.
(** ** The answers of the POST handlers *)

Lemma jsonrpc_success (result rid : json) :
  jsonrpc_answer rid (success result rid) OK200.
Proof. split_and!; [done|done|]. left. by split_and!. Qed.

Lemma jsonrpc_failure (code : Z) (message : string) (rid : json)
    (status : Z) :
  status = 400 ∨ status = 404 →
  jsonrpc_answer rid (failure code message rid) status.
Proof. intros Hs. split_and!; [done|done|]. right. by split_and!. Qed.

Lemma get_answer (self self' : A2AServer) (rid params : json)
    (resp : Response) :
  _handle_tasks_get self rid params = Ok (resp, self') →
  (∃ tid, resp = task_not_found tid rid)
  ∨ ∃ task, resp = JSONResponse (success task rid) OK200.
Proof.
  unfold _handle_tasks_get. intros H. bind_inv H.
  match goal with b : bool |- _ => destruct b end.
  - injection H as <- _. left. by eexists.
  - bind_inv H. injection H as <- _. right. by eexists.
Qed.

Lemma cancel_answer (self self' : A2AServer) (rid params : json)
    (resp : Response) :
  _handle_tasks_cancel self rid params = Ok (resp, self') →
  (∃ tid, resp = task_not_found tid rid)
  ∨ ∃ task, resp = JSONResponse (success task rid) OK200.
Proof.
  unfold _handle_tasks_cancel. intros H. bind_inv H.
  match goal with b : bool |- _ => destruct b end.
  - injection H as <- _. left. by eexists.
  - bind_inv H. injection H as <- _. right. by eexists.
Qed.

Lemma list_answer (self self' : A2AServer) (rid params : json)
    (resp : Response) :
  _handle_tasks_list self rid params = Ok (resp, self') →
  ∃ result, resp = JSONResponse (success result rid) OK200.
Proof.
  unfold _handle_tasks_list. intros H. bind_inv H.
  injection H as <- _. by eexists.
Qed.

Lemma agent_info_answer (self self' : A2AServer) (rid agent : json)
    (resp : Response) :
  _handle_agent_info self rid agent = Ok (resp, self') →
  ∃ result, resp = JSONResponse (success result rid) OK200.
Proof.
  unfold _handle_agent_info. intros H. bind_inv H.
  injection H as <- _. by eexists.
Qed.

Lemma not_found_answer (tid rid content : json) (status : Z) :
  JSONResponse content status = task_not_found tid rid →
  jsonrpc_answer rid content status.
Proof.
  unfold task_not_found. intros [= -> ->]. apply jsonrpc_failure. by right.
Qed.

Lemma success_answer (result rid content : json) (status : Z) :
  JSONResponse content status = JSONResponse (success result rid) OK200 →
  jsonrpc_answer rid content status.
Proof. intros [= -> ->]. apply jsonrpc_success. Qed.

Lemma method_answer (rid content : json) (status : Z) (resp : Response) :
  resp = JSONResponse content status →
  (∃ tid, resp = task_not_found tid rid)
  ∨ (∃ task, resp = JSONResponse (success task rid) OK200) →
  jsonrpc_answer rid content status.
Proof.
  intros -> [[tid H]|[task H]].
  - by eapply not_found_answer.
  - by eapply success_answer.
Qed.

Ltac branches H :=
  repeat match type of H with
         | (if ?b then _ else _) = _ => destruct b eqn:?
         | match ?o with Some _ => _ | None => _ end = _ => destruct o
         | awaited _ _ = (_, Ok _) =>
             apply awaited_inv in H as [(? & H & [= <-])|(? & _ & _ & [=])]
         end.

(** X14.  Once a request has passed the API-key check (and the agent
    lookup) and its body is a JSON object, every JSON answer of the two POST
    handlers is a JSON-RPC 2.0 response: it echoes the [id] of the request
    ([null] when there is none) and holds either a [result], with status
    200, or an [error] with an integer code and a message, with status 400
    or 404. *)
Theorem answers_are_jsonrpc (self self' : A2AServer) (uuid : string)
    (request : Request) (rpc : list (string * json)) (content : json)
    (status : Z) :
  verify_api_key self request = true →
  body request = Some (JObj rpc) →
  handle_agency_request self uuid request
  = (self', Ok (JSONResponse content status))
  ∨ (Py.truthy (get_agent self (path_agent_id request)) = true
     ∧ handle_agent_request self uuid request
       = (self', Ok (JSONResponse content status))) →
  jsonrpc_answer (default JNull (Py.lookup "id" rpc)) content status.
Proof.
  intros Hkey Hbody [H|[Hagent H]].
  - unfold handle_agency_request in H. rewrite Hkey, Hbody in H.
    cbn [negb Py.get Py.get_default mbind result_bind mret result_ret] in H.
    set (rid := default JNull (Py.lookup "id" rpc)) in *.
    branches H.
    + injection H as <- <- <-. apply jsonrpc_failure. by left.
    + apply agency_send_creates in H as (? & ? & ? & _ & _ & H).
      by eapply success_answer.
    + by apply agency_send_subscribe_no_answer in H.
    + eapply method_answer; [done|]. by eapply get_answer.
    + eapply method_answer; [done|]. by eapply cancel_answer.
    + apply list_answer in H as [? H]. by eapply success_answer.
    + unfold _handle_agency_info in H. injection H as <- <-.
      apply jsonrpc_success.
    + injection H as <- <- <-. apply jsonrpc_failure. by right.
  - unfold handle_agent_request in H. rewrite Hkey, Hagent, Hbody in H.
    cbn [negb Py.get Py.get_default mbind result_bind mret result_ret] in H.
    set (rid := default JNull (Py.lookup "id" rpc)) in *.
    branches H.
    + injection H as <- <- <-. apply jsonrpc_failure. by left.
    + apply send_creates in H as (? & ? & ? & _ & _ & H).
      by eapply success_answer.
    + by apply send_subscribe_no_answer in H.
    + eapply method_answer; [done|]. by eapply get_answer.
    + eapply method_answer; [done|]. by eapply cancel_answer.
    + apply list_answer in H as [? H]. by eapply success_answer.
    + apply agent_info_answer in H as [? H]. by eapply success_answer.
    + injection H as <- <- <-. apply jsonrpc_failure. by right.
Qed.

Lemma answers_are_jsonrpc_witness :
  jsonrpc_answer (JStr "7")
    (failure (-32602) "Task with ID t9 not found" (JStr "7")) 404.
Proof.
  apply (answers_are_jsonrpc demo_server demo_server "u-1"
           (post (rpc "tasks/cancel" (JObj [("task_id", JStr "t9")])
                    (JStr "7")))
           [("jsonrpc", JStr "2.0"); ("method", JStr "tasks/cancel");
            ("params", JObj [("task_id", JStr "t9")]); ("id", JStr "7")]);
    [reflexivity|reflexivity|right; split; reflexivity].
Defined.
(** ** Requests that get no answer *)

(** X15.  A [tasks/sendSubscribe] request is never answered.  Once a
    request with this method and a truthy [id] has passed the API-key
    check (and the agent lookup), the POST handler raises, whatever the
    params are: it returns no response, neither an event stream nor a
    JSON-RPC error.  For well-formed params the exception is
    [AttributeError]. *)
Theorem subscribe_request_raises (self : A2AServer) (uuid : string)
    (request : Request) (rpc : list (string * json)) :
  verify_api_key self request = true →
  body request = Some (JObj rpc) →
  Py.lookup "method" rpc = Some (JStr "tasks/sendSubscribe") →
  Py.truthy (default JNull (Py.lookup "id" rpc)) = true →
  (∃ e, (handle_agency_request self uuid request).2 = Raise e)
  ∧ (Py.truthy (get_agent self (path_agent_id request)) = true →
     ∃ e, (handle_agent_request self uuid request).2 = Raise e)
  ∧ (valid_params (default (JObj []) (Py.lookup "params" rpc)) = true →
     (handle_agency_request self uuid request).2 = Raise AttributeError
     ∧ (Py.truthy (get_agent self (path_agent_id request)) = true →
        (handle_agent_request self uuid request).2 = Raise AttributeError)).
Proof.
  intros Hkey Hbody Hm Hid.
  assert (Hagency : handle_agency_request self uuid request
            = _handle_agency_tasks_send_subscribe self uuid
                (default JNull (Py.lookup "id" rpc))
                (default (JObj []) (Py.lookup "params" rpc))).
  { unfold handle_agency_request. rewrite Hkey, Hbody.
    cbn [negb Py.get Py.get_default mbind result_bind mret result_ret].
    by rewrite Hm, Hid. }
  assert (Hagent : Py.truthy (get_agent self (path_agent_id request)) = true →
            handle_agent_request self uuid request
            = _handle_tasks_send_subscribe self uuid
                (default JNull (Py.lookup "id" rpc))
                (default (JObj []) (Py.lookup "params" rpc))
                (get_agent self (path_agent_id request))).
  { intros Ha. unfold handle_agent_request. rewrite Hkey, Ha, Hbody.
    cbn [negb Py.get Py.get_default mbind result_bind mret result_ret].
    by rewrite Hm, Hid. }
  split_and!.
  - rewrite Hagency. apply agency_send_subscribe_raises.
  - intros Ha. rewrite (Hagent Ha). apply send_subscribe_raises.
  - intros Hparams.
    destruct (send_subscribe_total self uuid
                (default JNull (Py.lookup "id" rpc))
                (default (JObj []) (Py.lookup "params" rpc))
                (get_agent self (path_agent_id request)) Hparams)
      as (? & ? & ? & ? & ? & _ & _ & _ & _ & _ & Hsub & Hsub').
    split.
    + by rewrite Hagency, Hsub'.
    + intros Ha. by rewrite (Hagent Ha), Hsub.
Qed.

Lemma subscribe_request_raises_witness :
  (∃ e, (handle_agency_request demo_server "u-1"
           (post (rpc "tasks/sendSubscribe" JNull (JStr "1")))).2 = Raise e)
  ∧ (∃ e, (handle_agent_request demo_server "u-1"
             (post (rpc "tasks/sendSubscribe" JNull (JStr "1")))).2
          = Raise e)
  ∧ (handle_agency_request demo_server "u-1"
       (post (rpc "tasks/sendSubscribe" hello_params (JStr "1")))).2
    = Raise AttributeError
  ∧ (handle_agent_request demo_server "u-1"
       (post (rpc "tasks/sendSubscribe" hello_params (JStr "1")))).2
    = Raise AttributeError.
Proof.
  destruct (subscribe_request_raises demo_server "u-1"
              (post (rpc "tasks/sendSubscribe" JNull (JStr "1")))
              [("jsonrpc", JStr "2.0");
               ("method", JStr "tasks/sendSubscribe"); ("params", JNull);
               ("id", JStr "1")] eq_refl eq_refl eq_refl eq_refl)
    as (H1 & H2 & _).
  destruct (subscribe_request_raises demo_server "u-1"
              (post (rpc "tasks/sendSubscribe" hello_params (JStr "1")))
              [("jsonrpc", JStr "2.0");
               ("method", JStr "tasks/sendSubscribe");
               ("params", hello_params); ("id", JStr "1")]
              eq_refl eq_refl eq_refl eq_refl)
    as (_ & _ & H3).
  destruct (H3 eq_refl) as [H4 H5].
  split_and!; [exact H1|by apply H2|exact H4|by apply H5].
Defined.

(** X16.  The POST handlers accept JSON objects only.  A body that is valid
    JSON but not an object (an array, a string, a number, [true], [null])
    gets no JSON-RPC answer: the handler raises [AttributeError] at
    [json_rpc.get], and leaves the server as it was.  So do params that
    are not an object (positional params, or [null]) for the methods that
    read them: [tasks/send], [tasks/sendSubscribe], [tasks/get] and
    [tasks/cancel] raise [AttributeError] at [params.get]. *)
Theorem non_object_requests_raise (self : A2AServer) (uuid : string)
    (request : Request) (v : json) :
  verify_api_key self request = true →
  body request = Some v →
  ((∀ items, v ≠ JObj items) →
   handle_agency_request self uuid request = (self, Raise AttributeError)
   ∧ (Py.truthy (get_agent self (path_agent_id request)) = true →
      handle_agent_request self uuid request
      = (self, Raise AttributeError)))
  ∧ ∀ (rpc : list (string * json)) (method : string) (params : json),
      v = JObj rpc →
      Py.lookup "method" rpc = Some (JStr method) →
      Py.truthy (default JNull (Py.lookup "id" rpc)) = true →
      Py.lookup "params" rpc = Some params →
      (∀ items, params ≠ JObj items) →
      method ∈ ["tasks/send"; "tasks/sendSubscribe"; "tasks/get";
                "tasks/cancel"] →
      handle_agency_request self uuid request = (self, Raise AttributeError)
      ∧ (Py.truthy (get_agent self (path_agent_id request)) = true →
         handle_agent_request self uuid request
         = (self, Raise AttributeError)).
Proof.
  intros Hkey Hbody. split.
  { intros Hv. split; [|intros Hagent].
    - unfold handle_agency_request. rewrite Hkey, Hbody.
      destruct v; try done. by destruct (Hv items).
    - unfold handle_agent_request. rewrite Hkey, Hagent, Hbody.
      destruct v; try done. by destruct (Hv items). }
  intros rpc method params -> Hm Hid Hp Hparams Hin.
  assert (Hget : ∀ k, Py.get params k = Raise AttributeError).
  { intros k. destruct params; try done. by destruct (Hparams items). }
  split; [|intros Hagent].
  - unfold handle_agency_request. rewrite Hkey, Hbody.
    cbn [negb Py.get Py.get_default mbind result_bind mret result_ret].
    rewrite Hm, Hp, Hid.
    cbn [from_option id negb orb].
    unfold _handle_agency_tasks_send, _handle_agency_tasks_send_subscribe,
      _handle_tasks_get, _handle_tasks_cancel, read_task_id.
    rewrite Hget.
    repeat (apply elem_of_cons in Hin as [->|Hin]; [done|]).
    by apply elem_of_nil in Hin.
  - unfold handle_agent_request. rewrite Hkey, Hagent, Hbody.
    cbn [negb Py.get Py.get_default mbind result_bind mret result_ret].
    rewrite Hm, Hp, Hid.
    cbn [from_option id negb orb].
    unfold _handle_tasks_send, _handle_tasks_send_subscribe,
      _handle_tasks_get, _handle_tasks_cancel, read_task_id.
    rewrite Hget.
    repeat (apply elem_of_cons in Hin as [->|Hin]; [done|]).
    by apply elem_of_nil in Hin.
Qed.

Lemma non_object_requests_raise_witness :
  handle_agency_request demo_server "u-1" (post (JArr []))
  = (demo_server, Raise AttributeError)
  ∧ handle_agent_request demo_server "u-1" (post (JArr []))
    = (demo_server, Raise AttributeError)
  ∧ handle_agency_request demo_server "u-1"
      (post (rpc "tasks/get" (JArr [JStr "t1"]) (JStr "1")))
    = (demo_server, Raise AttributeError)
  ∧ handle_agent_request demo_server "u-1"
      (post (rpc "tasks/get" (JArr [JStr "t1"]) (JStr "1")))
    = (demo_server, Raise AttributeError).
Proof.
  destruct (non_object_requests_raise demo_server "u-1" (post (JArr []))
              (JArr []) eq_refl eq_refl) as [[H1 H2] _]; [done|].
  destruct (non_object_requests_raise demo_server "u-1"
              (post (rpc "tasks/get" (JArr [JStr "t1"]) (JStr "1")))
              (rpc "tasks/get" (JArr [JStr "t1"]) (JStr "1"))
              eq_refl eq_refl) as [_ H].
  destruct (H [("jsonrpc", JStr "2.0"); ("method", JStr "tasks/get");
               ("params", JArr [JStr "t1"]); ("id", JStr "1")]
              "tasks/get" (JArr [JStr "t1"]) eq_refl eq_refl eq_refl eq_refl)
    as [H3 H4]; [done| |].
  { rewrite !elem_of_cons. by right; right; left. }
  split_and!; [exact H1|by apply H2|exact H3|by apply H4].
Defined.
(** X17.  A task id that is a non-empty list or object (a value Python
    cannot hash) gets no answer: [tasks/get] and [tasks/cancel] raise
    [TypeError] at the lookup in the store, and [tasks/send] and
    [tasks/sendSubscribe], for a well-formed message, raise it at the
    assignment to the store, which stays as it was. *)
Theorem unhashable_task_id_raises (self : A2AServer) (uuid : string)
    (rid params agent tid message : json) :
  Py.get params "task_id" = Ok tid →
  Py.truthy tid = true →
  Py.hashable tid = false →
  Py.get_default params "message" (JObj []) = Ok message →
  valid_message message = true →
  valid_agent agent = true →
  _handle_tasks_get self rid params = Raise TypeError
  ∧ _handle_tasks_cancel self rid params = Raise TypeError
  ∧ _handle_tasks_send self uuid rid params agent = Raise TypeError
  ∧ _handle_tasks_send_subscribe self uuid rid params agent
    = (self, Raise TypeError).
Proof.
  intros Hp Ht Hh Hm Hmsg Hagent.
  destruct (extract_parts_total message Hmsg) as (mt & fp & dp & Hparts & Hfp).
  destruct (agent_response_total self agent mt fp dp Hagent Hfp)
    as [text Htext].
  split_and!.
  - unfold _handle_tasks_get, task_unknown, tasks_contains.
    rewrite Hp. cbn [mbind result_bind]. by rewrite Ht, Hh.
  - unfold _handle_tasks_cancel, task_unknown, tasks_contains.
    rewrite Hp. cbn [mbind result_bind]. by rewrite Ht, Hh.
  - unfold _handle_tasks_send, read_task_id. rewrite Hp.
    cbn [mbind result_bind mret result_ret]. rewrite Ht, Hm.
    cbn [mbind result_bind]. rewrite Hparts. cbn [mbind result_bind].
    rewrite Htext. cbn [mbind result_bind new_object].
    unfold tasks_set. by rewrite Hh.
  - unfold _handle_tasks_send_subscribe, read_task_id. rewrite Hp.
    cbn [mbind result_bind mret result_ret]. rewrite Ht, Hm.
    cbn [mbind result_bind]. rewrite Hparts.
    cbn [mbind result_bind new_object].
    unfold tasks_set. by rewrite Hh.
Qed.

Lemma unhashable_task_id_raises_witness :
  _handle_tasks_get demo_server (JStr "1")
    (JObj [("task_id", JArr [JStr "t1"]); ("message", hello)])
  = Raise TypeError
  ∧ _handle_tasks_cancel demo_server (JStr "1")
      (JObj [("task_id", JArr [JStr "t1"]); ("message", hello)])
    = Raise TypeError
  ∧ _handle_tasks_send demo_server "u-1" (JStr "1")
      (JObj [("task_id", JArr [JStr "t1"]); ("message", hello)])
      (JObj demo_agent)
    = Raise TypeError
  ∧ _handle_tasks_send_subscribe demo_server "u-1" (JStr "1")
      (JObj [("task_id", JArr [JStr "t1"]); ("message", hello)])
      (JObj demo_agent)
    = (demo_server, Raise TypeError).
Proof.
  apply (unhashable_task_id_raises demo_server "u-1" (JStr "1")
           (JObj [("task_id", JArr [JStr "t1"]); ("message", hello)])
           (JObj demo_agent) (JArr [JStr "t1"]) hello); reflexivity.
Defined.

(** X18.  The empty key is never accepted, so that a server configured with
    the default, empty [API_KEY] answers every POST request with the status
    401, whatever key the request sends. *)
Theorem empty_api_key_rejects_all (self : A2AServer) (uuid : string)
    (request : Request) :
  API_KEY self = "" →
  handle_agent_request self uuid request
  = (self, Ok (JSONResponse (bare_error "Invalid or missing API key") 401))
  ∧ handle_agency_request self uuid request
    = (self, Ok (JSONResponse (bare_error "Invalid or missing API key") 401)).
Proof.
  intros Hkey. apply unauthorized. unfold verify_api_key. rewrite Hkey.
  destruct (x_api_key request) as [k|]; [|done]. by destruct (String.eqb k "").
Qed.

Lemma empty_api_key_rejects_all_witness :
  handle_agent_request unkeyed_server "u-1"
    (post_with_key "" (rpc "tasks/list" (JObj []) (JStr "1")))
  = (unkeyed_server,
     Ok (JSONResponse (bare_error "Invalid or missing API key") 401))
  ∧ handle_agency_request unkeyed_server "u-1"
      (post_with_key "" (rpc "tasks/list" (JObj []) (JStr "1")))
    = (unkeyed_server,
       Ok (JSONResponse (bare_error "Invalid or missing API key") 401)).
Proof.
  apply (empty_api_key_rejects_all unkeyed_server "u-1"
           (post_with_key "" (rpc "tasks/list" (JObj []) (JStr "1")))).
  reflexivity.
Defined.

(** ** The parts of a message *)

Lemma for_each_parts_collect (parts : list json) :
  ∀ (mt : string) (fp dp : list json),
    forallb readable_part parts = true →
    for_each part_step parts (mt, fp, dp)
    = Ok (mt +:+ Py.join "" (texts_of parts), fp ++ files_of parts,
          dp ++ datas_of parts).
Proof.
  induction parts as [|part parts IH]; intros mt fp dp Hparts.
  - cbn. by rewrite sapp_empty_r, !app_nil_r.
  - cbn [forallb] in Hparts. apply andb_prop in Hparts as [Hpart Hparts].
    destruct part as [| | | | |items]; try done.
    cbn [for_each]. unfold part_step, texts_of, files_of, datas_of.
    cbn [omap list_omap]. fold (texts_of parts) (files_of parts) (datas_of parts).
    cbn [readable_part] in Hpart. unfold part_type in *.
    cbn [field Py.get Py.get_default mbind result_bind] in *.
    destruct (Py.eq_str (default JNull (Py.lookup "type" items)) "text")
      eqn:Etext.
    + destruct (default (JStr "") (Py.lookup "text" items)) as [| | |s| |]
        eqn:Et; try done.
      cbn [Py.str_add mbind result_bind mret result_ret].
      rewrite IH by done.
      assert (Py.eq_str (default JNull (Py.lookup "type" items)) "file"
              = false) as ->.
      { destruct (default JNull (Py.lookup "type" items)); try done.
        cbn in *. apply String.eqb_eq in Etext as ->. done. }
      assert (Py.eq_str (default JNull (Py.lookup "type" items)) "data"
              = false) as ->.
      { destruct (default JNull (Py.lookup "type" items)); try done.
        cbn in *. apply String.eqb_eq in Etext as ->. done. }
      by rewrite join_empty_cons, sapp_assoc.
    + destruct (Py.eq_str (default JNull (Py.lookup "type" items)) "file")
        eqn:Efile.
      * cbn [mbind result_bind mret result_ret]. rewrite IH by done.
        assert (Py.eq_str (default JNull (Py.lookup "type" items)) "data"
                = false) as ->.
        { destruct (default JNull (Py.lookup "type" items)); try done.
          cbn in *. apply String.eqb_eq in Efile as ->. done. }
        by rewrite <- app_assoc.
      * destruct (Py.eq_str (default JNull (Py.lookup "type" items)) "data")
          eqn:Edata; cbn [mbind result_bind mret result_ret];
          rewrite IH by done; [by rewrite <- app_assoc|done].
Qed.

(** X19.  The loop over the parts of a message puts the texts of the text
    parts together, in order and with nothing between them, collects the
    [file] objects of the file parts and the [data] objects of the data
    parts, in order, and ignores the parts of every other type. *)
Theorem extract_parts_collects (items : list (string * json))
    (parts : list json) :
  default (JArr []) (Py.lookup "parts" items) = JArr parts →
  forallb readable_part parts = true →
  extract_parts (JObj items)
  = Ok (Py.join "" (texts_of parts), files_of parts, datas_of parts).
Proof.
  intros Hparts Hread. unfold extract_parts.
  cbn [Py.get_default mbind result_bind]. rewrite Hparts.
  cbn [Py.iter mbind result_bind].
  rewrite for_each_parts_collect by done. by rewrite sapp_empty_l.
Qed.

Lemma extract_parts_collects_witness :
  extract_parts
    (JObj [("role", JStr "user");
           ("parts",
            JArr [JObj [("type", JStr "text"); ("text", JStr "see ")];
                  JObj [("type", JStr "image"); ("text", JStr "no")];
                  JObj [("type", JStr "file");
                        ("file", JObj [("file_name", JStr "a.txt")])];
                  JObj [("type", JStr "text"); ("text", JStr "this")]])])
  = Ok ("see this", [JObj [("file_name", JStr "a.txt")]], []).
Proof.
  apply (extract_parts_collects
           [("role", JStr "user");
            ("parts",
             JArr [JObj [("type", JStr "text"); ("text", JStr "see ")];
                   JObj [("type", JStr "image"); ("text", JStr "no")];
                   JObj [("type", JStr "file");
                         ("file", JObj [("file_name", JStr "a.txt")])];
                   JObj [("type", JStr "text"); ("text", JStr "this")]])]
           [JObj [("type", JStr "text"); ("text", JStr "see ")];
            JObj [("type", JStr "image"); ("text", JStr "no")];
            JObj [("type", JStr "file");
                  ("file", JObj [("file_name", JStr "a.txt")])];
            JObj [("type", JStr "text"); ("text", JStr "this")]]);
    reflexivity.
Defined.
(** ** The replies of the agency *)

Lemma agent_line_listable (agent : list (string * json)) :
  (listable (JObj agent) = true → ∃ line, agent_line (JObj agent) = Ok line)
  ∧ (listable (JObj agent) = false →
     agent_line (JObj agent) = Raise KeyError).
Proof.
  unfold listable, agent_line. cbn [field Py.getitem].
  destruct (Py.lookup "name" agent) as [name|]; [|by split].
  destruct (Py.lookup "description" agent) as [description|]; [|by split].
  rewrite !bool_decide_eq_true_2 by done. split; [by eexists|done].
Qed.

Lemma agent_lines (l : list (list (string * json))) :
  (forallb listable (JObj <$> l) = true →
   ∃ lines, comprehension agent_line (JObj <$> l) = Ok lines)
  ∧ (forallb listable (JObj <$> l) = false →
     comprehension agent_line (JObj <$> l) = Raise KeyError).
Proof.
  induction l as [|agent l [IHok IHko]]; [by split; [exists []|]|].
  cbn [fmap list_fmap forallb comprehension].
  destruct (agent_line_listable agent) as [Hok Hko].
  destruct (listable (JObj agent)); cbn [andb].
  - destruct Hok as [line ->]; [done|].
    cbn [mbind result_bind mret result_ret]. split.
    + intros [lines ->]%IHok. by eexists.
    + by intros ->%IHko.
  - rewrite Hko by done. by split.
Qed.

Lemma take_agents (self : A2AServer) (n : nat) :
  take n (list_agents self) = JObj <$> (snd <$> take n (registry self)).
Proof.
  unfold list_agents. rewrite <- fmap_take. rewrite <- list_fmap_compose.
  done.
Qed.

(** X20.  Asked to list the agents (and not to create one), the agency
    reads the [name] and the [description] of the first five registered
    agents only: it replies when each of them has both, and raises
    [KeyError] when one of them lacks one; the agents after the fifth are
    counted but not read. *)
Theorem agency_list_reads_five (self : A2AServer) (message_text : string)
    (file_parts data_parts : list json) :
  Py.contains "list" (Py.lower message_text) = true →
  Py.contains "agent" (Py.lower message_text) = true →
  Py.contains "create" (Py.lower message_text) = false →
  (forallb listable (take 5 (list_agents self)) = true →
   ∃ text,
     _generate_agency_response self message_text file_parts data_parts
     = Ok text)
  ∧ (forallb listable (take 5 (list_agents self)) = false →
     _generate_agency_response self message_text file_parts data_parts
     = Raise KeyError).
Proof.
  intros Hlist Hagent Hcreate. unfold _generate_agency_response.
  rewrite Hlist, Hagent, Hcreate. cbn [andb].
  destruct (list_agents self) as [|a agents] eqn:E.
  { split; [by eexists|done]. }
  rewrite <- E. rewrite take_agents.
  destruct (agent_lines (snd <$> take 5 (registry self))) as [Hok Hko].
  split.
  - intros [lines ->]%Hok. by eexists.
  - intros ->%Hko. done.
Qed.

Lemma agency_list_reads_five_witness :
  (forallb listable (take 5 (list_agents unlisted_server)) = true →
   ∃ text,
     _generate_agency_response unlisted_server "List the agents" [] []
     = Ok text)
  ∧ (forallb listable (take 5 (list_agents unlisted_server)) = false →
     _generate_agency_response unlisted_server "List the agents" [] []
     = Raise KeyError).
Proof.
  apply (agency_list_reads_five unlisted_server "List the agents" [] []);
    reflexivity.
Defined.

Lemma agency_response_total (self : A2AServer) (mt : string)
    (fp dp : list json) :
  forallb listable (take 5 (list_agents self)) = true →
  Forall (λ f, valid_file f = true) fp →
  ∃ text, _generate_agency_response self mt fp dp = Ok text.
Proof.
  intros Hagents Hfp. rewrite take_agents in Hagents.
  apply (proj1 (agent_lines _)) in Hagents as [lines Hlines].
  unfold _generate_agency_response.
  destruct (Py.contains "create" (Py.lower mt)
            && Py.contains "agent" (Py.lower mt)); [by eexists|].
  destruct (Py.contains "list" (Py.lower mt)
            && Py.contains "agent" (Py.lower mt)).
  { destruct (list_agents self) as [|a agents] eqn:E; [by eexists|].
    rewrite <- E, take_agents, Hlines. by eexists. }
  destruct (Py.contains "file" (Py.lower mt) && bool_decide (fp ≠ []))
    eqn:Efile.
  { destruct fp as [|f fp]; [by rewrite andb_false_r in Efile|].
    apply Forall_cons_1 in Hfp as [Hf _].
    destruct (file_name_suffix_total f fp Hf) as [suffix ->]. by eexists. }
  destruct (Py.contains "data" (Py.lower mt) && bool_decide (dp ≠ []));
    by eexists.
Qed.

(** X21.  [tasks/send] to the agency, for well-formed params and a registry
    whose first five agents have a name and a description, returns a task
    in state [completed] whose messages are the message of the request and
    one agent message with a single text part, whose text has at least one
    word. *)
Theorem agency_send_completed (self : A2AServer) (uuid : string)
    (rid params : json) :
  valid_params params = true →
  forallb listable (take 5 (list_agents self)) = true →
  ∃ (task message : json) (text : string) (self' : A2AServer),
    _handle_agency_tasks_send self uuid rid params
    = Ok (JSONResponse (success task rid) OK200, self')
    ∧ field "state" task = Some (JStr "completed")
    ∧ Py.get_default params "message" (JObj []) = Ok message
    ∧ task_messages task = Some [message; agent_message text]
    ∧ _chunk_text text 50 ≠ [].
Proof.
  intros Hparams Hagents.
  destruct (read_task_id_total uuid params Hparams)
    as (tid & message & Htid & Hh & Hm & Hmsg).
  destruct (extract_parts_total message Hmsg)
    as (mt & fp & dp & Hparts & Hfp).
  destruct (agency_response_total self mt fp dp Hagents Hfp)
    as [text Htext].
  eexists (new_task tid "completed" [message; agent_message text]),
    message, text, _.
  split_and!; [|reflexivity|done|reflexivity|].
  - unfold _handle_agency_tasks_send. rewrite Htid.
    cbn [mbind result_bind]. rewrite Hm. cbn [mbind result_bind].
    rewrite Hparts. cbn [mbind result_bind]. rewrite Htext.
    cbn [mbind result_bind new_object]. unfold tasks_set. rewrite Hh.
    cbn [mbind result_bind mret result_ret]. reflexivity.
  - by eapply agency_response_chunks.
Qed.

Lemma agency_send_completed_witness :
  ∃ (task message : json) (text : string) (self' : A2AServer),
    _handle_agency_tasks_send demo_server "u-1" (JStr "1") hello_params
    = Ok (JSONResponse (success task (JStr "1")) OK200, self')
    ∧ field "state" task = Some (JStr "completed")
    ∧ Py.get_default hello_params "message" (JObj []) = Ok message
    ∧ task_messages task = Some [message; agent_message text]
    ∧ _chunk_text text 50 ≠ [].
Proof.
  apply (agency_send_completed demo_server "u-1" (JStr "1") hello_params);
    reflexivity.
Defined.
(** ** The registry *)

Lemma dict_at_set_eq (self : Registry.AgentRegistry) (r : nat)
    (d d0 : list (string * json)) :
  Registry.dicts self !! r = Some d0 →
  Registry.dict_at (Registry.set_dict self r d) r = d.
Proof.
  intros Hr. unfold Registry.dict_at, Registry.set_dict. cbn.
  rewrite list_lookup_insert_eq; [done|by eapply lookup_lt_Some].
Qed.

Lemma dict_at_set_ne (self : Registry.AgentRegistry) (r r' : nat)
    (d : list (string * json)) :
  r ≠ r' →
  Registry.dict_at (Registry.set_dict self r d) r' = Registry.dict_at self r'.
Proof.
  intros Hne. unfold Registry.dict_at, Registry.set_dict. cbn.
  by rewrite list_lookup_insert_ne.
Qed.

Lemma dicts_set_eq (self : Registry.AgentRegistry) (r : nat)
    (d d0 : list (string * json)) :
  Registry.dicts self !! r = Some d0 →
  Registry.dicts (Registry.set_dict self r d) !! r = Some d.
Proof.
  intros Hr. cbn. rewrite list_lookup_insert_eq; [done|].
  by eapply lookup_lt_Some.
Qed.

Lemma dict_at_known (self : Registry.AgentRegistry) (r : nat)
    (d : list (string * json)) :
  Registry.dicts self !! r = Some d → Registry.dict_at self r = d.
Proof. unfold Registry.dict_at. by intros ->. Qed.

Lemma lookup_view (self : Registry.AgentRegistry) (k : string) :
  Py.lookup k (Registry.view self)
  = Registry.dict_at self <$> Py.lookup k (Registry.agents self).
Proof.
  unfold Registry.view. induction (Registry.agents self) as [|[k1 r1] l IH];
    [done|].
  cbn. by destruct (String.eqb k1 k).
Qed.

Lemma set_dict_set_dict (self : Registry.AgentRegistry) (r : nat)
    (d d' : list (string * json)) :
  Registry.set_dict (Registry.set_dict self r d) r d'
  = Registry.set_dict self r d'.
Proof.
  unfold Registry.set_dict. cbn. f_equal. apply list_insert_insert_eq.
Qed.

(** What [register_agent] does for an id the registry does not know. *)
Lemma register_new (self : Registry.AgentRegistry) (now : string)
    (agent_id : string) (agent_info : nat) (d : list (string * json)) :
  Py.lookup agent_id (Registry.agents self) = None →
  Registry.dicts self !! agent_info = Some d →
  is_Some (Py.lookup "name" d) →
  Registry.register_agent self now agent_id agent_info
  = (Registry.set_agents
       (Registry.set_dict self agent_info
          (Py.store "updated_at" (JStr now)
             (Py.store "created_at" (JStr now) d)))
       (Py.store agent_id agent_info (Registry.agents self)),
     Ok agent_info).
Proof.
  intros Hnew Hd [name Hname].
  unfold Registry.register_agent. rewrite Hnew.
  set (self1 := Registry.set_dict self agent_info _).
  assert (Hd1 : Registry.dicts self1 !! agent_info
                = Some (Py.store "created_at" (JStr now) d)).
  { unfold self1. rewrite (dict_at_known _ _ _ Hd).
    by eapply dicts_set_eq. }
  rewrite (dict_at_known _ _ _ Hd1), lookup_store_eq.
  cbn [default from_option id].
  unfold self1. rewrite set_dict_set_dict.
  set (self3 := Registry.set_agents _ _).
  assert (Hd3 : Registry.dict_at self3 agent_info
                = Py.store "updated_at" (JStr now)
                    (Py.store "created_at" (JStr now) d)).
  { apply dict_at_known. by eapply dicts_set_eq. }
  rewrite Hd3. rewrite !lookup_store_ne, Hname by done.
  cbn [Registry.agents self3 Registry.set_agents].
  by rewrite lookup_store_eq.
Qed.

(** X22.  [register_agent] for an id the registry does not know keeps the
    dict it is given, not a copy: it stamps that dict with [created_at]
    and [updated_at], both the time of the call, stores it under the id
    and returns it, so that [get_agent] then returns the caller's own
    dict; the other ids and the other dicts stay as they were. *)
Theorem register_then_get (self : Registry.AgentRegistry) (now : string)
    (agent_id : string) (agent_info : nat) (d : list (string * json)) :
  Registry.get_agent self agent_id = None →
  Registry.dicts self !! agent_info = Some d →
  is_Some (Py.lookup "name" d) →
  ∃ self' : Registry.AgentRegistry,
    Registry.register_agent self now agent_id agent_info
    = (self', Ok agent_info)
    ∧ Registry.get_agent self' agent_id = Some agent_info
    ∧ Registry.dict_at self' agent_info
      = Py.store "updated_at" (JStr now) (Py.store "created_at" (JStr now) d)
    ∧ (∀ id' : string,
         id' ≠ agent_id →
         Registry.get_agent self' id' = Registry.get_agent self id')
    ∧ ∀ r : nat,
        r ≠ agent_info → Registry.dict_at self' r = Registry.dict_at self r.
Proof.
  intros Hnew Hd Hname. unfold Registry.get_agent in *.
  rewrite (register_new self now agent_id agent_info d) by done.
  eexists. split_and!; [done| | | |].
  - cbn. apply lookup_store_eq.
  - apply dict_at_known. by eapply dicts_set_eq.
  - intros id' Hne. cbn. by rewrite lookup_store_ne.
  - intros r Hne. unfold Registry.dict_at. cbn.
    by rewrite list_lookup_insert_ne.
Qed.

Lemma register_then_get_witness :
  ∃ self' : Registry.AgentRegistry,
    Registry.register_agent unregistered "2026-01-01T00:00:00" "abc" 0
    = (self', Ok 0%nat)
    ∧ Registry.get_agent self' "abc" = Some 0%nat
    ∧ Registry.dict_at self' 0
      = Py.store "updated_at" (JStr "2026-01-01T00:00:00")
          (Py.store "created_at" (JStr "2026-01-01T00:00:00") demo_agent)
    ∧ (∀ id' : string,
         id' ≠ "abc" →
         Registry.get_agent self' id' = Registry.get_agent unregistered id')
    ∧ ∀ r : nat,
        r ≠ 0%nat →
        Registry.dict_at self' r = Registry.dict_at unregistered r.
Proof.
  apply (register_then_get unregistered "2026-01-01T00:00:00" "abc" 0
           demo_agent); [reflexivity|reflexivity|by eexists].
Defined.
(** ** The factory: creating an agent *)

Lemma add_metadata_lookup (items : list (string * json)) :
  ∀ (info : list (string * json)) (k : string),
    Py.lookup k (foldl add_metadata info items)
    = match Py.lookup k info with
      | Some v => Some v
      | None => Py.lookup k items
      end.
Proof.
  induction items as [|[k1 v1] items IH]; intros info k; cbn [foldl].
  - by destruct (Py.lookup k info).
  - rewrite IH. unfold add_metadata. cbn [fst snd Py.lookup].
    destruct (String.eqb k1 k) eqn:E.
    + apply String.eqb_eq in E as ->.
      destruct (Py.lookup k info) eqn:Ek; [by rewrite Ek|].
      by rewrite lookup_store_eq.
    + apply String.eqb_neq in E.
      destruct (Py.lookup k1 info); [done|].
      by rewrite lookup_store_ne.
Qed.

Lemma lookup_store_if {V : Type} (b : bool) (k k' : string) (v : V)
    (items : list (string * V)) :
  k ≠ k' →
  Py.lookup k (if b then Py.store k' v items else items) = Py.lookup k items.
Proof. intros Hne. destruct b; [by apply lookup_store_ne|done]. Qed.

Lemma truthy_store (k : string) (v : json) (items : list (string * json)) :
  Py.truthy (JObj (Py.store k v items)) = true.
Proof.
  destruct items as [|[k1 v1] items]; [done|]. cbn.
  by destruct (String.eqb k1 k).
Qed.

(** X23.  [create_agent], for an id that is new to the registry, registers
    the agent under the id and returns its dict: the dict carries the id,
    the name, the description and the skills as given, the model (the
    default model when none is given), the status [active], and the time of
    the call as [created_at] and [updated_at]; whatever the metadata holds,
    it overrides none of these fields; the other agents stay registered as
    they were. *)
Theorem create_agent_registers (self : AgentFactory)
    (DEFAULT_MODEL uuid now : string) (writable : bool)
    (reg : Registry.AgentRegistry) (files : list (string * json))
    (name description skills model instructions mcp_servers metadata : json) :
  Registry.get_agent reg uuid = None →
  (Py.truthy metadata = true → ∃ items, metadata = JObj items) →
  ∃ (reg' : Registry.AgentRegistry) (files' : list (string * json))
    (r : nat),
    create_agent self DEFAULT_MODEL uuid now writable reg files name
      description skills model instructions mcp_servers metadata
    = (reg', files', Ok r)
    ∧ Registry.get_agent reg' uuid = Some r
    ∧ Py.lookup "id" (Registry.dict_at reg' r) = Some (JStr uuid)
    ∧ Py.lookup "name" (Registry.dict_at reg' r) = Some name
    ∧ Py.lookup "description" (Registry.dict_at reg' r) = Some description
    ∧ Py.lookup "skills" (Registry.dict_at reg' r) = Some skills
    ∧ Py.lookup "model" (Registry.dict_at reg' r)
      = Some (if Py.truthy model then model else JStr DEFAULT_MODEL)
    ∧ Py.lookup "status" (Registry.dict_at reg' r) = Some (JStr "active")
    ∧ Py.lookup "created_at" (Registry.dict_at reg' r) = Some (JStr now)
    ∧ Py.lookup "updated_at" (Registry.dict_at reg' r) = Some (JStr now)
    ∧ ∀ id' : string,
        id' ≠ uuid →
        Registry.get_agent reg' id' = Registry.get_agent reg id'.
Proof.
  intros Hnew Hmeta. unfold Registry.get_agent in *. unfold create_agent.
  assert (∃ (category : json) (items : list (string * json)),
            (if Py.truthy metadata
             then Py.get_default metadata "category" (JStr "general")
             else Ok (JStr "general")) = Ok category
            ∧ ∀ info, (if Py.truthy metadata
                       then items ← dict_items metadata;
                            mret (foldl add_metadata info items)
                       else Ok info)
                      = Ok (foldl add_metadata info items))
    as (category & items & -> & Hitems).
  { destruct (Py.truthy metadata).
    - destruct Hmeta as [items ->]; [done|]. by eexists _, items.
    - by exists (JStr "general"), []. }
  rewrite Hitems.
  set (base := if Py.truthy mcp_servers then _ else _).
  set (info := foldl add_metadata base items).
  assert (Hcore : ∀ k v,
            Py.lookup k [("id", JStr uuid); ("name", name);
                         ("description", description); ("skills", skills);
                         ("model", if Py.truthy model then model
                                   else JStr DEFAULT_MODEL);
                         ("status", JStr "active")] = Some v →
            Py.lookup k info = Some v).
  { intros k v Hk. unfold info. rewrite add_metadata_lookup.
    assert (k ≠ "instructions" ∧ k ≠ "mcp_servers") as [H1 H2].
    { split; intros ->; cbn in Hk; done. }
    unfold base. rewrite !lookup_store_if by done.
    assert (Py.lookup k
              [("id", JStr uuid); ("name", name);
               ("description", description); ("skills", skills);
               ("model", if negb (Py.truthy model) then JStr DEFAULT_MODEL
                         else model);
               ("status", JStr "active"); ("category", category)]
            = Some v) as ->; [|done].
    cbn in Hk |- *.
    repeat match type of Hk with
           | (if ?b then _ else _) = _ => destruct b; [exact Hk|]
           | (if ?b then _ else _) = _ =>
               destruct b; [by destruct (Py.truthy model)|]
           end.
    done. }
  set (stored := match _create_agent_card self writable uuid (JObj info) with
                 | Some (a2a_card_path, card) =>
                     (Py.store "a2a_card_path" (JStr a2a_card_path) info,
                      Py.store a2a_card_path card files)
                 | None => (info, files)
                 end).
  assert (Hstored : ∀ k v,
            k ≠ "a2a_card_path" →
            Py.lookup k info = Some v → Py.lookup k stored.1 = Some v).
  { intros k v Hne Hk. unfold stored.
    destruct (_create_agent_card self writable uuid (JObj info))
      as [[p c]|]; [|done].
    cbn. by rewrite lookup_store_ne. }
  destruct stored as [info' files'] eqn:Estored.
  cbn [Registry.new_dict fst snd] in *.
  set (reg1 := {| Registry.dicts := Registry.dicts reg ++ [info'] |}).
  assert (Hd : Registry.dicts reg1 !! length (Registry.dicts reg)
               = Some info').
  { cbn. by rewrite list_lookup_middle. }
  rewrite (register_new reg1 now uuid (length (Registry.dicts reg)) info')
    by (try done; eexists; by apply Hstored, Hcore).
  cbn [mbind result_bind mret result_ret].
  set (reg' := Registry.set_agents _ _).
  assert (Hd' : Registry.dict_at reg' (length (Registry.dicts reg))
                = Py.store "updated_at" (JStr now)
                    (Py.store "created_at" (JStr now) info')).
  { apply dict_at_known. unfold reg'. cbn [Registry.dicts Registry.set_agents].
    by eapply dicts_set_eq. }
  exists reg', files', (length (Registry.dicts reg)).
  rewrite Hd'.
  split_and!; try done.
  - cbn. apply lookup_store_eq.
  - rewrite !lookup_store_ne by done. by apply Hstored, Hcore.
  - rewrite !lookup_store_ne by done. by apply Hstored, Hcore.
  - rewrite !lookup_store_ne by done. by apply Hstored, Hcore.
  - rewrite !lookup_store_ne by done. by apply Hstored, Hcore.
  - rewrite !lookup_store_ne by done. by apply Hstored, Hcore.
  - rewrite !lookup_store_ne by done. by apply Hstored, Hcore.
  - rewrite lookup_store_ne by done. apply lookup_store_eq.
  - apply lookup_store_eq.
  - intros id' Hne. cbn. by rewrite lookup_store_ne.
Qed.
Lemma create_agent_registers_witness :
  ∃ (reg' : Registry.AgentRegistry) (files' : list (string * json))
    (r : nat),
    create_agent card_factory "gemini-2.0-pro" "abc" "2026-01-01T00:00:00"
      true empty_registry [] (JStr "Bob") (JStr "Helper.")
      (JArr [JStr "x"; JStr "y"]) JNull JNull JNull
      (JObj [("id", JStr "other"); ("status", JStr "inactive")])
    = (reg', files', Ok r)
    ∧ Registry.get_agent reg' "abc" = Some r
    ∧ Py.lookup "id" (Registry.dict_at reg' r) = Some (JStr "abc")
    ∧ Py.lookup "name" (Registry.dict_at reg' r) = Some (JStr "Bob")
    ∧ Py.lookup "description" (Registry.dict_at reg' r)
      = Some (JStr "Helper.")
    ∧ Py.lookup "skills" (Registry.dict_at reg' r)
      = Some (JArr [JStr "x"; JStr "y"])
    ∧ Py.lookup "model" (Registry.dict_at reg' r)
      = Some (if Py.truthy JNull then JNull else JStr "gemini-2.0-pro")
    ∧ Py.lookup "status" (Registry.dict_at reg' r) = Some (JStr "active")
    ∧ Py.lookup "created_at" (Registry.dict_at reg' r)
      = Some (JStr "2026-01-01T00:00:00")
    ∧ Py.lookup "updated_at" (Registry.dict_at reg' r)
      = Some (JStr "2026-01-01T00:00:00")
    ∧ ∀ id' : string,
        id' ≠ "abc" →
        Registry.get_agent reg' id' = Registry.get_agent empty_registry id'.
Proof.
  apply (create_agent_registers card_factory "gemini-2.0-pro" "abc"
           "2026-01-01T00:00:00" true empty_registry [] (JStr "Bob")
           (JStr "Helper.") (JArr [JStr "x"; JStr "y"]) JNull JNull JNull
           (JObj [("id", JStr "other"); ("status", JStr "inactive")]));
    [reflexivity|by eexists].
Defined.

(** X24.  The card of a created agent is the card that is served: when
    [create_agent] is given skill names and, in the metadata, a list of
    examples, and the card file can be written, then
    [GET /agents/{id}/.well-known/agent.json] answers with the card
    [_create_agent_card] wrote, in which the skill of index [i] carries the
    example list of index [i]. *)
Theorem created_card_is_served (self : AgentFactory)
    (DEFAULT_MODEL uuid now : string)
    (reg : Registry.AgentRegistry) (files : list (string * json))
    (name description : json) (names : list string)
    (model instructions mcp_servers : json)
    (items : list (string * json)) (exs : list json)
    (key : string) (other : json → string + json) (request : Request) :
  Registry.get_agent reg uuid = None →
  Py.lookup "examples" items = Some (JArr exs) →
  path_agent_id request = uuid →
  ∃ (reg' : Registry.AgentRegistry) (files' : list (string * json))
    (r : nat) (path : string) (card : json) (entries : list json),
    create_agent self DEFAULT_MODEL uuid now true reg files name
      description (JArr (JStr <$> names)) model instructions mcp_servers
      (JObj items)
    = (reg', files', Ok r)
    ∧ Py.lookup "a2a_card_path" (Registry.dict_at reg' r) = Some (JStr path)
    ∧ Py.lookup path files' = Some card
    ∧ get_agent_card (server_of key reg') (load_card files' other) request
      = Ok (JSONResponse card OK200)
    ∧ card_skills card = Some entries
    ∧ length entries = length names
    ∧ ∀ (i : nat) (name : string),
        names !! i = Some name →
        ∃ entry,
          entries !! i = Some entry
          ∧ field "name" entry = Some (JStr name)
          ∧ field "examples" entry = exs !! i.
Proof.
  intros Hnew Hexs Hreq. unfold Registry.get_agent in *. unfold create_agent.
  assert (Htruthy : Py.truthy (JObj items) = true).
  { by destruct items. }
  rewrite Htruthy. cbn [Py.get_default dict_items mbind result_bind mret
                        result_ret].
  set (base := if Py.truthy mcp_servers then _ else _).
  set (info := foldl add_metadata base items).
  assert (Hskills : Py.lookup "skills" info = Some (JArr (JStr <$> names))).
  { unfold info. rewrite add_metadata_lookup. unfold base.
    by rewrite !lookup_store_if by done. }
  assert (Hname : is_Some (Py.lookup "name" info)).
  { unfold info. rewrite add_metadata_lookup. unfold base.
    rewrite !lookup_store_if by done. by eexists. }
  assert (Hexamples : Py.lookup "examples" info = Some (JArr exs)).
  { unfold info. rewrite add_metadata_lookup. unfold base.
    by rewrite !lookup_store_if by done. }
  destruct (create_agent_card_skills self uuid info names exs Hskills
              Hexamples)
    as (path & card & entries & -> & Hcard & Hlen & Hentries).
  cbn [Registry.new_dict fst snd].
  set (info' := Py.store "a2a_card_path" (JStr path) info).
  set (reg1 := {| Registry.dicts := Registry.dicts reg ++ [info'] |}).
  assert (Hd : Registry.dicts reg1 !! length (Registry.dicts reg)
               = Some info').
  { cbn. by rewrite list_lookup_middle. }
  rewrite (register_new reg1 now uuid (length (Registry.dicts reg)) info').
  2: done. 2: done.
  2: { unfold info'. by rewrite lookup_store_ne. }
  cbn [mbind result_bind mret result_ret].
  set (reg' := Registry.set_agents _ _).
  assert (Hd' : Registry.dict_at reg' (length (Registry.dicts reg))
                = Py.store "updated_at" (JStr now)
                    (Py.store "created_at" (JStr now) info')).
  { apply dict_at_known. unfold reg'. cbn [Registry.dicts Registry.set_agents].
    by eapply dicts_set_eq. }
  assert (Hpath : Py.lookup "a2a_card_path"
                    (Registry.dict_at reg' (length (Registry.dicts reg)))
                  = Some (JStr path)).
  { rewrite Hd', !lookup_store_ne by done. apply lookup_store_eq. }
  exists reg', (Py.store path card files), (length (Registry.dicts reg)),
    path, card, entries.
  split_and!; try done.
  - apply lookup_store_eq.
  - unfold get_agent_card, get_agent. rewrite Hreq.
    cbn [server_of registry]. rewrite lookup_view.
    cbn [Registry.agents reg' Registry.set_agents].
    rewrite lookup_store_eq. cbn [fmap option_fmap option_map].
    rewrite Hd'. rewrite truthy_store. cbn [negb Py.has_key Py.getitem].
    rewrite <- Hd', Hpath. rewrite bool_decide_eq_true_2 by done.
    cbn [mbind result_bind mret result_ret load_card].
    by rewrite lookup_store_eq.
Qed.

Lemma created_card_is_served_witness :
  ∃ (reg' : Registry.AgentRegistry) (files' : list (string * json))
    (r : nat) (path : string) (card : json) (entries : list json),
    create_agent card_factory "gemini-2.0-pro" "abc" "2026-01-01T00:00:00"
      true empty_registry [] (JStr "Bob") (JStr "Helper.")
      (JArr (JStr <$> ["x"; "y"])) JNull JNull JNull
      (JObj [("examples", JArr [JArr [JStr "e1"]; JArr [JStr "e2"]])])
    = (reg', files', Ok r)
    ∧ Py.lookup "a2a_card_path" (Registry.dict_at reg' r) = Some (JStr path)
    ∧ Py.lookup path files' = Some card
    ∧ get_agent_card (server_of "secret" reg')
        (load_card files' (λ _, inl "no such file")) card_request
      = Ok (JSONResponse card OK200)
    ∧ card_skills card = Some entries
    ∧ length entries = length ["x"; "y"]
    ∧ ∀ (i : nat) (name : string),
        ["x"; "y"] !! i = Some name →
        ∃ entry,
          entries !! i = Some entry
          ∧ field "name" entry = Some (JStr name)
          ∧ field "examples" entry
            = [JArr [JStr "e1"]; JArr [JStr "e2"]] !! i.
Proof.
  apply (created_card_is_served card_factory "gemini-2.0-pro" "abc"
           "2026-01-01T00:00:00" empty_registry [] (JStr "Bob")
           (JStr "Helper.") ["x"; "y"] JNull JNull JNull
           [("examples", JArr [JArr [JStr "e1"]; JArr [JStr "e2"]])]
           [JArr [JStr "e1"]; JArr [JStr "e2"]] "secret"
           (λ _, inl "no such file") card_request); reflexivity.
Defined.
(** ** The factory: deleting and updating an agent *)

Lemma lookup_elem {V : Type} (k : string) (v : V)
    (items : list (string * V)) :
  Py.lookup k items = Some v → (k, v) ∈ items.
Proof.
  induction items as [|[k1 v1] items IH]; cbn; [done|].
  destruct (String.eqb k1 k) eqn:E.
  - apply String.eqb_eq in E as ->. intros [= ->]. by left.
  - intros H. right. by apply IH.
Qed.

(** X25.  [delete_agent] of a registered agent removes it from the
    registry and, when the files can be written, removes its card file, so
    that afterwards the card request for its id is answered with the status
    404; the other agents stay registered.  The call returns [True], except
    that for an agent without a [name] it raises [KeyError] at its last log
    line, after the agent has been removed. *)
Theorem deleted_agent_is_gone (writable : bool)
    (reg : Registry.AgentRegistry) (files : list (string * json))
    (agent_id : string) (agent : nat) (d : list (string * json))
    (key : string) (other : json → string + json) (request : Request) :
  Registry.get_agent reg agent_id = Some agent →
  Registry.dicts reg !! agent = Some d →
  d ≠ [] →
  path_agent_id request = agent_id →
  ∃ (reg' : Registry.AgentRegistry) (files' : list (string * json)),
    delete_agent writable reg files agent_id
    = (reg', files',
       match Py.lookup "name" d with
       | Some _ => Ok true
       | None => Raise KeyError
       end)
    ∧ Registry.get_agent reg' agent_id = None
    ∧ (∀ id' : string,
         id' ≠ agent_id →
         Registry.get_agent reg' id' = Registry.get_agent reg id')
    ∧ (∀ p : string,
         Py.lookup "a2a_card_path" d = Some (JStr p) →
         writable = true →
         Py.lookup p files' = None)
    ∧ get_agent_card (server_of key reg') (load_card files' other) request
      = Ok (JSONResponse
              (bare_error ("Agent with ID " +:+ agent_id +:+ " not found"))
              404).
Proof.
  intros Hagent Hd Hne Hreq. unfold delete_agent. rewrite Hagent.
  rewrite (dict_at_known _ _ _ Hd).
  assert (Py.truthy (JObj d) = true) as -> by (by destruct d).
  cbn [negb]. unfold Registry.deregister_agent.
  unfold Registry.get_agent in *. rewrite Hagent.
  set (files' := match Py.lookup "a2a_card_path" d with
                 | Some (JStr card_path) =>
                     if writable then remove card_path files else files
                 | _ => files
                 end).
  set (reg' := Registry.set_agents reg _).
  exists reg', files'. split_and!.
  - by destruct (Py.lookup "name" d).
  - cbn. apply lookup_remove_eq.
  - intros id' Hid. cbn. by apply lookup_remove_ne.
  - intros p Hp ->. unfold files'. rewrite Hp. apply lookup_remove_eq.
  - unfold get_agent_card, get_agent. rewrite Hreq.
    cbn [server_of registry]. rewrite lookup_view.
    cbn [Registry.agents reg' Registry.set_agents].
    by rewrite lookup_remove_eq.
Qed.

Lemma deleted_agent_is_gone_witness :
  ∃ (reg' : Registry.AgentRegistry) (files' : list (string * json)),
    delete_agent true registered [("data/agent_cards/abc.json", JObj [])]
      "abc"
    = (reg', files',
       match Py.lookup "name" registered_agent with
       | Some _ => Ok true
       | None => Raise KeyError
       end)
    ∧ Registry.get_agent reg' "abc" = None
    ∧ (∀ id' : string,
         id' ≠ "abc" →
         Registry.get_agent reg' id' = Registry.get_agent registered id')
    ∧ (∀ p : string,
         Py.lookup "a2a_card_path" registered_agent = Some (JStr p) →
         true = true →
         Py.lookup p files' = None)
    ∧ get_agent_card (server_of "secret" reg')
        (load_card files' (λ _, inl "no such file")) card_request
      = Ok (JSONResponse (bare_error ("Agent with ID " +:+ "abc" +:+ " not found"))
              404).
Proof.
  apply (deleted_agent_is_gone true registered
           [("data/agent_cards/abc.json", JObj [])] "abc" 0 registered_agent
           "secret" (λ _, inl "no such file") card_request);
    [reflexivity|reflexivity|done|reflexivity].
Defined.

Lemma store_same {V : Type} (k : string) (v : V) (items : list (string * V)) :
  Py.lookup k items = Some v → Py.store k v items = items.
Proof.
  induction items as [|[k1 v1] items IH]; cbn; [done|].
  destruct (String.eqb k1 k); [by intros [= ->]|].
  intros H. by rewrite IH.
Qed.

Lemma store_keys {V : Type} (k : string) (v : V) (items : list (string * V)) :
  (Py.store k v items).*1
  = if decide (k ∈ items.*1) then items.*1 else items.*1 ++ [k].
Proof.
  induction items as [|[k1 v1] items IH]; cbn.
  - rewrite decide_False; [done|]. apply not_elem_of_nil.
  - destruct (String.eqb k1 k) eqn:E.
    + apply String.eqb_eq in E as ->. rewrite decide_True; [done|by left].
    + apply String.eqb_neq in E. cbn. rewrite IH.
      destruct (decide (k ∈ items.*1)) as [Hin|Hout].
      * rewrite decide_True; [done|by right].
      * rewrite decide_False; [done|].
        intros [?|?]%elem_of_cons; congruence.
Qed.

Lemma store_NoDup {V : Type} (k : string) (v : V)
    (items : list (string * V)) :
  NoDup items.*1 → NoDup (Py.store k v items).*1.
Proof.
  intros Hnd. rewrite store_keys. destruct (decide (k ∈ items.*1)); [done|].
  apply NoDup_app. split_and!; [done| |apply NoDup_singleton].
  intros x Hx ->%list_elem_of_singleton. done.
Qed.

Lemma lookup_NoDup {V : Type} (k : string) (v : V)
    (items : list (string * V)) :
  NoDup items.*1 → (k, v) ∈ items → Py.lookup k items = Some v.
Proof.
  induction items as [|[k1 v1] items IH]; cbn; [by intros _ ?%elem_of_nil|].
  intros [Hk1 Hnd]%NoDup_cons [[= -> ->]|Hin]%elem_of_cons.
  - by rewrite String.eqb_refl.
  - destruct (String.eqb k1 k) eqn:E; [|by apply IH].
    apply String.eqb_eq in E as ->. destruct Hk1.
    by apply (list_elem_of_fmap_2 fst _ (k, v)).
Qed.

(** Updating a dict with itself changes nothing. *)
Lemma dict_update_self (d : list (string * json)) :
  NoDup d.*1 → Registry.dict_update d d = d.
Proof.
  intros Hnd. unfold Registry.dict_update.
  assert (H : ∀ sub : list (string * json),
            (∀ kv, kv ∈ sub → kv ∈ d) →
            foldl (λ d kv, Py.store kv.1 kv.2 d) d sub = d).
  { induction sub as [|[k v] sub IH]; intros Hsub; [done|].
    cbn [foldl fst snd]. rewrite store_same.
    - apply IH. intros kv Hkv. apply Hsub. by right.
    - apply lookup_NoDup; [done|]. apply Hsub. by left. }
  by apply H.
Qed.

Lemma apply_update_NoDup (items : list (string * json)) :
  ∀ d : list (string * json),
    NoDup d.*1 → NoDup (foldl apply_update d items).*1.
Proof.
  induction items as [|[k v] items IH]; intros d Hnd; [done|].
  cbn [foldl]. apply IH. unfold apply_update.
  destruct (_ || _); [done|by apply store_NoDup].
Qed.

Lemma apply_update_protected (k : string) (items : list (string * json)) :
  k = "id" ∨ k = "created_at" →
  ∀ d : list (string * json),
    Py.lookup k (foldl apply_update d items) = Py.lookup k d.
Proof.
  intros Hk. induction items as [|[k1 v1] items IH]; intros d; [done|].
  cbn [foldl]. rewrite IH. unfold apply_update. cbn [fst snd].
  destruct (String.eqb k1 "id" || String.eqb k1 "created_at") eqn:E; [done|].
  apply orb_false_elim in E as [E1%String.eqb_neq E2%String.eqb_neq].
  apply lookup_store_ne. by destruct Hk as [->| ->].
Qed.

Lemma apply_update_other (k : string) (items : list (string * json)) :
  k ≠ "id" → k ≠ "created_at" →
  ∀ d : list (string * json),
    Py.lookup k (foldl apply_update d items)
    = Py.lookup k (Registry.dict_update d items).
Proof.
  intros H1 H2. unfold Registry.dict_update.
  assert (H : ∀ d d' : list (string * json),
            Py.lookup k d = Py.lookup k d' →
            Py.lookup k (foldl apply_update d items)
            = Py.lookup k (foldl (λ d kv, Py.store kv.1 kv.2 d) d' items)).
  { induction items as [|[k1 v1] items IH]; intros d d' Hd; [done|].
    cbn [foldl fst snd]. apply IH. unfold apply_update. cbn [fst snd].
    destruct (decide (k = k1)) as [<-|Hne].
    - apply String.eqb_neq in H1, H2. rewrite H1, H2. cbn.
      by rewrite !lookup_store_eq.
    - rewrite (lookup_store_ne k k1 v1 d') by done.
      destruct (_ || _); [done|]. by rewrite lookup_store_ne. }
  intros d. by apply H.
Qed.

(** X26.  [update_agent] writes to the dict the registry holds: it never
    changes the [id] and the [created_at] of the agent, whatever the
    updates say, sets [updated_at] to the time of the call, and gives every
    other field the value [agent.update(updates)] would give it; the
    registry maps the ids to the same dicts as before, and the call returns
    the registry's dict. *)
Theorem update_agent_keeps_identity (now : string) (writable : bool)
    (other : json → string + json)
    (reg : Registry.AgentRegistry) (files : list (string * json))
    (agent_id : string) (updates : list (string * json))
    (agent : nat) (d : list (string * json)) :
  Registry.get_agent reg agent_id = Some agent →
  Registry.dicts reg !! agent = Some d →
  NoDup d.*1 →
  is_Some (Py.lookup "name" d) →
  ∃ (reg' : Registry.AgentRegistry) (files' : list (string * json)),
    update_agent now writable other reg files agent_id (JObj updates)
    = (reg', files', Ok (Some agent))
    ∧ Registry.agents reg' = Registry.agents reg
    ∧ Py.lookup "id" (Registry.dict_at reg' agent) = Py.lookup "id" d
    ∧ Py.lookup "created_at" (Registry.dict_at reg' agent)
      = Py.lookup "created_at" d
    ∧ Py.lookup "updated_at" (Registry.dict_at reg' agent) = Some (JStr now)
    ∧ ∀ k : string,
        k ≠ "id" → k ≠ "created_at" → k ≠ "updated_at" →
        Py.lookup k (Registry.dict_at reg' agent)
        = Py.lookup k (Registry.dict_update d updates).
Proof.
  intros Hagent Hd Hnd [name Hname]. unfold update_agent.
  rewrite Hagent. rewrite !(dict_at_known _ _ _ Hd).
  assert (Py.truthy (JObj d) = true) as ->.
  { destruct d; [done|done]. }
  cbn [negb dict_items].
  set (d1 := foldl apply_update d updates).
  set (reg1 := Registry.set_dict reg agent d1).
  assert (Hd1 : Registry.dicts reg1 !! agent = Some d1).
  { by eapply dicts_set_eq. }
  rewrite !(dict_at_known _ _ _ Hd1).
  set (files' := match Py.lookup "a2a_card_path" d1 with
                 | Some _ => _
                 | None => files
                 end).
  unfold Registry.get_agent in Hagent.
  unfold Registry.register_agent.
  cbn [Registry.agents reg1 Registry.set_dict]. rewrite Hagent.
  rewrite !(dict_at_known _ _ _ Hd1).
  set (d2 := Py.store "updated_at" (JStr now) d1).
  set (reg2 := Registry.set_dict reg1 agent d2).
  assert (Hd2 : Registry.dicts reg2 !! agent = Some d2).
  { by eapply dicts_set_eq. }
  rewrite !(dict_at_known _ _ _ Hd2).
  assert (Hnd2 : NoDup d2.*1).
  { by apply store_NoDup, apply_update_NoDup. }
  rewrite (dict_update_self d2 Hnd2).
  set (reg3 := Registry.set_dict reg2 agent d2).
  assert (Hd3 : Registry.dicts reg3 !! agent = Some d2).
  { by eapply dicts_set_eq. }
  rewrite !(dict_at_known _ _ _ Hd3).
  assert (Hname2 : ∃ v, Py.lookup "name" d2 = Some v).
  { unfold d2. rewrite lookup_store_ne by done. unfold d1.
    rewrite apply_update_other by done.
    clear -Hname. revert d name Hname. unfold Registry.dict_update.
    induction updates as [|[k v] updates IH]; intros d name Hname;
      [by eexists|].
    cbn [foldl fst snd]. destruct (decide (k = "name")) as [->|Hne].
    - apply (IH _ v). apply lookup_store_eq.
    - apply (IH _ name). by rewrite lookup_store_ne. }
  destruct Hname2 as [v ->].
  cbn [Registry.agents reg3 reg2 reg1 Registry.set_dict]. rewrite Hagent.
  cbn [mbind result_bind mret result_ret].
  exists reg3, files'. rewrite (dict_at_known _ _ _ Hd3).
  split_and!; try done.
  - unfold d2. rewrite lookup_store_ne by done.
    apply apply_update_protected. by left.
  - unfold d2. rewrite lookup_store_ne by done.
    apply apply_update_protected. by right.
  - apply lookup_store_eq.
  - intros k H1 H2 H3. unfold d2. rewrite lookup_store_ne by done.
    by apply apply_update_other.
Qed.
Lemma update_agent_keeps_identity_witness :
  ∃ (reg' : Registry.AgentRegistry) (files' : list (string * json)),
    update_agent "2026-02-02T00:00:00" true (λ _, inl "no such file")
      registered [] "abc"
      (JObj [("id", JStr "other"); ("name", JStr "Rob")])
    = (reg', files', Ok (Some 0%nat))
    ∧ Registry.agents reg' = Registry.agents registered
    ∧ Py.lookup "id" (Registry.dict_at reg' 0)
      = Py.lookup "id" registered_agent
    ∧ Py.lookup "created_at" (Registry.dict_at reg' 0)
      = Py.lookup "created_at" registered_agent
    ∧ Py.lookup "updated_at" (Registry.dict_at reg' 0)
      = Some (JStr "2026-02-02T00:00:00")
    ∧ ∀ k : string,
        k ≠ "id" → k ≠ "created_at" → k ≠ "updated_at" →
        Py.lookup k (Registry.dict_at reg' 0)
        = Py.lookup k
            (Registry.dict_update registered_agent
               [("id", JStr "other"); ("name", JStr "Rob")]).
Proof.
  apply (update_agent_keeps_identity "2026-02-02T00:00:00" true
           (λ _, inl "no such file") registered [] "abc"
           [("id", JStr "other"); ("name", JStr "Rob")] 0 registered_agent);
    [reflexivity|reflexivity| |by eexists].
  apply (bool_decide_unpack _). by vm_compute.
Defined.

(** ** The factory: the card of an updated agent *)

Lemma card_content_skills (self : AgentFactory) (agent_id : string)
    (agent_info card : json) :
  card_content self agent_id agent_info = Ok card →
  ∃ entries,
    card_skill_entries agent_info = Ok entries
    ∧ card_skills card = Some entries.
Proof.
  unfold card_content, card_skill_entries. intros H. bind_inv H.
  injection H as <-.
  match goal with
  | Hit : Py.iter _ = Ok _, Hfor : (if _ then _ else _) = Ok ?l |- _ =>
      exists l; cbn [mbind result_bind]; rewrite Hit;
      cbn [mbind result_bind]; by split
  end.
Qed.

(** X27.  [_update_agent_card] rewrites the card file of an agent with the
    name, the description and the skills of the agent, the skills built as
    [_create_agent_card] builds them, examples included; it changes nothing
    else of the card: the [contact] of the card, which holds the name the
    agent had when the card was created, its [id] and its [version] stay as
    they were, and so do [servers] and [security]. *)
Theorem update_card_keeps_contact (files : list (string * json))
    (other : json → string + json) (agent_id : string)
    (items : list (string * json)) (path : string)
    (card info : list (string * json)) (entries : list json) :
  Py.lookup "a2a_card_path" items = Some (JStr path) →
  Py.lookup path files = Some (JObj card) →
  Py.lookup "info" card = Some (JObj info) →
  card_skill_entries (JObj items) = Ok entries →
  ∃ card' : json,
    _update_agent_card true files other agent_id (JObj items)
    = (true, Py.store path card' files)
    ∧ field "info" card' ≫= field "name"
      = Some (default (JStr "Agent") (Py.lookup "name" items))
    ∧ field "info" card' ≫= field "description"
      = Some (default (JStr "") (Py.lookup "description" items))
    ∧ (∀ k : string,
         k ≠ "name" → k ≠ "description" →
         field "info" card' ≫= field k = Py.lookup k info)
    ∧ card_skills card' = Some entries
    ∧ (∀ (self : AgentFactory) (created : json),
         card_content self agent_id (JObj items) = Ok created →
         card_skills created = Some entries)
    ∧ ∀ k : string,
        k ≠ "info" → k ≠ "skills" → field k card' = Py.lookup k card.
Proof.
  intros Hpath Hfile Hinfo Hentries.
  unfold _update_agent_card, updated_card.
  cbn [Py.getitem Py.get_default]. rewrite Hpath.
  cbn [mbind result_bind load_card]. rewrite Hfile.
  cbn [mbind result_bind mret result_ret].
  unfold Py.at_key at 2. cbn [Py.getitem]. rewrite Hinfo.
  cbn [mbind result_bind mret result_ret Py.setitem].
  unfold Py.at_key. cbn [Py.getitem]. rewrite lookup_store_eq.
  cbn [mbind result_bind mret result_ret Py.setitem].
  rewrite Hentries. cbn [mbind result_bind mret result_ret].
  eexists. split_and!; [reflexivity| | | | | |].
  - cbn [field]. rewrite lookup_store_ne, lookup_store_eq by done.
    cbn [mbind option_bind field]. rewrite lookup_store_ne by done.
    apply lookup_store_eq.
  - cbn [field]. rewrite lookup_store_ne, lookup_store_eq by done.
    cbn [mbind option_bind field]. apply lookup_store_eq.
  - intros k H1 H2. cbn [field].
    rewrite lookup_store_ne, lookup_store_eq by done.
    cbn [mbind option_bind field]. by rewrite !lookup_store_ne.
  - unfold card_skills. cbn [field]. by rewrite lookup_store_eq.
  - intros self created (entries' & He & Hs)%card_content_skills.
    rewrite Hentries in He. by injection He as <-.
  - intros k H1 H2. cbn [field]. by rewrite !lookup_store_ne.
Qed.

Lemma update_card_keeps_contact_witness :
  ∃ card' : json,
    _update_agent_card true
      [("data/agent_cards/abc.json", bob_card)]
      (λ _, inl "no such file") "abc" (JObj renamed_agent)
    = (true, Py.store "data/agent_cards/abc.json" card'
               [("data/agent_cards/abc.json", bob_card)])
    ∧ field "info" card' ≫= field "name"
      = Some (default (JStr "Agent") (Py.lookup "name" renamed_agent))
    ∧ field "info" card' ≫= field "description"
      = Some (default (JStr "") (Py.lookup "description" renamed_agent))
    ∧ (∀ k : string,
         k ≠ "name" → k ≠ "description" →
         field "info" card' ≫= field k
         = Py.lookup k
             [("id", JStr "abc"); ("name", JStr "Bob");
              ("description", JStr "Helper."); ("version", JStr "1.0.0");
              ("contact",
               JObj [("name", JStr "Bob");
                     ("url", JStr "http://0.0.0.0:8000/a2a/agents/abc")])])
    ∧ card_skills card'
      = Some [JObj [("name", JStr "x"); ("description", JStr "Skill in x")]]
    ∧ (∀ (self : AgentFactory) (created : json),
         card_content self "abc" (JObj renamed_agent) = Ok created →
         card_skills created
         = Some [JObj [("name", JStr "x");
                       ("description", JStr "Skill in x")]])
    ∧ ∀ k : string,
        k ≠ "info" → k ≠ "skills" →
        field k card' = field k bob_card.
Proof.
  apply (update_card_keeps_contact
           [("data/agent_cards/abc.json", bob_card)]
           (λ _, inl "no such file") "abc" renamed_agent
           "data/agent_cards/abc.json"); reflexivity.
Defined.

(** ** The status of an agent *)

Lemma update_status_known (reg : Registry.AgentRegistry) (now : string)
    (agent_id : string) (status : json) (r : nat)
    (d : list (string * json)) :
  Py.lookup agent_id (Registry.agents reg) = Some r →
  Registry.dicts reg !! r = Some d →
  Registry.update_agent_status reg now agent_id status
  = (Registry.set_dict reg r
       (Py.store "updated_at" (JStr now) (Py.store "status" status d)),
     true).
Proof.
  intros Hr Hd. unfold Registry.update_agent_status. rewrite Hr.
  rewrite (dict_at_known _ _ _ Hd).
  erewrite (dict_at_known (Registry.set_dict reg r _));
    [|by eapply dicts_set_eq].
  by rewrite set_dict_set_dict.
Qed.

(** X28.  [deactivate_agent] of a registered agent sets its status to
    [inactive] and its [updated_at] to the time of the call, in the dict
    the registry holds, so that [get_active_agents] no longer lists the
    agent, and [activate_agent] makes it listed again; for an id the
    registry does not know, both return [False] and change nothing. *)
Theorem deactivated_agent_is_not_active (reg : Registry.AgentRegistry)
    (now now' : string) (agent_id : string) :
  (Registry.get_agent reg agent_id = None →
   deactivate_agent reg now agent_id = (reg, false)
   ∧ activate_agent reg now agent_id = (reg, false))
  ∧ ∀ r : nat,
      Registry.get_agent reg agent_id = Some r →
      (r < length (Registry.dicts reg))%nat →
      ∃ reg' reg'' : Registry.AgentRegistry,
        deactivate_agent reg now agent_id = (reg', true)
        ∧ Py.lookup "status" (Registry.dict_at reg' r)
          = Some (JStr "inactive")
        ∧ Py.lookup "updated_at" (Registry.dict_at reg' r) = Some (JStr now)
        ∧ (r ∉ Registry.get_active_agents reg')
        ∧ activate_agent reg' now' agent_id = (reg'', true)
        ∧ (r ∈ Registry.get_active_agents reg'').
Proof.
  unfold Registry.get_agent. split.
  { intros Hr. unfold deactivate_agent, activate_agent,
      Registry.update_agent_status. by rewrite Hr. }
  intros r Hr.
  intros Hlt. destruct (lookup_lt_is_Some_2 _ _ Hlt) as [d Hd].
  unfold deactivate_agent, activate_agent.
  set (d2 := Py.store "updated_at" (JStr now)
               (Py.store "status" (JStr "inactive") d)).
  set (d4 := Py.store "updated_at" (JStr now')
               (Py.store "status" (JStr "active") d2)).
  set (reg2 := Registry.set_dict reg r d2).
  set (reg4 := Registry.set_dict reg2 r d4).
  assert (Hd2 : Registry.dicts reg2 !! r = Some d2).
  { by eapply dicts_set_eq. }
  assert (Hd4 : Registry.dicts reg4 !! r = Some d4).
  { by eapply dicts_set_eq. }
  exists reg2, reg4. rewrite (dict_at_known _ _ _ Hd2).
  split_and!.
  - by apply update_status_known.
  - unfold d2. rewrite lookup_store_ne by done. apply lookup_store_eq.
  - apply lookup_store_eq.
  - unfold Registry.get_active_agents, Registry.get_agents_by_status.
    rewrite list_elem_of_In, filter_In. intros [_ H].
    rewrite (dict_at_known _ _ _ Hd2) in H. unfold d2 in H.
    rewrite lookup_store_ne, lookup_store_eq in H by done. done.
  - by apply update_status_known.
  - unfold Registry.get_active_agents, Registry.get_agents_by_status.
    rewrite list_elem_of_In, filter_In. split.
    + apply list_elem_of_In.
      apply (list_elem_of_fmap_2 snd _ (agent_id, r)).
      by apply lookup_elem.
    + rewrite (dict_at_known _ _ _ Hd4). unfold d4.
      by rewrite lookup_store_ne, lookup_store_eq by done.
Qed.

Lemma deactivated_agent_is_not_active_witness :
  ∃ reg' reg'' : Registry.AgentRegistry,
    deactivate_agent registered "2026-02-02T00:00:00" "abc" = (reg', true)
    ∧ Py.lookup "status" (Registry.dict_at reg' 0) = Some (JStr "inactive")
    ∧ Py.lookup "updated_at" (Registry.dict_at reg' 0)
      = Some (JStr "2026-02-02T00:00:00")
    ∧ (0%nat ∉ Registry.get_active_agents reg')
    ∧ activate_agent reg' "2026-03-03T00:00:00" "abc" = (reg'', true)
    ∧ (0%nat ∈ Registry.get_active_agents reg'').
Proof.
  apply (proj2 (deactivated_agent_is_not_active registered
                  "2026-02-02T00:00:00" "2026-03-03T00:00:00" "abc") 0%nat);
    [reflexivity|cbn; lia].
Defined.

(** ** An agent without a name *)

(** X29.  [register_agent] reads [agent_info['name']] for its log line
    after it has stored the agent: for a dict without a [name] the call
    raises [KeyError], and the agent is registered all the same, stamped
    with the time of the call. *)
Theorem nameless_agent_is_registered (self : Registry.AgentRegistry)
    (now : string) (agent_id : string) (agent_info : nat)
    (d : list (string * json)) :
  Registry.get_agent self agent_id = None →
  Registry.dicts self !! agent_info = Some d →
  Py.lookup "name" d = None →
  ∃ self' : Registry.AgentRegistry,
    Registry.register_agent self now agent_id agent_info
    = (self', Raise KeyError)
    ∧ Registry.get_agent self' agent_id = Some agent_info
    ∧ Registry.dict_at self' agent_info
      = Py.store "updated_at" (JStr now) (Py.store "created_at" (JStr now) d).
Proof.
  intros Hnew Hd Hname. unfold Registry.get_agent in *.
  unfold Registry.register_agent. rewrite Hnew.
  set (self1 := Registry.set_dict self agent_info _).
  assert (Hd1 : Registry.dicts self1 !! agent_info
                = Some (Py.store "created_at" (JStr now) d)).
  { unfold self1. rewrite (dict_at_known _ _ _ Hd).
    by eapply dicts_set_eq. }
  rewrite (dict_at_known _ _ _ Hd1), lookup_store_eq.
  cbn [default from_option id].
  unfold self1. rewrite set_dict_set_dict.
  set (self3 := Registry.set_agents _ _).
  assert (Hd3 : Registry.dict_at self3 agent_info
                = Py.store "updated_at" (JStr now)
                    (Py.store "created_at" (JStr now) d)).
  { apply dict_at_known. by eapply dicts_set_eq. }
  rewrite Hd3. rewrite !lookup_store_ne, Hname by done.
  exists self3. split_and!; [done| |done].
  cbn. apply lookup_store_eq.
Qed.

Lemma nameless_agent_is_registered_witness :
  ∃ self' : Registry.AgentRegistry,
    Registry.register_agent nameless "2026-01-01T00:00:00" "n1" 0
    = (self', Raise KeyError)
    ∧ Registry.get_agent self' "n1" = Some 0%nat
    ∧ Registry.dict_at self' 0
      = Py.store "updated_at" (JStr "2026-01-01T00:00:00")
          (Py.store "created_at" (JStr "2026-01-01T00:00:00")
             [("id", JStr "n1"); ("skills", JArr [])]).
Proof.
  apply (nameless_agent_is_registered nameless "2026-01-01T00:00:00" "n1" 0
           [("id", JStr "n1"); ("skills", JArr [])]); reflexivity.
Defined.

(** ** Finding agents *)

Lemma prefix_refl (s : string) : String.prefix s s = true.
Proof.
  induction s as [|c s IH]; [done|]. cbn.
  destruct (Ascii.ascii_dec c c); [done|congruence].
Qed.

Lemma contains_refl (s : string) : Py.contains s s = true.
Proof.
  destruct s as [|c s]; [done|]. cbn [Py.contains]. by rewrite prefix_refl.
Qed.

Lemma filter_result_elem {A : Type} (f : A → result bool) (l : list A) :
  ∀ (xs : list A) (x : A),
    Registry.filter_result f l = Ok xs →
    (x ∈ xs → x ∈ l ∧ f x = Ok true)
    ∧ (x ∈ l → ∃ b, f x = Ok b ∧ (b = true → x ∈ xs)).
Proof.
  induction l as [|y l IH]; intros xs x H; cbn in H.
  - injection H as <-. split; [by intros ?%elem_of_nil|by intros ?%elem_of_nil].
  - destruct (f y) as [b|] eqn:Ey; [|done]. cbn [mbind result_bind] in H.
    destruct (Registry.filter_result f l) as [ys|] eqn:El; [|done].
    cbn in H. injection H as <-.
    destruct (IH ys x eq_refl) as [IH1 IH2]. split.
    + destruct b.
      * intros [->|Hin]%elem_of_cons; [split; [by left|done]|].
        destruct (IH1 Hin). split; [by right|done].
      * intros Hin. destruct (IH1 Hin). split; [by right|done].
    + intros [->|Hin]%elem_of_cons.
      * exists b. split; [done|]. intros ->. by left.
      * destruct (IH2 Hin) as (b' & Hb' & Hxs). exists b'. split; [done|].
        intros Hb. destruct b; [right|]; by apply Hxs.
Qed.

Lemma any_skill_elem (skill : string) (items : list json) (b : bool) :
  JStr skill ∈ items →
  Registry.any_skill (Py.lower skill) items = Ok b → b = true.
Proof.
  induction items as [|item items IH]; [by intros ?%elem_of_nil|].
  intros Hin H. cbn in H.
  destruct (Registry.lower_of item) as [s|] eqn:Es; [|done].
  cbn [mbind result_bind] in H.
  destruct (Py.contains (Py.lower skill) s) eqn:Ec; [by injection H|].
  apply elem_of_cons in Hin as [<-|Hin]; [|by apply IH].
  cbn in Es. injection Es as <-. by rewrite contains_refl in Ec.
Qed.

Lemma has_key_iter (skills : json) (skill : string) (items : list json) :
  Py.has_key skills skill = Ok true →
  (∀ s, skills ≠ JStr s) →
  Py.iter skills = Ok items →
  JStr skill ∈ items.
Proof.
  destruct skills as [| | |s|l|d]; try done.
  - intros _ H. by destruct (H s).
  - cbn. intros [= H] _ [= <-]. apply existsb_exists in H as (x & Hx & Heq).
    destruct x; try done. cbn in Heq. apply String.eqb_eq in Heq as ->.
    by apply list_elem_of_In.
  - cbn. intros [= H] _ [= <-]. apply bool_decide_eq_true in H as [v Hv].
    apply lookup_elem in Hv.
    by apply (list_elem_of_fmap_2 (λ kv, JStr kv.1) _ (skill, v)).
Qed.

(** X30.  Every agent that [get_agents_by_skill] finds for a skill,
    [search_agents] finds for the same query, whenever both return and the
    agent's [skills] are a list (or a dict) and not a single string: the
    search compares in lower case and by containment, which the exact
    comparison of [get_agents_by_skill] implies. *)
Theorem skilled_agents_are_found (self : Registry.AgentRegistry)
    (skill : string) (skilled found : list nat) (r : nat) :
  Registry.get_agents_by_skill self skill = Ok skilled →
  Registry.search_agents self skill = Ok found →
  r ∈ skilled →
  (∀ s, Py.lookup "skills" (Registry.dict_at self r) ≠ Some (JStr s)) →
  r ∈ found.
Proof.
  unfold Registry.get_agents_by_skill, Registry.search_agents.
  intros Hskilled Hfound Hr Hlist.
  destruct (proj1 (filter_result_elem _ _ _ r Hskilled) Hr) as [Hin Hhas].
  destruct (proj2 (filter_result_elem _ _ _ r Hfound) Hin)
    as (b & Hb & Hfind).
  apply Hfind. clear Hfind Hskilled Hfound Hr Hin.
  unfold Registry.search_matches in Hb.
  destruct (Registry.field_matches _ "name" _) as [[]|]; [by injection Hb| |done].
  cbn [mbind result_bind] in Hb.
  destruct (Registry.field_matches _ "description" _) as [[]|];
    [by injection Hb| |done].
  cbn [mbind result_bind] in Hb.
  destruct (Py.lookup "skills" (Registry.dict_at self r)) as [skills|];
    [|done].
  destruct (Py.iter skills) as [items|] eqn:Eit; [|done].
  cbn [mbind result_bind] in Hb.
  apply (any_skill_elem skill items); [|done].
  apply (has_key_iter skills); [done| |done].
  intros s ->. by apply (Hlist s).
Qed.

Lemma skilled_agents_are_found_witness :
  Registry.get_agents_by_skill registered "x" = Ok [0%nat]
  ∧ Registry.search_agents registered "x" = Ok [0%nat]
  ∧ 0%nat ∈ [0%nat].
Proof.
  split_and!; [reflexivity|reflexivity|].
  apply (skilled_agents_are_found registered "x" [0%nat] [0%nat] 0%nat);
    [reflexivity|reflexivity|by left|done].
Defined.
